(** * wca.platforms: a shallow embedding and its verified properties

    The development follows [wca/platforms.py]: the list-format codec
    ([decode_listformat], [encode_listformat]), the parsers of the
    kernel's pseudo-files ([parse_proc_stat], [parse_proc_meminfo],
    [parse_node_meminfo], [parse_node_cpus]), the topology collector, the
    RDT detector and the assembly of a [Platform].

    Python values are modelled as follows.
    - [str]: a list of characters (code points below 256).
    - [int]: [Z].
    - [Set[int]]: [gset Z].
    - [dict]: an insertion-ordered association list with unique keys.
    - an exception: the [Raise] branch of [result].

    The file has three parts: the program, the vocabulary of the
    statements, and the facts and theorems. *)

From Stdlib Require Import ZArith List Ascii String Lia Permutation QArith.
From stdpp Require Import base decidable list sorting gmap strings.

Import ListNotations.
Local Open Scope Z_scope.
Set Warnings "-clear-no-such-hyp".

(** * The program *)

(** ** Exceptions *)

Inductive exn : Type :=
| AssertionError
| ValueError
| KeyError
| IndexError
| OSError.

Inductive result (A : Type) : Type :=
| Ok (a : A)
| Raise (e : exn).

Arguments Ok {A} a.
Arguments Raise {A} e.

Definition bind {A B : Type} (c : result A) (k : A -> result B) : result B :=
  match c with
  | Ok a => k a
  | Raise e => Raise e
  end.

Notation "x <- c1 ;; c2" := (bind c1 (fun x => c2))
  (at level 100, c1 at next level, right associativity).

(** [for x in l: acc = f acc x], stopping at the first exception. *)
Fixpoint foldM {A S : Type} (f : S -> A -> result S) (l : list A) (s : S)
  : result S :=
  match l with
  | [] => Ok s
  | x :: l' => s' <- f s x ;; foldM f l' s'
  end.

(** [[f x for x in l]], stopping at the first exception. *)
Fixpoint mapM_r {A B : Type} (f : A -> result B) (l : list A) : result (list B) :=
  match l with
  | [] => Ok []
  | x :: l' => y <- f x ;; ys <- mapM_r f l' ;; Ok (y :: ys)
  end.

Definition is_ok {A : Type} (r : result A) : bool :=
  match r with Ok _ => true | Raise _ => false end.

(** ** Python strings *)

Definition str : Type := list ascii.

(** A string literal of the source. *)
Definition py (s : string) : str := list_ascii_of_string s.

Module PyStr.

(** [str.isspace] on one character: TAB..CR, FS..US, space, NEL, NBSP. *)
Definition is_space (c : ascii) : bool :=
  let n := nat_of_ascii c in
  (((9 <=? n) && (n <=? 13)) || ((28 <=? n) && (n <=? 32))
   || (n =? 133) || (n =? 160))%nat.

Fixpoint lstrip_with (sp : ascii -> bool) (s : str) : str :=
  match s with
  | [] => []
  | c :: s' => if sp c then lstrip_with sp s' else s
  end.

Definition strip_with (sp : ascii -> bool) (s : str) : str :=
  rev (lstrip_with sp (rev (lstrip_with sp s))).

(** [s.lstrip()] *)
Definition lstrip (s : str) : str := lstrip_with is_space s.

(** [s.strip()] *)
Definition strip (s : str) : str := strip_with is_space s.

(** [s.startswith(p)] *)
Fixpoint startswith (s p : str) {struct p} : bool :=
  match p with
  | [] => true
  | a :: p' =>
      match s with
      | [] => false
      | b :: s' => if decide (a = b) then startswith s' p' else false
      end
  end.

(** [sub in s] *)
Fixpoint contains (sub s : str) : bool :=
  startswith s sub ||
  match s with
  | [] => false
  | _ :: s' => contains sub s'
  end.

Definition cons_head (c : ascii) (l : list str) : list str :=
  match l with
  | [] => [[c]]
  | h :: t => (c :: h) :: t
  end.

(** [s.split(sep)] for a non-empty separator: the pieces between the
    non-overlapping occurrences of [sep], found from the left.  [skip]
    counts the characters of a matched separator still to be dropped. *)
Fixpoint split_from (sep : str) (skip : nat) (s : str) : list str :=
  match s with
  | [] => [[]]
  | c :: s' =>
      match skip with
      | S k => split_from sep k s'
      | O =>
          if startswith s sep
          then [] :: split_from sep (length sep - 1) s'
          else cons_head c (split_from sep 0 s')
      end
  end.

Definition split (sep : str) (s : str) : list str := split_from sep 0 s.

(** [s.split()]: the maximal runs of non-whitespace characters. *)
Fixpoint split_ws_from (cur : str) (s : str) : list str :=
  match s with
  | [] => match cur with [] => [] | _ => [rev cur] end
  | c :: s' =>
      if is_space c
      then match cur with
           | [] => split_ws_from [] s'
           | _ => rev cur :: split_ws_from [] s'
           end
      else split_ws_from (c :: cur) s'
  end.

Definition split_ws (s : str) : list str := split_ws_from [] s.

(** [sep.join(l)] *)
Fixpoint join (sep : str) (l : list str) : str :=
  match l with
  | [] => []
  | [x] => x
  | x :: l' => x ++ sep ++ join sep l'
  end.

(** [f.readlines()]: the lines with their terminators kept. *)
Fixpoint readlines_from (cur : str) (s : str) : list str :=
  match s with
  | [] => match cur with [] => [] | _ => [rev cur] end
  | c :: s' =>
      if decide (c = "010"%char)
      then rev (c :: cur) :: readlines_from [] s'
      else readlines_from (c :: cur) s'
  end.

Definition readlines (s : str) : list str := readlines_from [] s.

Definition is_digit (c : ascii) : bool :=
  let n := nat_of_ascii c in ((48 <=? n) && (n <=? 57))%nat.

Definition digit_value (c : ascii) : Z := Z.of_nat (nat_of_ascii c) - 48.

(** The digits of a decimal literal: [digit (["_"] digit)*].
    [prev] tells whether the previous character was a digit. *)
Fixpoint int_digits (acc : Z) (prev : bool) (s : str) : option Z :=
  match s with
  | [] => if prev then Some acc else None
  | c :: s' =>
      if is_digit c then int_digits (10 * acc + digit_value c) true s'
      else if decide (c = "_"%char)
           then (if prev then int_digits acc false s' else None)
           else None
  end.

(** The whitespace [int] skips: as [is_space] without FS..US. *)
Definition is_int_space (c : ascii) : bool :=
  let n := nat_of_ascii c in
  (((9 <=? n) && (n <=? 13)) || (n =? 32) || (n =? 133) || (n =? 160))%nat.

(** [int(s)]: surrounding whitespace, an optional sign, decimal digits
    with single underscores between them; no limit on their number. *)
Definition int (s : str) : result Z :=
  let t := strip_with is_int_space s in
  let '(neg, body) :=
    match t with
    | c :: r =>
        if decide (c = "-"%char) then (true, r)
        else if decide (c = "+"%char) then (false, r)
        else (false, t)
    | [] => (false, t)
    end in
  match int_digits 0 false body with
  | Some n => Ok (if neg then - n else n)
  | None => Raise ValueError
  end.

Definition digit_char (d : Z) : ascii := ascii_of_nat (Z.to_nat (48 + d)).

Fixpoint digits_of (fuel : nat) (n : Z) (acc : str) : str :=
  match fuel with
  | O => acc
  | S f =>
      let acc' := digit_char (n mod 10) :: acc in
      if n <? 10 then acc' else digits_of f (n / 10) acc'
  end.

(** [str(n)] for an [int]; a number below [2 ^ k] has at most [k]
    decimal digits, which bounds the recursion. *)
Definition of_int (n : Z) : str :=
  if n <? 0
  then "-"%char :: digits_of (S (Z.to_nat (Z.log2 (- n)))) (- n) []
  else digits_of (S (Z.to_nat (Z.log2 n))) n [].

End PyStr.

(** ** Python dictionaries

    Insertion-ordered, one entry per key: [d[k] = v] overwrites in place
    or appends. *)

Section PyDict.
Context {K V : Type} `{EqDecision K}.

Definition dict : Type := list (K * V).

Fixpoint dict_set (d : dict) (k : K) (v : V) : dict :=
  match d with
  | [] => [(k, v)]
  | (k', v') :: d' =>
      if decide (k' = k) then (k', v) :: d' else (k', v') :: dict_set d' k v
  end.

Fixpoint dict_get (d : dict) (k : K) : option V :=
  match d with
  | [] => None
  | (k', v') :: d' => if decide (k' = k) then Some v' else dict_get d' k
  end.

(** [d[k]], raising [KeyError] *)
Definition dict_item (d : dict) (k : K) : result V :=
  match dict_get d k with
  | Some v => Ok v
  | None => Raise KeyError
  end.

Definition dict_keys (d : dict) : list K := map fst d.
Definition dict_values (d : dict) : list V := map snd d.
Definition dict_items (d : dict) : list (K * V) := d.
Definition dict_len (d : dict) : Z := Z.of_nat (length d).

(** [d[k] = v] for every pair [(k, v)] of [l], in order *)
Definition dict_update (d : dict) (l : list (K * V)) : dict :=
  fold_left (fun d kv => dict_set d (fst kv) (snd kv)) l d.

(** [dict(pairs)] *)
Definition dict_of_pairs (l : list (K * V)) : dict := dict_update [] l.

End PyDict.

Arguments dict : clear implicits.

(** ** Sorting and grouping *)

Section Sorting.
Context {A : Type} (key : A -> Z).

Fixpoint insert_by (x : A) (l : list A) : list A :=
  match l with
  | [] => [x]
  | y :: l' => if key x <=? key y then x :: l else y :: insert_by x l'
  end.

(** [sorted(l, key=key)]: stable, ascending. *)
Definition py_sorted (l : list A) : list A := foldr insert_by [] l.

(** [itertools.groupby(l, key=key)] with every group made a list:
    the maximal runs of consecutive elements with equal keys. *)
Fixpoint groupby (l : list A) : list (Z * list A) :=
  match l with
  | [] => []
  | x :: l' =>
      match groupby l' with
      | (k, g) :: rest =>
          if decide (key x = k) then (k, x :: g) :: rest
          else (key x, [x]) :: (k, g) :: rest
      | [] => [(key x, [x])]
      end
  end.

End Sorting.

(** [range(start, stop)] *)
Definition py_range (start stop : Z) : list Z :=
  map (fun i => start + Z.of_nat i) (seq 0 (Z.to_nat (stop - start))).

(** ** The list-format codec *)

(** The body of the loop of [decode_listformat]. *)
Definition decode_range (cores : gset Z) (r : str) : result (gset Z) :=
  let boundaries := PyStr.split (py "-") r in
  match boundaries with
  | [b0] =>
      n <- PyStr.int (PyStr.strip b0) ;;
      Ok (cores ∪ {[ n ]})
  | [b0; b1] =>
      start <- PyStr.int (PyStr.strip b0) ;;
      end_ <- PyStr.int (PyStr.strip b1) ;;
      Ok (fold_left (fun s i => s ∪ {[ i ]}) (py_range start (end_ + 1)) cores)
  | _ => Ok cores
  end.

Definition decode_listformat (value : str) : result (gset Z) :=
  match value with
  | [] => Ok ∅
  | _ => foldM decode_range (PyStr.split (py ",") value) ∅
  end.

Definition encode_listformat (ints : gset Z) : str :=
  PyStr.join (py ",") (map PyStr.of_int (py_sorted id (elements ints))).

(** ** The host

    What one collection cycle reads: the text of every readable file by
    absolute path, the entries of the NUMA root directory, the host name,
    the installed distribution's version and the clock. *)

Record Env : Type := {
  files : dict str str;
  sysfs_node_entries : option (list str);
  hostname : str;
  wca_distribution : option str;
  clock : Q
}.

(** [open(path).read()] *)
Definition read_file (env : Env) (path : str) : result str :=
  match dict_get (files env) path with
  | Some text => Ok text
  | None => Raise OSError
  end.

(** [os.path.exists(path)] and [os.path.isfile(path)] *)
Definition path_exists (env : Env) (path : str) : bool :=
  match dict_get (files env) path with
  | Some _ => true
  | None => false
  end.

(** [os.path.join] of components none of which is absolute or ends in a
    slash, after the first. *)
Definition path_join (parts : list str) : str := PyStr.join (py "/") parts.

(** [l[i]] *)
Definition item {A : Type} (l : list A) (i : nat) : result A :=
  match nth_error l i with
  | Some x => Ok x
  | None => Raise IndexError
  end.

Definition get_wca_version (env : Env) : str :=
  match wca_distribution env with
  | Some version => version
  | None => py "unknown_version"
  end.

(** The characters before the first newline. *)
Fixpoint until_newline (s : str) : str :=
  match s with
  | [] => []
  | c :: s' => if decide (c = "010"%char) then [] else c :: until_newline s'
  end.

(** The regular expression of [get_cpu_model] matched at the start of a
    line given by [readlines]: the literal model-name key, whitespace, a
    colon, whitespace, then group 1, the rest of the line without its
    newline. *)
Definition match_model_name (s : str) : option str :=
  if PyStr.startswith s (py "model name")
  then match PyStr.lstrip (drop 10 s) with
       | c :: rest =>
           if decide (c = ":"%char)
           then Some (until_newline (PyStr.lstrip rest))
           else None
       | [] => None
       end
  else None.

(** [re.search]: the leftmost match. *)
Fixpoint search_model_name (s : str) : option str :=
  match match_model_name s with
  | Some g => Some g
  | None =>
      match s with
      | [] => None
      | _ :: s' => search_model_name s'
      end
  end.

Fixpoint first_model_name (lines : list str) : str :=
  match lines with
  | [] => py "unknown_cpu_model"
  | line :: lines' =>
      if PyStr.startswith line (py "model name")
      then match search_model_name line with
           | Some g => g
           | None => py "unknown_cpu_model"
           end
      else first_model_name lines'
  end.

Definition get_cpu_model (env : Env) : str :=
  match dict_get (files env) (py "/proc/cpuinfo") with
  | Some text => first_model_name (PyStr.readlines text)
  | None => py "unknown_cpu_model"
  end.

(** ** The records *)

Record RDTInformation : Type := {
  rdt_cache_monitoring_enabled : bool;
  rdt_mb_monitoring_enabled : bool;
  rdt_cache_control_enabled : bool;
  rdt_mb_control_enabled : bool;
  cbm_mask : option str;
  min_cbm_bits : option str;
  num_closids : option Z;
  mb_bandwidth_gran : option Z;
  mb_min_bandwidth : option Z
}.

Definition is_control_enabled (r : RDTInformation) : bool :=
  rdt_mb_control_enabled r || rdt_cache_control_enabled r.

Definition is_monitoring_enabled (r : RDTInformation) : bool :=
  rdt_mb_monitoring_enabled r || rdt_cache_monitoring_enabled r.

Record Platform : Type := {
  sockets : Z;
  cores : Z;
  cpus : Z;
  topology : dict Z (dict Z (list Z));
  cpu_model : str;
  cpus_usage : dict Z Z;
  total_memory_used : Z;
  node_memory_free : dict Z Z;
  node_memory_used : dict Z Z;
  node_cpus : dict Z (gset Z);
  timestamp : Q;
  rdt_information : option RDTInformation
}.

(** Modelled from the spec: of the names of [wca.metrics.MetricName], the
    two this module uses. *)
Inductive MetricName : Type :=
| MEM_USAGE
| CPU_USAGE_PER_CPU.

(** Modelled from the spec: the [Metric] class of [wca.metrics] is not
    among the sources.  A measurement point is a named numeric observation
    with optional key/value labels; [create_metric_with_metadata] builds
    it from the name, the value and the labels it is given. *)
Record Metric : Type := {
  metric_name : MetricName;
  metric_value : Z;
  metric_labels : option (dict str str)
}.

Definition create_metric_with_metadata
  (name : MetricName) (value : Z) (labels : option (dict str str)) : Metric :=
  {| metric_name := name; metric_value := value; metric_labels := labels |}.

(** ** Derived measurement points and tags *)

Definition create_metrics (platform : Platform) : list Metric :=
  let platform_metrics :=
    [create_metric_with_metadata MEM_USAGE (total_memory_used platform) None] in
  fold_left
    (fun metrics '(cpu_id, cpu_usage) =>
       metrics ++ [create_metric_with_metadata CPU_USAGE_PER_CPU cpu_usage
                     (Some [(py "cpu", PyStr.of_int cpu_id)])])
    (dict_items (cpus_usage platform)) platform_metrics.

Definition create_labels (env : Env) (platform : Platform) : dict str str :=
  let labels := [] in
  let labels := dict_set labels (py "sockets") (PyStr.of_int (sockets platform)) in
  let labels := dict_set labels (py "cores") (PyStr.of_int (cores platform)) in
  let labels := dict_set labels (py "cpus") (PyStr.of_int (cpus platform)) in
  let labels := dict_set labels (py "host") (hostname env) in
  let labels := dict_set labels (py "wca_version") (get_wca_version env) in
  let labels := dict_set labels (py "cpu_model") (get_cpu_model env) in
  labels.

(** ** Memory counters *)

Definition get_value_from_line (line : str) : result Z :=
  f <- item (PyStr.split_ws line) 1 ;;
  PyStr.int f.

Record meminfo_counters : Type := {
  mc_total : Z;
  mc_free : Z;
  mc_buffers : Z;
  mc_cache : Z
}.

(** The body of the loop of [parse_proc_meminfo]. *)
Definition parse_proc_meminfo_line (c : meminfo_counters) (line : str)
  : result meminfo_counters :=
  if PyStr.startswith line (py "MemTotal") then
    v <- get_value_from_line line ;;
    Ok {| mc_total := v; mc_free := mc_free c;
          mc_buffers := mc_buffers c; mc_cache := mc_cache c |}
  else if PyStr.startswith line (py "MemFree") then
    v <- get_value_from_line line ;;
    Ok {| mc_total := mc_total c; mc_free := v;
          mc_buffers := mc_buffers c; mc_cache := mc_cache c |}
  else if PyStr.startswith line (py "Buffers") then
    v <- get_value_from_line line ;;
    Ok {| mc_total := mc_total c; mc_free := mc_free c;
          mc_buffers := v; mc_cache := mc_cache c |}
  else if PyStr.startswith line (py "Cached") then
    v <- get_value_from_line line ;;
    Ok {| mc_total := mc_total c; mc_free := mc_free c;
          mc_buffers := mc_buffers c; mc_cache := v |}
  else Ok c.

Definition newline : str := ["010"%char].

Definition parse_proc_meminfo (proc_meminfo_output : str) : result Z :=
  c <- foldM parse_proc_meminfo_line (PyStr.split newline proc_meminfo_output)
         {| mc_total := 0; mc_free := 0; mc_buffers := 0; mc_cache := 0 |} ;;
  Ok (Z.shiftl (mc_total c - mc_free c - mc_buffers c - mc_cache c) 10).

Definition read_proc_meminfo (env : Env) : result str :=
  read_file env (py "/proc/meminfo").

(** ** NUMA nodes *)

Definition BASE_SYSFS_NODES_PATH : str := py "/sys/devices/system/node".

(** [os.listdir(BASE_SYSFS_NODES_PATH)] *)
Definition listdir_nodes (env : Env) : result (list str) :=
  match sysfs_node_entries env with
  | Some names => Ok names
  | None => Raise OSError
  end.

(** The body of the loop over the lines of one node's file; the state is
    the pair [(node_free, node_used)]. *)
Definition parse_node_meminfo_line (st : dict Z Z * dict Z Z) (line : str)
  : result (dict Z Z * dict Z Z) :=
  let '(node_free, node_used) := st in
  let s := PyStr.split_ws line in
  if negb (length s =? 5)%nat then Ok st
  else
    s1 <- item s 1 ;;
    s2 <- item s 2 ;;
    s3 <- item s 3 ;;
    node_free <-
      (if decide (s2 = py "MemFree:")
       then v <- PyStr.int s3 ;; k <- PyStr.int s1 ;;
            Ok (dict_set node_free k (Z.shiftl v 10))
       else Ok node_free) ;;
    node_used <-
      (if decide (s2 = py "MemUsed:")
       then v <- PyStr.int s3 ;; k <- PyStr.int s1 ;;
            Ok (dict_set node_used k (Z.shiftl v 10))
       else Ok node_used) ;;
    Ok (node_free, node_used).

(** The body of the loop over the directory entries. *)
Definition parse_node_meminfo_dir (env : Env) (st : dict Z Z * dict Z Z)
  (nodedir : str) : result (dict Z Z * dict Z Z) :=
  if PyStr.startswith nodedir (py "node") then
    let meminfo_filename :=
      path_join [BASE_SYSFS_NODES_PATH; nodedir; py "meminfo"] in
    text <- read_file env meminfo_filename ;;
    foldM parse_node_meminfo_line (PyStr.readlines text) st
  else Ok st.

Definition parse_node_meminfo (env : Env) : result (dict Z Z * dict Z Z) :=
  names <- listdir_nodes env ;;
  foldM (parse_node_meminfo_dir env) names ([], []).

Definition parse_node_cpus_dir (env : Env) (node_cpus : dict Z (gset Z))
  (nodedir : str) : result (dict Z (gset Z)) :=
  if PyStr.startswith nodedir (py "node") then
    node_id <- PyStr.int (drop 4 nodedir) ;;
    let cpu_list_filename :=
      path_join [BASE_SYSFS_NODES_PATH; nodedir; py "cpulist"] in
    text <- read_file env cpu_list_filename ;;
    cpus <- decode_listformat text ;;
    Ok (dict_set node_cpus node_id cpus)
  else Ok node_cpus.

Definition parse_node_cpus (env : Env) : result (dict Z (gset Z)) :=
  names <- listdir_nodes env ;;
  foldM (parse_node_cpus_dir env) names [].

(** ** CPU busy time *)

(** [int(l[i])] *)
Definition int_item (l : list str) (i : nat) : result Z :=
  f <- item l i ;; PyStr.int f.

(** The body of the loop of [parse_proc_stat]. *)
Definition parse_proc_stat_line (cpus_usage : dict Z Z) (line : str)
  : result (dict Z Z) :=
  match line with
  | [] => Ok cpus_usage
  | _ =>
      if PyStr.startswith line (py "cpu") then
        let cpu_stat_fields := PyStr.split (py " ") line in
        f0 <- item cpu_stat_fields 0 ;;
        match drop 3 f0 with
        | [] => Ok cpus_usage
        | cpu_id =>
            cpu_id <- PyStr.int cpu_id ;;
            user <- int_item cpu_stat_fields 1 ;;
            nice <- int_item cpu_stat_fields 2 ;;
            system <- int_item cpu_stat_fields 3 ;;
            irq <- int_item cpu_stat_fields 6 ;;
            softirq <- int_item cpu_stat_fields 7 ;;
            steal <- int_item cpu_stat_fields 8 ;;
            let cpu_usage := user + nice + system + irq + softirq + steal in
            Ok (dict_set cpus_usage cpu_id cpu_usage)
        end
      else Ok cpus_usage
  end.

Definition parse_proc_stat (proc_stat_output : str) : result (dict Z Z) :=
  foldM parse_proc_stat_line (PyStr.split newline proc_stat_output) [].

Definition read_proc_stat (env : Env) : result str :=
  read_file env (py "/proc/stat").

(** ** Topology *)

(** One record of the processor descriptor: [dict] of the stripped halves
    of its lines; [dict] raises [ValueError] for a line that does not split
    in two at its colons. *)
Definition parse_processor (proc : str) : result (dict str str) :=
  pairs <- mapM_r
             (fun line =>
                match map PyStr.strip (PyStr.split (py ":") line) with
                | [k; v] => Ok (k, v)
                | _ => Raise ValueError
                end)
             (PyStr.split newline proc) ;;
  Ok (dict_of_pairs pairs).

Definition is_nonempty (s : str) : bool :=
  match s with [] => false | _ => true end.

Definition parse_processors (procinfo : str) : result (list (dict str str)) :=
  mapM_r parse_processor
    (filter (fun proc => is_nonempty proc = true)
       (PyStr.split (newline ++ newline) procinfo)).

Definition int_field (name : str) (processor : dict str str) : result Z :=
  v <- dict_item processor name ;; PyStr.int v.

Definition by_physical_id : dict str str -> result Z := int_field (py "physical id").
Definition by_core_id : dict str str -> result Z := int_field (py "core id").

(** [groupby(sorted(l, key=key), key=key)]: every key is computed, in the
    order of [l], before anything is compared. *)
Definition sorted_groups {A : Type} (key : A -> result Z) (l : list A)
  : result (list (Z * list A)) :=
  keys <- mapM_r key l ;;
  Ok (map (fun '(k, g) => (k, map snd g))
        (groupby fst (py_sorted fst (combine keys l)))).

Definition topology_t : Type := dict Z (dict Z (list Z)).

(** [topology[physical_id][core_id] = cpus] on the [defaultdict(dict)] *)
Definition topology_set (topology : topology_t) (physical_id core_id : Z)
  (cpus : list Z) : topology_t :=
  let inner :=
    match dict_get topology physical_id with
    | Some d => d
    | None => []
    end in
  dict_set topology physical_id (dict_set inner core_id cpus).

Definition add_core (physical_id : Z) (topology : topology_t)
  (group : Z * list (dict str str)) : result topology_t :=
  let '(core_id, core_processors) := group in
  cpus <- mapM_r (int_field (py "processor")) core_processors ;;
  Ok (topology_set topology physical_id core_id cpus).

Definition add_socket (topology : topology_t)
  (group : Z * list (dict str str)) : result topology_t :=
  let '(physical_id, socket_processors) := group in
  core_groups <- sorted_groups by_core_id socket_processors ;;
  foldM (add_core physical_id) core_groups topology.

Definition build_topology (processors : list (dict str str)) : result topology_t :=
  socket_groups <- sorted_groups by_physical_id processors ;;
  foldM add_socket socket_groups [].

Definition sum_Z (l : list Z) : Z := fold_left Z.add l 0.

(** Returns [(nr_of_online_cpus, nr_of_cores, nr_of_sockets, topology)]. *)
Definition collect_topology_information (env : Env)
  : result (Z * Z * Z * topology_t) :=
  procinfo <- read_file env (py "/proc/cpuinfo") ;;
  processors <- parse_processors procinfo ;;
  topology <- build_topology processors ;;
  let nr_of_online_cpus := Z.of_nat (length processors) in
  let nr_of_cores := sum_Z (map dict_len (dict_values topology)) in
  let nr_of_sockets := dict_len topology in
  Ok (nr_of_online_cpus, nr_of_cores, nr_of_sockets, topology).

(** ** RDT *)

Definition BASE_RESCTRL_PATH : str := py "/sys/fs/resctrl".
Definition MBM_TOTAL : str := py "mbm_total_bytes".
Definition LLC_OCCUPANCY : str := py "llc_occupancy".

Definition _read_value (env : Env) (subpath : str) : result str :=
  text <- read_file env (path_join [BASE_RESCTRL_PATH; subpath]) ;;
  Ok (PyStr.strip text).

Definition read_int_value (env : Env) (subpath : str) : result Z :=
  v <- _read_value env subpath ;; PyStr.int v.

Definition _collect_rdt_information (env : Env) : result RDTInformation :=
  let rdt_cache_monitoring_enabled :=
    path_exists env
      (path_join [BASE_RESCTRL_PATH; py "mon_data/mon_L3_00"; LLC_OCCUPANCY]) in
  let rdt_mb_monitoring_enabled :=
    path_exists env
      (path_join [BASE_RESCTRL_PATH; py "mon_data/mon_L3_00"; MBM_TOTAL]) in
  schemata_body <- _read_value env (py "schemata") ;;
  let rdt_cache_control_enabled := PyStr.contains (py "L3") schemata_body in
  cache <-
    (if rdt_cache_control_enabled then
       cbm_mask <- _read_value env (py "info/L3/cbm_mask") ;;
       min_cbm_bits <- _read_value env (py "info/L3/min_cbm_bits") ;;
       num_closids <- read_int_value env (py "info/L3/num_closids") ;;
       Ok (Some cbm_mask, Some min_cbm_bits, Some num_closids)
     else Ok (None, None, None)) ;;
  let '(cbm_mask, min_cbm_bits, num_closids) := cache in
  let rdt_mb_control_enabled := PyStr.contains (py "MB:") schemata_body in
  mb <-
    (if rdt_mb_control_enabled then
       mb_bandwidth_gran <- read_int_value env (py "info/MB/bandwidth_gran") ;;
       mb_min_bandwidth <- read_int_value env (py "info/MB/min_bandwidth") ;;
       mb_num_closids <- read_int_value env (py "info/MB/num_closids") ;;
       Ok (Some mb_bandwidth_gran, Some mb_min_bandwidth, Some mb_num_closids)
     else Ok (None, None, None)) ;;
  let '(mb_bandwidth_gran, mb_min_bandwidth, mb_num_closids) := mb in
  let num_closids :=
    if rdt_cache_control_enabled && rdt_mb_control_enabled
    then match num_closids, mb_num_closids with
         | Some a, Some b => Some (Z.min a b)
         | _, _ => num_closids
         end
    else num_closids in
  Ok {| rdt_cache_monitoring_enabled := rdt_cache_monitoring_enabled;
        rdt_mb_monitoring_enabled := rdt_mb_monitoring_enabled;
        rdt_cache_control_enabled := rdt_cache_control_enabled;
        rdt_mb_control_enabled := rdt_mb_control_enabled;
        cbm_mask := cbm_mask;
        min_cbm_bits := min_cbm_bits;
        num_closids := num_closids;
        mb_bandwidth_gran := mb_bandwidth_gran;
        mb_min_bandwidth := mb_min_bandwidth |}.

(** ** Assembly *)

Definition collect_platform_information (env : Env) (rdt_enabled : bool)
  : result (Platform * list Metric * dict str str) :=
  topo <- collect_topology_information env ;;
  let '(nr_of_cpus, nr_of_cores, no_of_sockets, topology) := topo in
  rdt_information <-
    (if rdt_enabled
     then r <- _collect_rdt_information env ;; Ok (Some r)
     else Ok None) ;;
  stat <- read_proc_stat env ;;
  cpus_usage' <- parse_proc_stat stat ;;
  meminfo <- read_proc_meminfo env ;;
  total_memory_used <- parse_proc_meminfo meminfo ;;
  node_mem <- parse_node_meminfo env ;;
  let '(node_free, node_used) := node_mem in
  let cpu_model := get_cpu_model env in
  let timestamp := clock env in
  node_cpus <- parse_node_cpus env ;;
  let platform :=
    {| sockets := no_of_sockets;
       cores := nr_of_cores;
       cpus := nr_of_cpus;
       topology := topology;
       cpu_model := cpu_model;
       cpus_usage := cpus_usage';
       total_memory_used := total_memory_used;
       node_memory_free := node_free;
       node_memory_used := node_used;
       node_cpus := node_cpus;
       timestamp := timestamp;
       rdt_information := rdt_information |} in
  if decide (dict_len (cpus_usage platform) = cpus platform)
  then Ok (platform, create_metrics platform, create_labels env platform)
  else Raise AssertionError.

(** * Specification vocabulary

    The predicates, renderings and example hosts the statements of the
    last part are written with. *)

(** ** Strings *)

(** Only decimal digits. *)
Definition all_digits (s : str) : Prop :=
  Forall (fun c => PyStr.is_digit c = true) s.

(** The number a string of digits denotes, after the digits [a]. *)
Definition digits_val (l : str) (a : Z) : Z :=
  fold_left (fun a c => 10 * a + PyStr.digit_value c) l a.

(** No whitespace character. *)
Definition no_space (s : str) : Prop :=
  Forall (fun c => PyStr.is_space c = false) s.

(** The characters of [str(n)]. *)
Definition sign_or_digit (c : ascii) : Prop :=
  PyStr.is_digit c = true \/ c = "-"%char.

(** Only whitespace characters. *)
Definition all_space (s : str) : Prop := Forall (fun c => PyStr.is_space c = true) s.

(** Empty, or beginning with a whitespace character. *)
Definition starts_with_space (s : str) : Prop :=
  match s with
  | [] => True
  | c :: _ => PyStr.is_space c = true
  end.

(** No newline character. *)
Definition no_newline (s : str) : Prop := ~ In "010"%char s.

Definition space : str := [" "%char].

(** ** Sets and groups *)

(** [cores.add(i)] for every [i] of [l]. *)
Definition add_all (cores : gset Z) (l : list Z) : gset Z :=
  fold_left (fun s i => s ∪ {[ i ]}) l cores.

(** The order [sorted] sorts by. *)
Definition key_le {A : Type} (key : A -> Z) (x y : A) : Prop := key x <= key y.

(** A group is not empty and its members have its key. *)
Definition group_ok {A : Type} (key : A -> Z) (kg : Z * list A) : Prop :=
  snd kg <> [] /\ Forall (fun x => key x = fst kg) (snd kg).

(** ** Measurement points *)

(** The busy-time point of one entry of the busy-time mapping. *)
Definition per_cpu_point (entry : Z * Z) : Metric :=
  create_metric_with_metadata CPU_USAGE_PER_CPU (snd entry)
    (Some [(py "cpu", PyStr.of_int (fst entry))]).

Definition is_mem_usage (m : Metric) : bool :=
  match metric_name m with MEM_USAGE => true | CPU_USAGE_PER_CPU => false end.

(** ** Texts of CPU statistics *)

(** The lines of the aggregate CPU statistics. *)
Inductive stat_line : Type :=
| AggregateLine (rest : str)
| CpuLine (cpu_id : Z) (counters : list Z)
| OtherLine (text : str).

(** A line as text: fields separated by single spaces. *)
Definition render_stat_line (l : stat_line) : str :=
  match l with
  | AggregateLine rest => py "cpu" ++ space ++ rest
  | CpuLine cpu_id counters =>
      py "cpu" ++ PyStr.of_int cpu_id ++ space
      ++ PyStr.join space (map PyStr.of_int counters)
  | OtherLine text => text
  end.

Definition render_stat (lines : list stat_line) : str :=
  PyStr.join newline (map render_stat_line lines).

(** A per-CPU line has at least the 8 counters up to steal; other lines
    do not begin with [cpu]. *)
Definition wf_stat_line (l : stat_line) : Prop :=
  match l with
  | AggregateLine rest => no_newline rest
  | CpuLine cpu_id counters => (8 <= length counters)%nat
  | OtherLine text => no_newline text /\ PyStr.startswith text (py "cpu") = false
  end.

(** user + nice + system + irq + softirq + steal: the counters at the
    positions 1, 2, 3, 6, 7 and 8 of the line. *)
Definition busy_time (counters : list Z) : Z :=
  nth 0 counters 0 + nth 1 counters 0 + nth 2 counters 0
  + nth 5 counters 0 + nth 6 counters 0 + nth 7 counters 0.

(** The entries of the per-CPU lines, in the order of the text. *)
Fixpoint cpu_entries (lines : list stat_line) : list (Z * Z) :=
  match lines with
  | [] => []
  | CpuLine cpu_id counters :: lines' =>
      (cpu_id, busy_time counters) :: cpu_entries lines'
  | _ :: lines' => cpu_entries lines'
  end.

(** ** Texts of memory counters *)

(** A line [Key:   value unit] of the memory counters, or any other line
    that begins with none of the four names the parser looks for. *)
Inductive meminfo_line : Type :=
| CounterLine (key pad : str) (value : Z) (rest : str)
| PlainLine (text : str).

Definition render_meminfo_line (l : meminfo_line) : str :=
  match l with
  | CounterLine key pad value rest =>
      key ++ py ":" ++ pad ++ PyStr.of_int value ++ rest
  | PlainLine text => text
  end.

Definition render_meminfo (lines : list meminfo_line) : str :=
  PyStr.join newline (map render_meminfo_line lines).

Definition counter_names : list str :=
  [py "MemTotal"; py "MemFree"; py "Buffers"; py "Cached"].

(** The key has no whitespace, the padding after the colon is whitespace
    and the value ends at whitespace or at the end of the line. *)
Definition wf_meminfo_line (l : meminfo_line) : Prop :=
  match l with
  | CounterLine key pad value rest =>
      no_space key /\ all_space pad /\ pad <> [] /\ no_newline pad
      /\ starts_with_space rest /\ no_newline rest
  | PlainLine text =>
      no_newline text
      /\ Forall (fun name => PyStr.startswith text name = false) counter_names
  end.

(** The value of the counter [name]: that of the last line whose key
    begins with [name], or zero. *)
Fixpoint counter (name : str) (lines : list meminfo_line) (default : Z) : Z :=
  match lines with
  | [] => default
  | CounterLine key _ value _ :: lines' =>
      counter name lines' (if PyStr.startswith key name then value else default)
  | PlainLine _ :: lines' => counter name lines' default
  end.

(** The counters after one line. *)
Definition counters_after (c : meminfo_counters) (l : meminfo_line)
  : meminfo_counters :=
  match l with
  | CounterLine key _ value _ =>
      {| mc_total := if PyStr.startswith key (py "MemTotal") then value else mc_total c;
         mc_free := if PyStr.startswith key (py "MemFree") then value else mc_free c;
         mc_buffers := if PyStr.startswith key (py "Buffers") then value else mc_buffers c;
         mc_cache := if PyStr.startswith key (py "Cached") then value else mc_cache c |}
  | PlainLine _ => c
  end.

(** ** NUMA memory *)

(** The entries of the NUMA root whose files the collector opens. *)
Definition is_node_dir (nodedir : str) : Prop :=
  PyStr.startswith nodedir (py "node") = true.

(** The lines of the memory-info files of the node directories, in the
    order of the listing. *)
Definition node_meminfo_lines (env : Env) : result (list str) :=
  names <- listdir_nodes env ;;
  texts <- mapM_r
             (fun nodedir =>
                read_file env
                  (path_join [BASE_SYSFS_NODES_PATH; nodedir; py "meminfo"]))
             (filter is_node_dir names) ;;
  Ok (concat (map PyStr.readlines texts)).

(** What a line offers to the mapping selected by [label]: its 2nd and
    4th fields, when it has exactly 5 fields and the 3rd is [label]. *)
Definition contribution (label : str) (line : str) : option (str * str) :=
  match PyStr.split_ws line with
  | [_; s1; s2; s3; _] => if decide (s2 = label) then Some (s1, s3) else None
  | _ => None
  end.

(** The entry recorded for a contribution: key from the 2nd field, value
    the 4th field shifted left by 10 bits. *)
Definition node_entry (c : str * str) : result (Z * Z) :=
  v <- PyStr.int (snd c) ;;
  k <- PyStr.int (fst c) ;;
  Ok (k, Z.shiftl v 10).

Definition node_entries (label : str) (lines : list str) : result (list (Z * Z)) :=
  mapM_r node_entry (omap (contribution label) lines).

(** The reading of C7 as it is worded: every key of the two mappings is
    the integer suffix of the name of a listed node directory. *)
Definition keyed_by_directory (env : Env) : Prop :=
  forall node_free node_used k,
    parse_node_meminfo env = Ok (node_free, node_used) ->
    In k (dict_keys node_free ++ dict_keys node_used) ->
    exists names nodedir,
      sysfs_node_entries env = Some names
      /\ In nodedir names
      /\ PyStr.startswith nodedir (py "node") = true
      /\ PyStr.int (drop 4 nodedir) = Ok k.

(** ** Topology *)

(** The integer behind a key of a record (zero when there is none). *)
Definition id_of (name : str) (processor : dict str str) : Z :=
  match int_field name processor with
  | Ok z => z
  | Raise _ => 0
  end.

Definition socket_of : dict str str -> Z := id_of (py "physical id").
Definition core_of : dict str str -> Z := id_of (py "core id").
Definition cpu_of : dict str str -> Z := id_of (py "processor").

(** The record has the three keys, each with an integer value. *)
Definition has_ids (processor : dict str str) : Prop :=
  is_ok (by_physical_id processor) = true
  /\ is_ok (by_core_id processor) = true
  /\ is_ok (int_field (py "processor") processor) = true.

(** The grouping the collector computes, as a function of the records. *)
Definition inner_of (socket_processors : list (dict str str)) : dict Z (list Z) :=
  map (fun g => (fst g, map cpu_of (snd g)))
    (groupby core_of (py_sorted core_of socket_processors)).

(** The mapping the collector builds, as a function of the records. *)
Definition topology_of (processors : list (dict str str)) : topology_t :=
  map (fun g => (fst g, inner_of (snd g)))
    (groupby socket_of (py_sorted socket_of processors)).

(** The entry of one group of a socket: the core id and its CPU ids. *)
Definition core_entry (g : Z * list (dict str str)) : Z * list Z :=
  (fst g, map cpu_of (snd g)).

(** Every CPU id held by the structure, with repetitions. *)
Definition topology_cpus (topology : topology_t) : list Z :=
  concat (map (fun entry => concat (dict_values (snd entry))) topology).

(** The distinct socket ids of the records. *)
Definition socket_ids (processors : list (dict str str)) : gset Z :=
  list_to_set (map socket_of processors).

(** The distinct core ids of the records of socket [s]. *)
Definition core_ids (processors : list (dict str str)) (s : Z) : gset Z :=
  list_to_set (map core_of (filter (fun p => socket_of p = s) processors)).

(** A line of a record of the processor descriptor as the kernel writes
    it: the key, the blanks that pad it (tabs, or nothing), a colon, the
    blanks before the value (a space, or nothing where the value is
    empty) and the value. *)
Record field_line : Type := {
  line_key : str;
  line_pad : str;
  line_gap : str;
  line_value : str
}.

Definition render_field (f : field_line) : str :=
  line_key f ++ line_pad f ++ py ":" ++ line_gap f ++ line_value f.

(** The key and the value of a line. *)
Definition field_of (f : field_line) : str * str := (line_key f, line_value f).

(** The record as a dictionary: its keys with their values. *)
Definition record_dict (fields : list field_line) : dict str str :=
  dict_of_pairs (map field_of fields).

(** The text of a record: one line per field. *)
Definition render_record (fields : list field_line) : str :=
  PyStr.join newline (map render_field fields).

(** The processor descriptor: every record followed by a blank line. *)
Definition render_cpuinfo (records : list (list field_line)) : str :=
  concat (map (fun r => render_record r ++ newline ++ newline) records).

(** Neither the first nor the last character is whitespace. *)
Definition stripped (s : str) : Prop :=
  (forall c t, s = c :: t -> PyStr.is_space c = false)
  /\ (forall c t, s = t ++ [c] -> PyStr.is_space c = false).

(** A key or a value: stripped, without colon and without newline. *)
Definition wf_word (s : str) : Prop :=
  stripped s /\ ~ In ":"%char s /\ no_newline s.

(** The blanks around the colon: whitespace of the line. *)
Definition wf_pad (s : str) : Prop := all_space s /\ no_newline s.

Definition wf_field (f : field_line) : Prop :=
  wf_word (line_key f) /\ wf_word (line_value f)
  /\ wf_pad (line_pad f) /\ wf_pad (line_gap f).

Definition wf_record (fields : list field_line) : Prop :=
  fields <> [] /\ Forall wf_field fields.

(** No blank line inside and no newline at the end. *)
Fixpoint no_blank_line (s : str) : Prop :=
  match s with
  | [] => True
  | c :: s' =>
      match s' with
      | [] => c <> "010"%char
      | d :: _ => c = "010"%char -> d <> "010"%char
      end
      /\ no_blank_line s'
  end.

(** The line [key<pad>:<gap>value]. *)
Definition kernel_line (key pad gap value : str) : field_line :=
  {| line_key := key; line_pad := pad; line_gap := gap; line_value := value |}.

Definition tab : str := ["009"%char].

(** The lines of the record of one logical processor, padded as the x86
    kernel pads them: one tab after a long key, two after a short one, no
    blank after the colon of an empty value, and no blank at all in the
    last line. *)
Definition cpuinfo_fields (processor physical_id core_id : Z) : list field_line :=
  [kernel_line (py "processor") tab space (PyStr.of_int processor);
   kernel_line (py "model name") tab space (py "Example CPU @ 2.30GHz");
   kernel_line (py "physical id") tab space (PyStr.of_int physical_id);
   kernel_line (py "core id") (tab ++ tab) space (PyStr.of_int core_id);
   kernel_line (py "flags") (tab ++ tab) space (py "fpu vme de pse");
   kernel_line (py "bugs") (tab ++ tab) [] [];
   kernel_line (py "power management") [] [] []].

(** The reading of C5 as it is worded, in its last part: no CPU id is
    repeated anywhere in the structure the collector returns. *)
Definition no_cpu_repeated (env : Env) : Prop :=
  forall nr_of_cpus nr_of_cores nr_of_sockets topology,
    collect_topology_information env
    = Ok (nr_of_cpus, nr_of_cores, nr_of_sockets, topology) ->
    NoDup (topology_cpus topology).

(** ** Assembly *)

(** The RDT step of the assembly. *)
Definition collect_rdt_step (env : Env) (rdt_enabled : bool)
  : result (option RDTInformation) :=
  if rdt_enabled
  then r <- _collect_rdt_information env ;; Ok (Some r)
  else Ok None.

(** The reading of C1 as it is worded: whenever the topology collector
    and the utilization parser have produced their results, the call
    raises the assertion error if the counts differ and returns a
    platform if they agree. *)
Definition assertion_decides (env : Env) (rdt_enabled : bool) : Prop :=
  forall nr_of_cpus nr_of_cores no_of_sockets topo stat usage,
    collect_topology_information env
    = Ok (nr_of_cpus, nr_of_cores, no_of_sockets, topo) ->
    read_proc_stat env = Ok stat ->
    parse_proc_stat stat = Ok usage ->
    (dict_len usage <> nr_of_cpus ->
     collect_platform_information env rdt_enabled = Raise AssertionError)
    /\ (dict_len usage = nr_of_cpus ->
        exists r, collect_platform_information env rdt_enabled = Ok r).

(** ** Example hosts *)

Definition example_cpuinfo : str := py
"processor : 0
model name : Example CPU
physical id : 0
core id : 0

processor : 1
model name : Example CPU
physical id : 0
core id : 0

".

Definition example_stat : str := py
"cpu  30 2 40 500 6 7 8 9 1 1
cpu0 10 1 20 300 4 5 6 7 1 1
cpu1 20 1 20 200 2 2 2 2 0 0
intr 12345 0 0
".

Definition example_meminfo : str := py
"MemTotal:       1000 kB
MemFree:         400 kB
Buffers:         100 kB
Cached:          100 kB
".

Definition example_node_meminfo : str := py
"Node 0 MemTotal:       1000 kB
Node 0 MemFree:         400 kB
Node 0 MemUsed:         600 kB
Node 0 HugePages_Total:     0
".

(** The files of a host with one socket, one core and two threads. *)
Definition example_files : dict str str :=
  [(py "/proc/cpuinfo", example_cpuinfo);
   (py "/proc/stat", example_stat);
   (py "/proc/meminfo", example_meminfo);
   (py "/sys/devices/system/node/node0/meminfo", example_node_meminfo);
   (py "/sys/devices/system/node/node0/cpulist", py "0-1
");
   (py "/sys/fs/resctrl/schemata", py "L3:0=fffff
MB:0=100
");
   (py "/sys/fs/resctrl/mon_data/mon_L3_00/llc_occupancy", py "0");
   (py "/sys/fs/resctrl/info/L3/cbm_mask", py "fffff
");
   (py "/sys/fs/resctrl/info/L3/min_cbm_bits", py "1
");
   (py "/sys/fs/resctrl/info/L3/num_closids", py "16
");
   (py "/sys/fs/resctrl/info/MB/bandwidth_gran", py "10
");
   (py "/sys/fs/resctrl/info/MB/min_bandwidth", py "10
");
   (py "/sys/fs/resctrl/info/MB/num_closids", py "8
")].

(** A host with one NUMA node and RDT. *)
Definition example_host : Env :=
  {| files := example_files;
     sysfs_node_entries := Some [py "has_cpu"; py "node0"; py "online"];
     hostname := py "host0";
     wca_distribution := Some (py "1.0");
     clock := 0 |}.

(** What the detector reads on [example_host]. *)
Definition example_rdt : RDTInformation :=
  {| rdt_cache_monitoring_enabled := true;
     rdt_mb_monitoring_enabled := false;
     rdt_cache_control_enabled := true;
     rdt_mb_control_enabled := true;
     cbm_mask := Some (py "fffff");
     min_cbm_bits := Some (py "1");
     num_closids := Some 8;
     mb_bandwidth_gran := Some 10;
     mb_min_bandwidth := Some 10 |}.

Definition example_topology : topology_t := [(0, [(0, [0; 1])])].

(** A platform as [example_host] gives it. *)
Definition example_platform : Platform :=
  {| sockets := 1; cores := 1; cpus := 2;
     topology := example_topology;
     cpu_model := py "Example CPU";
     cpus_usage := [(0, 49); (1, 47)]; total_memory_used := 409600;
     node_memory_free := [(0, 409600)];
     node_memory_used := [(0, 614400)];
     node_cpus := [(0, {[ 0; 1 ]})]; timestamp := 0;
     rdt_information := Some example_rdt |}.

Definition example_stat_lines : list stat_line :=
  [AggregateLine (py " 30 2 40 500 6 7 8 9 1 1");
   CpuLine 0 [10; 1; 20; 300; 4; 5; 6; 7; 1; 1];
   CpuLine 1 [20; 1; 20; 200; 2; 2; 2; 2; 0; 0];
   OtherLine (py "intr 12345 0 0");
   OtherLine (py "")].

Definition example_meminfo_lines : list meminfo_line :=
  [CounterLine (py "MemTotal") (py "       ") 1000 (py " kB");
   CounterLine (py "MemFree") (py "         ") 400 (py " kB");
   CounterLine (py "Buffers") (py "         ") 100 (py " kB");
   CounterLine (py "Cached") (py "          ") 100 (py " kB");
   PlainLine (py "")].

(** The same host on a kernel that exposes no NUMA root directory. *)
Definition host_without_numa : Env :=
  {| files := example_files;
     sysfs_node_entries := None;
     hostname := py "host0";
     wca_distribution := Some (py "1.0");
     clock := 0 |}.

(** The NUMA-less host with a third CPU in the statistics only. *)
Definition host_without_numa_3 : Env :=
  {| files := dict_set example_files (py "/proc/stat")
                (example_stat ++ py "cpu2 1 1 1 1 1 1 1 1 1 1
");
     sysfs_node_entries := None;
     hostname := py "host0";
     wca_distribution := Some (py "1.0");
     clock := 0 |}.

(** The host whose only node directory holds a line naming another node. *)
Definition host_mislabelled_node : Env :=
  {| files := [(py "/sys/devices/system/node/node0/meminfo",
                py "Node 1 MemFree: 4 kB
")];
     sysfs_node_entries := Some [py "node0"];
     hostname := py "host0";
     wca_distribution := None;
     clock := 0 |}.

(** Two sockets of two cores of two threads, numbered as Linux does. *)
Definition records_2x2x2 : list (list field_line) :=
  [cpuinfo_fields 0 0 0; cpuinfo_fields 1 0 1;
   cpuinfo_fields 2 1 0; cpuinfo_fields 3 1 1;
   cpuinfo_fields 4 0 0; cpuinfo_fields 5 0 1;
   cpuinfo_fields 6 1 0; cpuinfo_fields 7 1 1].

Definition cpuinfo_2x2x2 : str := render_cpuinfo records_2x2x2.

(** The host with that processor descriptor alone. *)
Definition host_2x2x2 : Env :=
  {| files := [(py "/proc/cpuinfo", cpuinfo_2x2x2)];
     sysfs_node_entries := None;
     hostname := py "host1";
     wca_distribution := None;
     clock := 0 |}.

Definition processors_2x2x2 : list (dict str str) :=
  Eval vm_compute in
    match parse_processors cpuinfo_2x2x2 with
    | Ok processors => processors
    | Raise _ => []
    end.

(** A descriptor with two records of the same processor number. *)
Definition records_repeated : list (list field_line) :=
  [cpuinfo_fields 0 0 0; cpuinfo_fields 0 0 0].

Definition host_repeated_processor : Env :=
  {| files := [(py "/proc/cpuinfo", render_cpuinfo records_repeated)];
     sysfs_node_entries := None;
     hostname := py "host1";
     wca_distribution := None;
     clock := 0 |}.

(** ** Vocabulary of the further properties *)

(** An item of a list-format text: a number or an inclusive range. *)
Inductive list_item : Type :=
| Single (n : Z)
| Range (first last : Z).

Definition render_item (i : list_item) : str :=
  match i with
  | Single n => PyStr.of_int n
  | Range first last => PyStr.of_int first ++ py "-" ++ PyStr.of_int last
  end.

(** The text of the items, separated by commas. *)
Definition render_listformat (items : list list_item) : str :=
  PyStr.join (py ",") (map render_item items).

Definition item_nonneg (i : list_item) : Prop :=
  match i with
  | Single n => 0 <= n
  | Range first last => 0 <= first /\ 0 <= last
  end.

(** The numbers an item stands for. *)
Definition covers (i : list_item) (x : Z) : Prop :=
  match i with
  | Single n => x = n
  | Range first last => first <= x <= last
  end.

Definition item_numbers (i : list_item) : list Z :=
  match i with
  | Single n => [n]
  | Range first last => py_range first (last + 1)
  end.

(** [l] with [pad] appended to its last element. *)
Fixpoint append_last (pad : str) (l : list str) : list str :=
  match l with
  | [] => []
  | [x] => [x ++ pad]
  | x :: l' => x :: append_last pad l'
  end.


(** The entry a node directory gives to the CPU mapping. *)
Definition cpulist_path (nodedir : str) : str :=
  path_join [BASE_SYSFS_NODES_PATH; nodedir; py "cpulist"].

Definition node_cpus_entry (env : Env) (nodedir : str) : result (Z * gset Z) :=
  node_id <- PyStr.int (drop 4 nodedir) ;;
  text <- read_file env (cpulist_path nodedir) ;;
  cpus <- decode_listformat text ;;
  Ok (node_id, cpus).

(** An entry of the NUMA root directory: the directory of a node, with the
    items of its CPU list, or anything else. *)
Inductive root_entry : Type :=
| NodeDir (id : Z) (cpulist : list list_item)
| OtherEntry (name : str).

Definition entry_name (e : root_entry) : str :=
  match e with
  | NodeDir id _ => py "node" ++ PyStr.of_int id
  | OtherEntry name => name
  end.

(** The CPU list of a node is a file of one line. *)
Definition wf_root_entry (env : Env) (e : root_entry) : Prop :=
  match e with
  | NodeDir id items =>
      items <> [] /\ Forall item_nonneg items
      /\ read_file env (cpulist_path (entry_name e))
         = Ok (render_listformat items ++ newline)
  | OtherEntry name => ~ is_node_dir name
  end.

Definition entry_cpus (e : root_entry) : option (Z * gset Z) :=
  match e with
  | NodeDir id items => Some (id, list_to_set (concat (map item_numbers items)))
  | OtherEntry _ => None
  end.

(** A host with a second node that has memory and no CPU. *)
Definition host_memory_only_node : Env :=
  {| files := [(py "/sys/devices/system/node/node0/cpulist", py "0-1" ++ newline);
               (py "/sys/devices/system/node/node1/cpulist", newline)];
     sysfs_node_entries := Some [py "node0"; py "node1"];
     hostname := py "host0";
     wca_distribution := None;
     clock := 0 |}.

(** The text of a file of lines, every line ended by a newline. *)
Definition text_of_lines (bodies : list str) : str :=
  concat (map (fun b => b ++ newline) bodies).

(** A line of the processor descriptor that names the model. *)
Definition model_name_line (pad1 pad2 value : str) : str :=
  py "model name" ++ pad1 ++ py ":" ++ pad2 ++ value.

(** A line that [get_cpu_model] passes over. *)
Definition other_line (b : str) : Prop :=
  no_newline b /\ PyStr.startswith b (py "model name") = false.

(** [int(labels[key])] *)
Definition int_label (labels : dict str str) (key : str) : result Z :=
  v <- dict_item labels key ;; PyStr.int v.

(** A descriptor as some kernels write it: no socket and no core ids. *)
Definition records_without_ids : list (list field_line) :=
  [[kernel_line (py "processor") tab space (py "0");
    kernel_line (py "BogoMIPS") tab space (py "50.00")]].

Definition host_without_ids : Env :=
  {| files := [(py "/proc/cpuinfo", render_cpuinfo records_without_ids)];
     sysfs_node_entries := None;
     hostname := py "host2";
     wca_distribution := None;
     clock := 0 |}.

(** A line of a node's memory file: a counter in kilobytes, or any line
    that has not five fields. *)
Inductive node_line : Type :=
| NodeCounter (name pad : str) (value : Z)
| NodeOther (text : str).

(** The line as the kernel writes it for the node [id]. *)
Definition render_node_line (id : Z) (l : node_line) : str :=
  match l with
  | NodeCounter name pad value =>
      py "Node " ++ PyStr.of_int id ++ space ++ name ++ py ":" ++ pad
      ++ PyStr.of_int value ++ py " kB"
  | NodeOther text => text
  end.

Definition wf_node_line (l : node_line) : Prop :=
  match l with
  | NodeCounter name pad value =>
      no_space name /\ all_space pad /\ pad <> [] /\ no_newline pad
  | NodeOther text => no_newline text /\ length (PyStr.split_ws text) <> 5%nat
  end.

(** An entry of the NUMA root directory: the directory of a node, with the
    lines of its memory file, or anything else. *)
Inductive mem_entry : Type :=
| MemDir (id : Z) (lines : list node_line)
| MemOther (name : str).

Definition mem_entry_name (e : mem_entry) : str :=
  match e with
  | MemDir id _ => py "node" ++ PyStr.of_int id
  | MemOther name => name
  end.

Definition meminfo_path (nodedir : str) : str :=
  path_join [BASE_SYSFS_NODES_PATH; nodedir; py "meminfo"].

(** The memory file of a node names the node in every counter line. *)
Definition wf_mem_entry (env : Env) (e : mem_entry) : Prop :=
  match e with
  | MemDir id lines =>
      Forall wf_node_line lines
      /\ read_file env (meminfo_path (mem_entry_name e))
         = Ok (text_of_lines (map (render_node_line id) lines))
  | MemOther name => ~ is_node_dir name
  end.

(** The values of the counter [name] among the lines. *)
Definition node_values (name : str) (lines : list node_line) : list Z :=
  omap (fun l => match l with
                 | NodeCounter n _ value =>
                     if decide (n = name) then Some value else None
                 | NodeOther _ => None
                 end) lines.

(** The entries of the counter [name]: for every node directory, its id
    with each value of the counter in bytes. *)
Definition mem_entries (name : str) (entries : list mem_entry) : list (Z * Z) :=
  concat (map (fun e => match e with
                        | MemDir id lines =>
                            map (fun v => (id, Z.shiftl v 10))
                              (node_values name lines)
                        | MemOther _ => []
                        end) entries).

(** The lines the collector reads, in order. *)
Definition mem_lines (entries : list mem_entry) : list str :=
  concat (map (fun e => match e with
                        | MemDir id lines =>
                            map (fun l => render_node_line id l ++ newline) lines
                        | MemOther _ => []
                        end) entries).

(** The platform without its RDT record. *)
Definition without_rdt (p : Platform) : Platform :=
  {| sockets := sockets p; cores := cores p; cpus := cpus p;
     topology := topology p; cpu_model := cpu_model p;
     cpus_usage := cpus_usage p; total_memory_used := total_memory_used p;
     node_memory_free := node_memory_free p;
     node_memory_used := node_memory_used p;
     node_cpus := node_cpus p; timestamp := timestamp p;
     rdt_information := None |}.

(** The path of a file of the resctrl file system. *)
Definition resctrl_path (subpath : str) : str :=
  path_join [BASE_RESCTRL_PATH; subpath].

(** * Facts and theorems *)

(** ** Sample evaluations *)

Example split_example :
  PyStr.split (py ",") (py "1,3-5,,9") = [py "1"; py "3-5"; py ""; py "9"].
Proof. reflexivity. Qed.

Example split_blank_line_example :
  PyStr.split (newline ++ newline) (py "a


b") = [py "a"; py "
b"].
Proof. reflexivity. Qed.

Example strip_example :
  PyStr.strip ("028"%char :: py " 7 ") = py "7"
  /\ PyStr.int ("028"%char :: py "7") = Raise ValueError.
Proof. split; reflexivity. Qed.

Example int_examples :
  PyStr.int (py " 1_000 ") = Ok 1000 /\ PyStr.int (py "-12") = Ok (-12)
  /\ PyStr.int (py "") = Raise ValueError /\ PyStr.int (py "1__0") = Raise ValueError
  /\ PyStr.int (py "0x1") = Raise ValueError /\ PyStr.int (py "007") = Ok 7.
Proof. vm_compute. repeat split; reflexivity. Qed.

Example of_int_examples :
  PyStr.of_int 0 = py "0" /\ PyStr.of_int 1203 = py "1203"
  /\ PyStr.of_int (-45) = py "-45".
Proof. vm_compute. repeat split; reflexivity. Qed.

Example decode_examples :
  decode_listformat (py "2-4") = Ok {[ 2; 3; 4 ]}
  /\ decode_listformat (py "1,3-5,9") = Ok {[ 1; 3; 4; 5; 9 ]}
  /\ decode_listformat (py "0-3
") = Ok {[ 0; 1; 2; 3 ]}.
Proof. repeat split; vm_compute; reflexivity. Qed.

Example encode_example :
  encode_listformat {[ 9; 1; 3; 4; 5 ]} = py "1,3,4,5,9".
Proof. vm_compute. reflexivity. Qed.

Example parse_proc_meminfo_example :
  parse_proc_meminfo
    (PyStr.join newline
       [py "MemTotal:       1000 kB"; py "MemFree:         400 kB";
        py "MemAvailable:    600 kB"; py "Buffers:         100 kB";
        py "Cached:          100 kB"; py "SwapCached:        7 kB"; py ""])
  = Ok 409600.
Proof. vm_compute. reflexivity. Qed.

Example parse_proc_stat_example :
  parse_proc_stat
    (PyStr.join newline
       [py "cpu  30 2 40 500 6 7 8 9 1 1";
        py "cpu0 10 1 20 300 4 5 6 7 1 1";
        py "cpu1 20 1 20 200 2 2 2 2 0 0";
        py "intr 12345 0 0"; py "ctxt 99"; py ""])
  = Ok [(0, 49); (1, 47)].
Proof. vm_compute. reflexivity. Qed.

Example topology_2x2x2 :
  collect_topology_information host_2x2x2
  = Ok (8, 4, 2, [(0, [(0, [0; 4]); (1, [1; 5])]);
                  (1, [(0, [2; 6]); (1, [3; 7])])]).
Proof. vm_compute. reflexivity. Qed.

(** ** Strings *)

Section StrFacts.
Import PyStr.

Lemma is_digit_inv c :
  is_digit c = true ->
  In c (list_ascii_of_string "0123456789").
Proof.
  destruct c as [[] [] [] [] [] [] [] []]; vm_compute; intros H;
    try discriminate H; tauto.
Qed.

Lemma is_digit_not_space c : is_digit c = true -> is_space c = false.
Proof.
  intros H. apply is_digit_inv in H. simpl in H.
  repeat (destruct H as [<- | H]; [reflexivity |]). destruct H.
Qed.

Lemma digit_char_spec d :
  0 <= d < 10 ->
  is_digit (digit_char d) = true /\ digit_value (digit_char d) = d.
Proof.
  intros Hd.
  assert (Hc : d = 0 \/ d = 1 \/ d = 2 \/ d = 3 \/ d = 4 \/ d = 5 \/ d = 6
               \/ d = 7 \/ d = 8 \/ d = 9) by lia.
  repeat (destruct Hc as [-> | Hc]; [split; reflexivity |]).
  subst d. split; reflexivity.
Qed.

Lemma int_digits_all l :
  forall a p, all_digits l -> l <> [] \/ p = true ->
              int_digits a p l = Some (digits_val l a).
Proof.
  induction l as [| c l IH]; intros a p Hall Hne.
  - destruct Hne as [Hne | ->]; [congruence | reflexivity].
  - inversion Hall as [| ? ? Hc Hl]; subst. simpl. rewrite Hc.
    apply IH; auto.
Qed.

Lemma digits_of_nonempty f : forall n acc, acc <> [] -> digits_of f n acc <> [].
Proof.
  induction f as [| f IH]; intros n acc Hacc; simpl; [exact Hacc |].
  destruct (n <? 10); [discriminate |]. apply IH. discriminate.
Qed.

Lemma digits_of_S_nonempty f n acc : digits_of (S f) n acc <> [].
Proof.
  simpl. destruct (n <? 10); [discriminate |].
  apply digits_of_nonempty. discriminate.
Qed.

Lemma digits_of_all_digits f :
  forall n acc, 0 <= n -> all_digits acc -> all_digits (digits_of f n acc).
Proof.
  induction f as [| f IH]; intros n acc Hn Hacc; simpl; [exact Hacc |].
  assert (Hd : is_digit (digit_char (n mod 10)) = true).
  { apply digit_char_spec. apply Z.mod_pos_bound. lia. }
  destruct (n <? 10).
  - constructor; assumption.
  - apply IH; [apply Z.div_pos; lia | constructor; assumption].
Qed.

Lemma digits_of_val f :
  forall n acc, 0 <= n < 2 ^ Z.of_nat f ->
                digits_val (digits_of f n acc) 0 = digits_val acc n.
Proof.
  induction f as [| f IH]; intros n acc Hn.
  - simpl in *. replace n with 0 by lia. reflexivity.
  - cbn [digits_of].
    assert (Hm : 0 <= n mod 10 < 10) by (apply Z.mod_pos_bound; lia).
    destruct (digit_char_spec _ Hm) as [_ Hv].
    destruct (Z.ltb_spec n 10) as [Hlt | Hge].
    + unfold digits_val. simpl. rewrite Hv, Z.mod_small by lia. reflexivity.
    + rewrite IH.
      * unfold digits_val. simpl. rewrite Hv. f_equal.
        pose proof (Z.div_mod n 10). lia.
      * rewrite Nat2Z.inj_succ, Z.pow_succ_r in Hn by lia.
        split; [apply Z.div_pos; lia |].
        apply Z.div_lt_upper_bound; lia.
Qed.

Lemma log2_fuel n : 0 <= n -> 0 <= n < 2 ^ Z.of_nat (S (Z.to_nat (Z.log2 n))).
Proof.
  intros Hn. split; [exact Hn |].
  rewrite Nat2Z.inj_succ, Z2Nat.id by apply Z.log2_nonneg.
  destruct (Z.eq_dec n 0) as [-> | Hne]; [reflexivity |].
  apply Z.log2_spec. lia.
Qed.

Lemma strip_with_id (sp : ascii -> bool) (s : str) :
  Forall (fun c => sp c = false) s -> strip_with sp s = s.
Proof.
  intros Hs. unfold strip_with.
  assert (Hhead : forall t, Forall (fun c => sp c = false) t -> lstrip_with sp t = t).
  { intros t Ht. destruct Ht as [| c t Hc _]; [reflexivity |].
    simpl. rewrite Hc. reflexivity. }
  rewrite (Hhead s Hs), (Hhead (rev s)) by (apply Forall_rev; exact Hs).
  apply rev_involutive.
Qed.

Lemma is_int_space_is_space c : is_space c = false -> is_int_space c = false.
Proof.
  destruct c as [[] [] [] [] [] [] [] []]; vm_compute; intros H;
    try discriminate H; reflexivity.
Qed.

Lemma strip_no_space s : no_space s -> strip s = s.
Proof. apply strip_with_id. Qed.

Lemma int_strip_no_space s : no_space s -> strip_with is_int_space s = s.
Proof.
  intros Hs. apply strip_with_id. eapply Forall_impl; [exact Hs |].
  intros c. apply is_int_space_is_space.
Qed.

Lemma all_digits_no_space s : all_digits s -> no_space s.
Proof.
  intros H. eapply Forall_impl; [exact H |].
  intros c. apply is_digit_not_space.
Qed.

(** The digits of a non-negative number. *)
Lemma of_int_nonneg n :
  0 <= n -> all_digits (of_int n) /\ of_int n <> [] /\ digits_val (of_int n) 0 = n.
Proof.
  intros Hn. unfold of_int.
  destruct (Z.ltb_spec n 0) as [Hlt | _]; [lia |].
  split; [| split].
  - apply digits_of_all_digits; [exact Hn | constructor].
  - apply digits_of_S_nonempty.
  - rewrite digits_of_val by (apply log2_fuel; exact Hn). reflexivity.
Qed.

Lemma of_int_neg n :
  n < 0 -> of_int n = "-"%char :: of_int (- n).
Proof.
  intros Hn. unfold of_int.
  destruct (Z.ltb_spec n 0) as [_ | Hge]; [| lia].
  destruct (Z.ltb_spec (- n) 0) as [Hlt | _]; [lia |]. reflexivity.
Qed.

Lemma int_all_digits s :
  all_digits s -> s <> [] -> int s = Ok (digits_val s 0).
Proof.
  intros Hall Hne. unfold int.
  rewrite int_strip_no_space by (apply all_digits_no_space; exact Hall).
  destruct s as [| c s]; [congruence |].
  inversion Hall as [| ? ? Hc Hs]; subst.
  destruct (decide (c = "-"%char)) as [-> | _]; [discriminate Hc |].
  destruct (decide (c = "+"%char)) as [-> | _]; [discriminate Hc |].
  rewrite int_digits_all by (auto; left; discriminate). reflexivity.
Qed.

(** [int(str(n)) == n] *)
Lemma int_of_int n : int (of_int n) = Ok n.
Proof.
  destruct (Z_lt_le_dec n 0) as [Hneg | Hpos].
  - rewrite of_int_neg by exact Hneg.
    destruct (of_int_nonneg (- n)) as (Hall & Hne & Hval); [lia |].
    unfold int. rewrite int_strip_no_space.
    + simpl. rewrite int_digits_all by (auto). rewrite Hval.
      f_equal. lia.
    + constructor; [reflexivity | apply all_digits_no_space; exact Hall].
  - destruct (of_int_nonneg n Hpos) as (Hall & Hne & Hval).
    rewrite int_all_digits by assumption. rewrite Hval. reflexivity.
Qed.

Lemma of_int_chars (n : Z) : Forall sign_or_digit (of_int n) /\ of_int n <> [].
Proof.
  destruct (Z_lt_le_dec n 0) as [Hneg | Hpos].
  - rewrite of_int_neg by exact Hneg.
    destruct (of_int_nonneg (- n)) as (Hall & _ & _); [lia |].
    split; [| discriminate].
    constructor; [right; reflexivity |].
    eapply Forall_impl; [exact Hall |]. intros c Hc. left. exact Hc.
  - destruct (of_int_nonneg n Hpos) as (Hall & Hne & _).
    split; [| exact Hne].
    eapply Forall_impl; [exact Hall |]. intros c Hc. left. exact Hc.
Qed.

Lemma of_int_notin (c : ascii) (n : Z) :
  is_digit c = false -> c <> "-"%char -> ~ In c (of_int n).
Proof.
  intros Hd Hm Hin. destruct (of_int_chars n) as [Hall _].
  rewrite Forall_forall in Hall. apply list_elem_of_In in Hin.
  destruct (Hall c Hin) as [H | H]; congruence.
Qed.

Lemma of_int_no_space (n : Z) : no_space (of_int n).
Proof.
  destruct (of_int_chars n) as [Hall _].
  eapply Forall_impl; [exact Hall |].
  intros c [Hc | ->]; [apply is_digit_not_space; exact Hc | reflexivity].
Qed.

Lemma no_space_no_newline (s : str) : no_space s -> no_newline s.
Proof.
  intros Hs Hin. unfold no_space in Hs. rewrite Forall_forall in Hs.
  apply list_elem_of_In in Hin. specialize (Hs _ Hin). discriminate Hs.
Qed.

Lemma all_digits_notin c s :
  is_digit c = false -> all_digits s -> ~ In c s.
Proof.
  intros Hc Hs Hin. unfold all_digits in Hs. rewrite Forall_forall in Hs.
  apply list_elem_of_In in Hin. specialize (Hs c Hin). congruence.
Qed.

Lemma startswith_single c x s :
  startswith (x :: s) [c] = bool_decide (c = x).
Proof.
  simpl. destruct (decide (c = x)) as [-> | Hne].
  - rewrite bool_decide_eq_true_2 by reflexivity. reflexivity.
  - rewrite bool_decide_eq_false_2 by exact Hne. reflexivity.
Qed.

Lemma startswith_inv (p : str) :
  forall s, startswith s p = true -> exists t, s = p ++ t.
Proof.
  induction p as [| a p IH]; intros s H; [exists s; reflexivity |].
  destruct s as [| b s]; [discriminate H |]. simpl in H.
  destruct (decide (a = b)) as [-> | _]; [| discriminate H].
  destruct (IH s H) as [t ->]. exists t. reflexivity.
Qed.

Lemma startswith_key (name : str) :
  ~ In ":"%char name ->
  forall key t, startswith (key ++ ":"%char :: t) name = startswith key name.
Proof.
  induction name as [| a name IH]; intros Hname key t; [reflexivity |].
  destruct key as [| b key]; cbn [app startswith].
  - destruct (decide (a = ":"%char)) as [-> | _]; [| reflexivity].
    exfalso. apply Hname. left. reflexivity.
  - destruct (decide (a = b)); [| reflexivity].
    apply IH. intros H. apply Hname. right. exact H.
Qed.

Lemma startswith_exclusive (s p q : str) :
  startswith s p = true ->
  (forall t, startswith (p ++ t) q = false) ->
  startswith s q = false.
Proof. intros Hp Hq. apply startswith_inv in Hp as [t ->]. apply Hq. Qed.

Lemma split_notin c s : ~ In c s -> split [c] s = [s].
Proof.
  unfold split. induction s as [| x s IH]; intros Hc; [reflexivity |].
  cbn [split_from]. rewrite startswith_single.
  rewrite bool_decide_eq_false_2 by (intros ->; apply Hc; left; reflexivity).
  rewrite IH by (intros H; apply Hc; right; exact H). reflexivity.
Qed.

Lemma split_app c a b :
  ~ In c a -> split [c] (a ++ c :: b) = a :: split [c] b.
Proof.
  unfold split. induction a as [| x a IH]; intros Hc.
  - cbn [app split_from]. rewrite startswith_single.
    rewrite bool_decide_eq_true_2 by reflexivity. reflexivity.
  - cbn [app split_from]. rewrite startswith_single.
    rewrite bool_decide_eq_false_2 by (intros ->; apply Hc; left; reflexivity).
    rewrite IH by (intros H; apply Hc; right; exact H). reflexivity.
Qed.

Lemma split_join c l :
  l <> [] -> Forall (fun s => ~ In c s) l -> split [c] (join [c] l) = l.
Proof.
  induction l as [| x l IH]; intros Hne Hall; [congruence |].
  inversion Hall as [| ? ? Hx Hl]; subst.
  destruct l as [| y l].
  - simpl. apply split_notin. exact Hx.
  - change (join [c] (x :: y :: l)) with (x ++ c :: join [c] (y :: l)).
    rewrite split_app by exact Hx. rewrite IH by (auto; discriminate).
    reflexivity.
Qed.

Lemma join_of_int_notin (c sep : ascii) (l : list Z) :
  is_digit c = false -> c <> "-"%char -> c <> sep ->
  ~ In c (join [sep] (map of_int l)).
Proof.
  intros Hd Hm Hsep. induction l as [| n l IH]; [intros [] |].
  destruct l as [| m l]; [apply of_int_notin; assumption |].
  change (join [sep] (map of_int (n :: m :: l)))
    with (of_int n ++ sep :: join [sep] (map of_int (m :: l))).
  intros Hin. apply in_app_or in Hin as [Hin | [Hin | Hin]].
  - revert Hin. apply of_int_notin; assumption.
  - congruence.
  - exact (IH Hin).
Qed.

Lemma split_join_of_int (sep : ascii) (l : list Z) :
  is_digit sep = false -> sep <> "-"%char -> l <> [] ->
  split [sep] (join [sep] (map of_int l)) = map of_int l.
Proof.
  intros Hd Hm Hne. apply split_join.
  - destruct l; [congruence | discriminate].
  - apply Forall_fmap, Forall_forall. intros n _.
    apply of_int_notin; assumption.
Qed.

Lemma split_ws_token (tok : str) :
  forall cur s, no_space tok ->
                split_ws_from cur (tok ++ s) = split_ws_from (rev tok ++ cur) s.
Proof.
  induction tok as [| c tok IH]; intros cur s Htok; [reflexivity |].
  apply Forall_cons in Htok as [Hc Htok].
  cbn [app split_ws_from]. rewrite Hc, IH by exact Htok.
  cbn [rev]. rewrite <- app_assoc. reflexivity.
Qed.

Lemma split_ws_pad (pad s : str) :
  all_space pad -> split_ws_from [] (pad ++ s) = split_ws_from [] s.
Proof.
  induction pad as [| c pad IH]; intros Hpad; [reflexivity |].
  apply Forall_cons in Hpad as [Hc Hpad].
  cbn [app split_ws_from]. rewrite Hc. apply IH, Hpad.
Qed.

Lemma split_ws_close (cur : str) (w : ascii) (s : str) :
  is_space w = true -> cur <> [] ->
  split_ws_from cur (w :: s) = rev cur :: split_ws_from [] s.
Proof.
  intros Hw Hcur. cbn [split_ws_from]. rewrite Hw.
  destruct cur; [congruence | reflexivity].
Qed.

Lemma split_ws_second (t1 pad t2 rest : str) :
  no_space t1 -> t1 <> [] -> all_space pad -> pad <> [] ->
  no_space t2 -> t2 <> [] -> starts_with_space rest ->
  item (split_ws (t1 ++ pad ++ t2 ++ rest)) 1 = Ok t2.
Proof.
  intros H1 Hne1 Hpad Hnepad H2 Hne2 Hrest. unfold split_ws.
  rewrite split_ws_token by exact H1. rewrite app_nil_r.
  destruct pad as [| w pad]; [congruence |].
  apply Forall_cons in Hpad as [Hw Hpad]. cbn [app].
  rewrite split_ws_close
    by (try exact Hw; intros H; apply Hne1;
        rewrite <- (rev_involutive t1), H; reflexivity).
  rewrite rev_involutive, split_ws_pad by exact Hpad.
  rewrite split_ws_token by exact H2. rewrite app_nil_r.
  assert (Hrev : rev t2 <> []).
  { intros H. apply Hne2. rewrite <- (rev_involutive t2), H. reflexivity. }
  destruct rest as [| w' rest].
  - cbn [split_ws_from]. destruct (rev t2) eqn:E; [congruence |].
    rewrite <- E, rev_involutive. reflexivity.
  - rewrite split_ws_close by assumption. rewrite rev_involutive. reflexivity.
Qed.

Lemma lstrip_stripped (s : str) : stripped s -> lstrip s = s.
Proof.
  intros [Hhead _]. destruct s as [| c t]; [reflexivity |].
  unfold lstrip. simpl. rewrite (Hhead c t eq_refl). reflexivity.
Qed.

Lemma stripped_rev (s : str) : stripped s -> stripped (rev s).
Proof.
  intros [Hhead Hlast]. split; intros c t Heq.
  - apply (Hlast c (rev t)). rewrite <- (rev_involutive s), Heq. reflexivity.
  - apply (Hhead c (rev t)). rewrite <- (rev_involutive s), Heq.
    rewrite rev_app_distr. reflexivity.
Qed.

Lemma strip_stripped (s : str) : stripped s -> strip s = s.
Proof.
  intros Hs. unfold strip, strip_with.
  change (lstrip_with is_space) with lstrip.
  rewrite (lstrip_stripped s Hs), (lstrip_stripped _ (stripped_rev s Hs)).
  apply rev_involutive.
Qed.

Lemma strip_space_left (w : ascii) (s : str) :
  is_space w = true -> strip (w :: s) = strip s.
Proof. intros Hw. unfold strip, strip_with. simpl. rewrite Hw. reflexivity. Qed.

Lemma strip_space_right (w : ascii) (s : str) :
  is_space w = true -> stripped s -> strip (s ++ [w]) = s.
Proof.
  intros Hw Hs. unfold strip, strip_with.
  destruct s as [| c t].
  - simpl. rewrite Hw. reflexivity.
  - assert (H1 : lstrip_with is_space ((c :: t) ++ [w]) = (c :: t) ++ [w]).
    { simpl. rewrite (proj1 Hs c t eq_refl). reflexivity. }
    assert (H2 : rev ((c :: t) ++ [w]) = w :: rev (c :: t)).
    { rewrite rev_app_distr. reflexivity. }
    assert (H3 : lstrip_with is_space (w :: rev (c :: t)) = rev (c :: t)).
    { cbn [lstrip_with]. rewrite Hw.
      exact (lstrip_stripped _ (stripped_rev _ Hs)). }
    rewrite H1, H2, H3. apply rev_involutive.
Qed.

Lemma split_blank_line (b rest : str) :
  no_blank_line b ->
  split (newline ++ newline) (b ++ newline ++ newline ++ rest)
  = b :: split (newline ++ newline) rest.
Proof.
  unfold split, newline. cbn [app].
  induction b as [| c b IH]; intros Hb.
  - cbn [app split_from startswith length Nat.sub].
    destruct (decide ("010"%char = "010"%char)); [| congruence]. reflexivity.
  - destruct Hb as [Hc Hb]. cbn [app split_from].
    assert (Hno : startswith (c :: b ++ "010"%char :: "010"%char :: rest)
                    ["010"%char; "010"%char] = false).
    { cbn [startswith]. destruct (decide ("010"%char = c)) as [<- | _];
        [| reflexivity].
      destruct b as [| d b]; [congruence |]. cbn [app].
      destruct (decide ("010"%char = d)) as [<- | _]; [| reflexivity].
      exfalso. apply Hc; reflexivity. }
    rewrite Hno, IH by exact Hb. reflexivity.
Qed.

Lemma no_blank_line_app (x t : str) :
  no_newline x -> no_blank_line t ->
  (forall d t', t = d :: t' -> d <> "010"%char) -> t <> [] ->
  no_blank_line (x ++ "010"%char :: t).
Proof.
  intros Hx Ht Hhead Hne. induction x as [| c x IH].
  - destruct t as [| d t']; [congruence |]. cbn [app no_blank_line].
    split; [intros _; apply (Hhead d t' eq_refl) | exact Ht].
  - assert (Hc : c <> "010"%char) by (intros ->; apply Hx; left; reflexivity).
    assert (Hx' : no_newline x) by (intros H; apply Hx; right; exact H).
    cbn [app]. change (no_blank_line (c :: (x ++ "010"%char :: t))).
    cbn [no_blank_line]. split; [| apply IH, Hx'].
    destruct (x ++ "010"%char :: t); [exact Hc | intros H; congruence].
Qed.

Lemma no_blank_line_word (x : str) : no_newline x -> no_blank_line x.
Proof.
  induction x as [| c x IH]; intros Hx; [exact I |].
  assert (Hc : c <> "010"%char) by (intros ->; apply Hx; left; reflexivity).
  cbn [no_blank_line]. split; [| apply IH; intros H; apply Hx; right; exact H].
  destruct x; [exact Hc | intros H; congruence].
Qed.

Lemma lstrip_pad (pad s : str) : all_space pad -> lstrip (pad ++ s) = lstrip s.
Proof.
  induction pad as [| c pad IH]; intros Hpad; [reflexivity |].
  apply Forall_cons in Hpad as [Hc Hpad].
  unfold lstrip in *. cbn [app lstrip_with]. rewrite Hc. apply IH, Hpad.
Qed.

Lemma lstrip_all_space (pad : str) : all_space pad -> lstrip pad = [].
Proof.
  intros Hpad. rewrite <- (app_nil_r pad), lstrip_pad by exact Hpad. reflexivity.
Qed.

Lemma no_space_stripped (s : str) : no_space s -> stripped s.
Proof.
  intros Hs. unfold no_space in Hs. rewrite Forall_forall in Hs.
  split; intros c t ->; apply Hs.
  - left.
  - apply elem_of_app. right. left.
Qed.

Lemma strip_pad_right (s pad : str) :
  stripped s -> all_space pad -> strip (s ++ pad) = s.
Proof.
  intros Hs Hpad. unfold strip, strip_with.
  change (lstrip_with is_space) with lstrip.
  destruct s as [| c t].
  - cbn [app]. rewrite (lstrip_all_space pad Hpad). reflexivity.
  - assert (H1 : lstrip ((c :: t) ++ pad) = (c :: t) ++ pad).
    { unfold lstrip. cbn [app lstrip_with].
      rewrite (proj1 Hs c t eq_refl). reflexivity. }
    rewrite H1, rev_app_distr.
    rewrite lstrip_pad by (apply Forall_rev; exact Hpad).
    rewrite (lstrip_stripped _ (stripped_rev _ Hs)). apply rev_involutive.
Qed.

Lemma all_space_notin (c : ascii) (pad : str) :
  is_space c = false -> all_space pad -> ~ In c pad.
Proof.
  intros Hc Hpad Hin. unfold all_space in Hpad. rewrite Forall_forall in Hpad.
  apply list_elem_of_In in Hin. specialize (Hpad c Hin). congruence.
Qed.

Lemma strip_pad_left (pad s : str) :
  all_space pad -> strip (pad ++ s) = strip s.
Proof.
  intros Hpad. unfold strip, strip_with.
  change (lstrip_with is_space) with lstrip.
  rewrite lstrip_pad by exact Hpad. reflexivity.
Qed.

End StrFacts.

(** ** Dictionaries *)

Section DictFacts.
Context {K V : Type} `{EqDecision K}.

Lemma dict_set_fresh (d : dict K V) (k : K) (v : V) :
  ~ In k (dict_keys d) -> dict_set d k v = d ++ [(k, v)].
Proof.
  induction d as [| [k' v'] d IH]; intros Hk; [reflexivity |].
  simpl. destruct (decide (k' = k)) as [-> | _].
  - exfalso. apply Hk. left. reflexivity.
  - rewrite IH; [reflexivity |]. intros H. apply Hk. right. exact H.
Qed.

Lemma dict_update_fresh (l : list (K * V)) :
  forall d : dict K V,
    NoDup (dict_keys d ++ map fst l) -> dict_update d l = d ++ l.
Proof.
  unfold dict_update.
  induction l as [| [k v] l IH]; intros d Hnd; simpl.
  - rewrite app_nil_r. reflexivity.
  - rewrite dict_set_fresh.
    + rewrite IH.
      * rewrite <- app_assoc. reflexivity.
      * unfold dict_keys in *. rewrite map_app, <- app_assoc. exact Hnd.
    + apply NoDup_app in Hnd as (_ & Hdisj & _).
      intros Hin. apply (Hdisj k).
      * apply list_elem_of_In. exact Hin.
      * left.
Qed.

Lemma dict_of_pairs_fresh (l : list (K * V)) :
  NoDup (map fst l) -> dict_of_pairs l = l.
Proof. intros H. apply (dict_update_fresh l []). exact H. Qed.

Lemma dict_get_In (d : dict K V) (k : K) (v : V) :
  NoDup (dict_keys d) -> In (k, v) d -> dict_get d k = Some v.
Proof.
  induction d as [| [k' v'] d IH]; intros Hnd Hin; [destruct Hin |].
  apply NoDup_cons in Hnd as [Hk' Hnd]. simpl.
  destruct Hin as [[= -> ->] | Hin].
  - destruct (decide (k = k)); [reflexivity | congruence].
  - destruct (decide (k' = k)) as [-> | _]; [| apply IH; assumption].
    exfalso. apply Hk'. apply list_elem_of_In.
    apply (in_map fst) in Hin. exact Hin.
Qed.

End DictFacts.

Lemma dict_get_fresh {K V : Type} `{EqDecision K} (d : dict K V) (k : K) :
  ~ In k (dict_keys d) -> dict_get d k = None.
Proof.
  induction d as [| [k' v'] d IH]; intros Hk; [reflexivity |]. simpl.
  destruct (decide (k' = k)) as [-> | _].
  - exfalso. apply Hk. left. reflexivity.
  - apply IH. intros H. apply Hk. right. exact H.
Qed.

Lemma dict_get_last {K V : Type} `{EqDecision K} (d : dict K V) (k : K) (v : V) :
  ~ In k (dict_keys d) -> dict_get (d ++ [(k, v)]) k = Some v.
Proof.
  induction d as [| [k' v'] d IH]; intros Hk; simpl.
  - destruct (decide (k = k)); [reflexivity | congruence].
  - destruct (decide (k' = k)) as [-> | _].
    + exfalso. apply Hk. left. reflexivity.
    + apply IH. intros H. apply Hk. right. exact H.
Qed.

Lemma dict_set_last {K V : Type} `{EqDecision K} (d : dict K V) (k : K) (v w : V) :
  ~ In k (dict_keys d) -> dict_set (d ++ [(k, v)]) k w = d ++ [(k, w)].
Proof.
  induction d as [| [k' v'] d IH]; intros Hk; simpl.
  - destruct (decide (k = k)); [reflexivity | congruence].
  - destruct (decide (k' = k)) as [-> | _].
    + exfalso. apply Hk. left. reflexivity.
    + rewrite IH; [reflexivity |]. intros H. apply Hk. right. exact H.
Qed.

(** ** Loops, sums and ranges *)

Lemma foldM_app {A S : Type} (f : S -> A -> result S) (l1 l2 : list A) (s : S) :
  foldM f (l1 ++ l2) s = (s1 <- foldM f l1 s ;; foldM f l2 s1).
Proof.
  revert s. induction l1 as [| x l1 IH]; intros s; [reflexivity |].
  simpl. destruct (f s x) as [s' | e]; simpl; [apply IH | reflexivity].
Qed.

Lemma mapM_r_pure {A B : Type} (f : A -> result B) (g : A -> B) (l : list A) :
  Forall (fun x => f x = Ok (g x)) l -> mapM_r f l = Ok (map g l).
Proof.
  induction l as [| x l IH]; intros Hl; [reflexivity |].
  apply Forall_cons in Hl as [Hx Hl]. simpl.
  rewrite Hx, IH by exact Hl. reflexivity.
Qed.

Lemma sum_Z_foldr (l : list Z) : sum_Z l = foldr Z.add 0 l.
Proof.
  unfold sum_Z.
  assert (H : forall a, fold_left Z.add l a = a + foldr Z.add 0 l).
  { induction l as [| x l IH]; intros a; simpl; [lia |]. rewrite IH. lia. }
  rewrite H. lia.
Qed.

Lemma sum_Z_perm (l1 l2 : list Z) : l1 ≡ₚ l2 -> sum_Z l1 = sum_Z l2.
Proof.
  intros Hp. rewrite !sum_Z_foldr.
  induction Hp; simpl; lia.
Qed.

Lemma list_to_set_perm (l1 l2 : list Z) :
  l1 ≡ₚ l2 -> (list_to_set l1 : gset Z) = list_to_set l2.
Proof.
  intros Hp. apply set_eq. intros x. rewrite !elem_of_list_to_set, Hp.
  reflexivity.
Qed.

Lemma add_all_spec (l : list Z) (cores : gset Z) :
  add_all cores l = cores ∪ list_to_set l.
Proof.
  unfold add_all. revert cores. induction l as [| x l IH]; intros cores; simpl.
  - set_solver.
  - rewrite IH. set_solver.
Qed.

Lemma py_range_empty (start stop : Z) : stop <= start -> py_range start stop = [].
Proof.
  intros H. unfold py_range. replace (Z.to_nat (stop - start)) with 0%nat by lia.
  reflexivity.
Qed.

Lemma elem_of_py_range (start stop i : Z) :
  i ∈ py_range start stop <-> start <= i < stop.
Proof.
  unfold py_range. rewrite list_elem_of_fmap. split.
  - intros (k & -> & Hk). apply list_elem_of_In, in_seq in Hk. lia.
  - intros Hi. exists (Z.to_nat (i - start)). split; [lia |].
    apply list_elem_of_In, in_seq. lia.
Qed.

(** ** Sorting and grouping *)

Lemma insert_by_perm {A : Type} (key : A -> Z) (x : A) (l : list A) :
  Permutation (insert_by key x l) (x :: l).
Proof.
  induction l as [| y l IH]; simpl; [reflexivity |].
  destruct (key x <=? key y); [reflexivity |].
  rewrite IH. apply perm_swap.
Qed.

Lemma py_sorted_perm {A : Type} (key : A -> Z) (l : list A) :
  Permutation (py_sorted key l) l.
Proof.
  induction l as [| x l IH]; simpl; [reflexivity |].
  rewrite insert_by_perm. constructor. exact IH.
Qed.

Section GroupFacts.
Context {A : Type} (key : A -> Z).

Lemma insert_by_sorted (x : A) (l : list A) :
  StronglySorted (key_le key) l -> StronglySorted (key_le key) (insert_by key x l).
Proof.
  induction l as [| y l IH]; intros Hs; simpl.
  - repeat constructor.
  - apply StronglySorted_cons in Hs as [Hy Hs].
    destruct (Z.leb_spec (key x) (key y)) as [Hle | Hgt].
    + apply StronglySorted_cons. split.
      * constructor; [exact Hle |].
        eapply Forall_impl; [exact Hy |]. unfold key_le. intros z Hz. lia.
      * apply StronglySorted_cons. split; assumption.
    + apply StronglySorted_cons. split; [| apply IH, Hs].
      rewrite insert_by_perm. constructor; [unfold key_le; lia | exact Hy].
Qed.

Lemma py_sorted_sorted (l : list A) : StronglySorted (key_le key) (py_sorted key l).
Proof.
  induction l as [| x l IH]; simpl; [constructor |].
  apply insert_by_sorted, IH.
Qed.

Lemma groupby_concat (l : list A) : concat (map snd (groupby key l)) = l.
Proof.
  induction l as [| x l IH]; [reflexivity |]. simpl.
  destruct (groupby key l) as [| [k g] rest]; simpl in *.
  - rewrite <- IH. reflexivity.
  - destruct (decide (key x = k)); simpl; rewrite <- IH; reflexivity.
Qed.

Lemma groupby_groups (l : list A) : Forall (group_ok key) (groupby key l).
Proof.
  induction l as [| x l IH]; simpl; [constructor |].
  destruct (groupby key l) as [| [k g] rest].
  - repeat constructor. discriminate.
  - apply Forall_cons in IH as [[Hne Hg] Hrest].
    destruct (decide (key x = k)) as [Hk | Hk].
    + constructor; [| exact Hrest]. split; [discriminate |].
      constructor; [exact Hk | exact Hg].
    + constructor; [split; [discriminate | repeat constructor] |].
      constructor; [split; assumption | exact Hrest].
Qed.

Lemma groupby_keys_elem (l : list A) (k : Z) :
  k ∈ map fst (groupby key l) <-> k ∈ map key l.
Proof.
  induction l as [| x l IH]; [reflexivity |]. simpl.
  destruct (groupby key l) as [| [k0 g] rest]; simpl in *.
  - rewrite (elem_of_cons (map key l)), <- IH, !elem_of_cons. reflexivity.
  - destruct (decide (key x = k0)) as [Hk | Hk]; simpl.
    + rewrite (elem_of_cons (map key l)), <- IH, !elem_of_cons, Hk. tauto.
    + rewrite (elem_of_cons (map key l)), <- IH, !elem_of_cons. reflexivity.
Qed.

Lemma groupby_keys_sorted (l : list A) :
  StronglySorted (key_le key) l -> StronglySorted Z.lt (map fst (groupby key l)).
Proof.
  induction l as [| x l IH]; intros Hs; simpl; [constructor |].
  apply StronglySorted_cons in Hs as [Hx Hs]. specialize (IH Hs).
  pose proof (groupby_keys_elem l) as Helem.
  destruct (groupby key l) as [| [k g] rest]; simpl in *.
  - repeat constructor.
  - destruct (decide (key x = k)) as [Hk | Hk]; simpl; [exact IH |].
    apply StronglySorted_cons. split; [| exact IH].
    apply Forall_forall. intros k' Hk'.
    assert (Hle : key x <= k').
    { apply Helem, list_elem_of_fmap in Hk' as (y & -> & Hy).
      rewrite Forall_forall in Hx. exact (Hx y Hy). }
    apply elem_of_cons in Hk' as [-> | Hk']; [lia |].
    apply StronglySorted_cons in IH as [Hlt _].
    rewrite Forall_forall in Hlt. specialize (Hlt k' Hk').
    assert (key x <= k); [| lia].
    assert (Hin : k ∈ k :: map fst rest) by left.
    apply Helem, list_elem_of_fmap in Hin as (y & -> & Hy).
    rewrite Forall_forall in Hx. exact (Hx y Hy).
Qed.

Lemma sorted_lt_NoDup (l : list Z) : StronglySorted Z.lt l -> NoDup l.
Proof.
  induction l as [| x l IH]; intros Hs; [constructor |].
  apply StronglySorted_cons in Hs as [Hx Hs]. constructor; [| apply IH, Hs].
  intros Hin. rewrite Forall_forall in Hx. specialize (Hx x Hin). lia.
Qed.

(** The keys of the groups of a sorted list. *)
Lemma sorted_groups_keys (l : list A) :
  NoDup (map fst (groupby key (py_sorted key l)))
  /\ forall k, k ∈ map fst (groupby key (py_sorted key l)) <-> k ∈ map key l.
Proof.
  split.
  - apply sorted_lt_NoDup, groupby_keys_sorted, py_sorted_sorted.
  - intros k. rewrite groupby_keys_elem, (py_sorted_perm key l). reflexivity.
Qed.

Lemma sorted_groups_count (l : list A) :
  length (groupby key (py_sorted key l))
  = size (list_to_set (map key l) : gset Z).
Proof.
  destruct (sorted_groups_keys l) as [Hnd Helem].
  rewrite <- (length_map fst), <- (size_list_to_set (C := gset Z)) by exact Hnd.
  f_equal. apply set_eq. intros k. rewrite !elem_of_list_to_set. apply Helem.
Qed.

Lemma filter_all (k : Z) (g : list A) :
  Forall (fun x => key x = k) g -> filter (fun x => key x = k) g = g.
Proof.
  induction g as [| x g IH]; intros Hg; [reflexivity |].
  apply Forall_cons in Hg as [Hx Hg].
  rewrite filter_cons_True by exact Hx. rewrite IH by exact Hg. reflexivity.
Qed.

Lemma filter_none (k k' : Z) (g : list A) :
  k' <> k -> Forall (fun x => key x = k') g -> filter (fun x => key x = k) g = [].
Proof.
  intros Hne. induction g as [| x g IH]; intros Hg; [reflexivity |].
  apply Forall_cons in Hg as [Hx Hg].
  rewrite filter_cons_False by congruence. apply IH, Hg.
Qed.

Lemma groups_filter (gs : list (Z * list A)) :
  NoDup (map fst gs) -> Forall (group_ok key) gs ->
  forall k g, (k, g) ∈ gs ->
              filter (fun x => key x = k) (concat (map snd gs)) = g.
Proof.
  induction gs as [| [k0 g0] gs IH]; intros Hnd Hok k g Hin.
  - apply elem_of_nil in Hin. destruct Hin.
  - apply NoDup_cons in Hnd as [Hk0 Hnd].
    apply Forall_cons in Hok as [[_ Hg0] Hok].
    cbn [map concat fst snd] in *. rewrite filter_app.
    apply elem_of_cons in Hin as [[= -> ->] | Hin].
    + rewrite filter_all by exact Hg0.
      assert (Hrest : filter (fun x => key x = k0) (concat (map snd gs)) = []).
      { clear IH Hnd. induction gs as [| [k1 g1] gs IHgs]; [reflexivity |].
        apply Forall_cons in Hok as [[_ Hg1] Hok].
        cbn [map concat fst snd] in *. rewrite filter_app.
        rewrite (filter_none k0 k1) by (try exact Hg1; intros ->; apply Hk0; left).
        apply IHgs; [| exact Hok]. intros H. apply Hk0. right. exact H. }
      rewrite Hrest, app_nil_r. reflexivity.
    + rewrite (filter_none k k0); [apply IH; assumption | | exact Hg0].
      intros ->. apply Hk0. apply list_elem_of_fmap. exists (k, g). auto.
Qed.

(** The group of [k] holds the elements of key [k]. *)
Lemma sorted_groups_members (l : list A) (k : Z) (g : list A) :
  (k, g) ∈ groupby key (py_sorted key l) ->
  g ≡ₚ filter (fun x => key x = k) l.
Proof.
  intros Hin. destruct (sorted_groups_keys l) as [Hnd _].
  rewrite <- (groups_filter _ Hnd (groupby_groups _) k g Hin).
  rewrite groupby_concat, (py_sorted_perm key l). reflexivity.
Qed.

End GroupFacts.

Lemma insert_by_decorate {A : Type} (f : A -> Z) (x : A) (l : list A) :
  insert_by fst (f x, x) (map (fun y => (f y, y)) l)
  = map (fun y => (f y, y)) (insert_by f x l).
Proof.
  induction l as [| y l IH]; [reflexivity |]. simpl.
  destruct (f x <=? f y); [reflexivity |]. rewrite IH. reflexivity.
Qed.

Lemma py_sorted_decorate {A : Type} (f : A -> Z) (l : list A) :
  py_sorted fst (map (fun y => (f y, y)) l)
  = map (fun y => (f y, y)) (py_sorted f l).
Proof.
  unfold py_sorted. induction l as [| x l IH]; [reflexivity |].
  cbn [map foldr]. rewrite IH. apply insert_by_decorate.
Qed.

Lemma groupby_decorate {A : Type} (f : A -> Z) (l : list A) :
  map (fun '(k, g) => (k, map snd g))
    (groupby fst (map (fun y => (f y, y)) l))
  = groupby f l.
Proof.
  induction l as [| x l IH]; [reflexivity |]. simpl.
  destruct (groupby fst (map (fun y => (f y, y)) l)) as [| [k g] rest];
    simpl in IH; rewrite <- IH; [reflexivity |].
  simpl. destruct (decide (f x = k)); reflexivity.
Qed.

Lemma combine_decorate {A : Type} (f : A -> Z) (l : list A) :
  combine (map f l) l = map (fun y => (f y, y)) l.
Proof. induction l as [| x l IH]; [reflexivity |]. simpl. rewrite IH. reflexivity. Qed.

Lemma sorted_groups_pure {A : Type} (key : A -> result Z) (f : A -> Z)
  (l : list A) :
  Forall (fun x => key x = Ok (f x)) l ->
  sorted_groups key l = Ok (groupby f (py_sorted f l)).
Proof.
  intros Hl. unfold sorted_groups. rewrite (mapM_r_pure key f) by exact Hl.
  cbn [bind]. rewrite combine_decorate, py_sorted_decorate, groupby_decorate.
  reflexivity.
Qed.

Lemma sorted_groups_Forall {A : Type} (f : A -> Z) (P : A -> Prop) (l : list A) :
  Forall P l -> Forall (fun g => Forall P (snd g)) (groupby f (py_sorted f l)).
Proof.
  intros Hl. rewrite <- (py_sorted_perm f l) in Hl.
  rewrite <- (groupby_concat f (py_sorted f l)) in Hl.
  apply Forall_concat in Hl. rewrite Forall_fmap in Hl. exact Hl.
Qed.

Lemma groupby_nonempty {A : Type} (f : A -> Z) (l : list A) :
  l <> [] -> groupby f (py_sorted f l) <> [].
Proof.
  intros Hl Hg. apply Hl.
  pose proof (groupby_concat f (py_sorted f l)) as Hc. rewrite Hg in Hc.
  apply Permutation_nil. rewrite <- (py_sorted_perm f l), <- Hc. reflexivity.
Qed.

(** ** The list-format codec *)

Section ListFormat.
Import PyStr.

(** One token written by [encode_listformat] for a non-negative number. *)
Lemma decode_range_of_int (cores : gset Z) (n : Z) :
  0 <= n -> decode_range cores (of_int n) = Ok (cores ∪ {[ n ]}).
Proof.
  intros Hn. destruct (of_int_nonneg n Hn) as (Hall & Hne & Hval).
  unfold decode_range. change (py "-") with ["-"%char].
  rewrite split_notin by (apply all_digits_notin; [reflexivity | exact Hall]).
  rewrite strip_no_space by (apply all_digits_no_space; exact Hall).
  rewrite int_of_int. reflexivity.
Qed.

Lemma decode_tokens_of_int (l : list Z) (cores : gset Z) :
  Forall (fun n => 0 <= n) l ->
  foldM decode_range (map of_int l) cores = Ok (add_all cores l).
Proof.
  revert cores. induction l as [| n l IH]; intros cores Hl; [reflexivity |].
  inversion Hl as [| ? ? Hn Hl']; subst. simpl.
  rewrite decode_range_of_int by exact Hn. simpl. apply IH. exact Hl'.
Qed.

Lemma join_of_int_nonempty (n : Z) (l : list Z) :
  0 <= n -> join (py ",") (map of_int (n :: l)) <> [].
Proof.
  intros Hn. destruct (of_int_nonneg n Hn) as (_ & Hne & _).
  simpl. destruct (of_int n) as [| c s]; [congruence |].
  destruct (map of_int l); discriminate.
Qed.

Lemma decode_encode_list (l : list Z) :
  Forall (fun n => 0 <= n) l ->
  decode_listformat (join (py ",") (map of_int l)) = Ok (list_to_set l).
Proof.
  intros Hl. destruct l as [| n l]; [reflexivity |].
  inversion Hl as [| ? ? Hn Hl']; subst.
  unfold decode_listformat.
  pose proof (join_of_int_nonempty n l Hn) as Hne.
  destruct (join (py ",") (map of_int (n :: l))) as [| c s] eqn:Hj;
    [congruence |].
  rewrite <- Hj. change (py ",") with [","%char].
  rewrite split_join.
  - rewrite decode_tokens_of_int by exact Hl. rewrite add_all_spec.
    f_equal. set_solver.
  - discriminate.
  - apply Forall_fmap. eapply Forall_impl; [exact Hl |].
    intros z Hz. simpl. apply all_digits_notin; [reflexivity |].
    apply of_int_nonneg. exact Hz.
Qed.

End ListFormat.

(** C2. Decoding the encoding of a finite set of non-negative integers
    gives the set back, and decoding the empty string gives the empty
    set. *)
Theorem decode_encode_roundtrip :
  (forall S : gset Z, (forall x, x ∈ S -> 0 <= x) ->
                      decode_listformat (encode_listformat S) = Ok S)
  /\ decode_listformat (py "") = Ok ∅.
Proof.
  split; [| reflexivity].
  intros S HS. unfold encode_listformat.
  pose proof (py_sorted_perm id (elements S)) as Hperm.
  rewrite decode_encode_list.
  - f_equal. apply set_eq. intros x.
    rewrite elem_of_list_to_set, Hperm, elem_of_elements. reflexivity.
  - apply Forall_forall. intros x Hx. apply HS.
    rewrite Hperm in Hx. apply elem_of_elements. exact Hx.
Qed.

Lemma decode_encode_roundtrip_witness :
  decode_listformat (encode_listformat {[ 7; 0; 12 ]}) = Ok {[ 7; 0; 12 ]}.
Proof.
  apply (proj1 decode_encode_roundtrip).
  intros x Hx. apply elem_of_elements in Hx. vm_compute in Hx.
  repeat (apply elem_of_cons in Hx as [-> | Hx]; [lia |]).
  apply elem_of_nil in Hx. destruct Hx.
Defined.

(** C8. A token with two or more dashes is malformed, yet the decoder
    raises nothing for it: the token is dropped and the other tokens are
    decoded. *)
Theorem decode_listformat_two_dashes :
  decode_listformat (py "1-2-3") = Ok ∅
  /\ decode_listformat (py "0,1-2-3,5") = Ok {[ 0; 5 ]}
  /\ decode_listformat (py "x") = Raise ValueError
  /\ decode_listformat (py "1-x") = Raise ValueError.
Proof. repeat split; vm_compute; reflexivity. Qed.

(** C10. A range token whose start exceeds its end raises nothing and adds
    nothing: the text decodes to what its other tokens decode to. *)
Theorem decode_listformat_reversed_range
  (value r b0 b1 : str) (l1 l2 : list str) (start end_ : Z) :
  PyStr.split (py ",") value = l1 ++ r :: l2 ->
  PyStr.split (py "-") r = [b0; b1] ->
  PyStr.int (PyStr.strip b0) = Ok start ->
  PyStr.int (PyStr.strip b1) = Ok end_ ->
  end_ < start ->
  (forall cores, decode_range cores r = Ok cores)
  /\ decode_listformat value = foldM decode_range (l1 ++ l2) ∅.
Proof.
  intros Hsplit Hr H0 H1 Hlt.
  assert (Hskip : forall cores, decode_range cores r = Ok cores).
  { intros cores. unfold decode_range. rewrite Hr, H0, H1. simpl.
    rewrite py_range_empty by lia. reflexivity. }
  split; [exact Hskip |].
  unfold decode_listformat. destruct value as [| c value].
  - destruct l1 as [| x [| y l1]]; simpl in Hsplit; inversion Hsplit; subst.
    discriminate Hr.
  - rewrite Hsplit. rewrite !foldM_app. simpl.
    destruct (foldM decode_range l1 ∅) as [s1 | e]; simpl; [| reflexivity].
    rewrite Hskip. reflexivity.
Qed.

Lemma decode_listformat_reversed_range_witness :
  (forall cores, decode_range cores (py "5-3") = Ok cores)
  /\ decode_listformat (py "1,5-3,7") = foldM decode_range [py "1"; py "7"] ∅.
Proof.
  apply (decode_listformat_reversed_range (py "1,5-3,7") (py "5-3") (py "5")
           (py "3") [py "1"] [py "7"] 5 3);
    [reflexivity | reflexivity | reflexivity | reflexivity | lia].
Defined.

(** ** Measurement points *)

Lemma create_metrics_loop (l : list (Z * Z)) (init : list Metric) :
  fold_left
    (fun metrics '(cpu_id, cpu_usage) =>
       metrics ++ [create_metric_with_metadata CPU_USAGE_PER_CPU cpu_usage
                     (Some [(py "cpu", PyStr.of_int cpu_id)])])
    l init
  = init ++ map per_cpu_point l.
Proof.
  revert init. induction l as [| [cpu_id cpu_usage] l IH]; intros init; simpl.
  - rewrite app_nil_r. reflexivity.
  - rewrite IH, <- app_assoc. reflexivity.
Qed.

Lemma create_metrics_unfold (p : Platform) :
  create_metrics p =
  create_metric_with_metadata MEM_USAGE (total_memory_used p) None
    :: map per_cpu_point (dict_items (cpus_usage p)).
Proof. unfold create_metrics. rewrite create_metrics_loop. reflexivity. Qed.

Lemma no_mem_usage_per_cpu (l : list (Z * Z)) :
  filter (fun m => is_mem_usage m = true) (map per_cpu_point l) = [].
Proof.
  induction l as [| x l IH]; [reflexivity |].
  simpl. rewrite filter_cons_False; [exact IH |]. discriminate.
Qed.

(** C9. The measurement points of a valid platform: the same platform
    gives the same list (and a platform with the same memory and the same
    busy-time entries in another order gives the same points in another
    order); the list is the memory-used point followed by one busy-time
    point per entry of the busy-time mapping, each labelled with its CPU
    id, so [cpus] of them; no other point is a memory-used point. *)
Theorem create_metrics_points (p : Platform) :
  dict_len (cpus_usage p) = cpus p ->
  (forall q, q = p -> create_metrics q = create_metrics p)
  /\ (forall q, total_memory_used q = total_memory_used p ->
                cpus_usage q ≡ₚ cpus_usage p ->
                create_metrics q ≡ₚ create_metrics p)
  /\ create_metrics p =
       create_metric_with_metadata MEM_USAGE (total_memory_used p) None
         :: map (fun entry =>
                   create_metric_with_metadata CPU_USAGE_PER_CPU (snd entry)
                     (Some [(py "cpu", PyStr.of_int (fst entry))]))
              (dict_items (cpus_usage p))
  /\ Z.of_nat (length (filter (fun m => is_mem_usage m = false) (create_metrics p)))
     = cpus p
  /\ length (filter (fun m => is_mem_usage m = true) (create_metrics p)) = 1%nat.
Proof.
  intros Hvalid. split; [intros q ->; reflexivity |].
  split.
  { intros q Hmem Husage. rewrite !create_metrics_unfold, Hmem.
    constructor. unfold dict_items. rewrite Husage. reflexivity. }
  split; [apply create_metrics_unfold |].
  rewrite create_metrics_unfold. split.
  - rewrite filter_cons_False by (intros H; discriminate H).
    rewrite <- Hvalid. unfold dict_len, dict_items. f_equal. clear Hvalid.
    induction (cpus_usage p) as [| x l IH]; [reflexivity |].
    cbn [map]. rewrite filter_cons_True by reflexivity.
    cbn [length]. f_equal. exact IH.
  - rewrite filter_cons_True by reflexivity.
    fold per_cpu_point. rewrite no_mem_usage_per_cpu. reflexivity.
Qed.

Lemma create_metrics_points_witness :
  create_metrics example_platform =
  [create_metric_with_metadata MEM_USAGE 409600 None;
   create_metric_with_metadata CPU_USAGE_PER_CPU 49 (Some [(py "cpu", py "0")]);
   create_metric_with_metadata CPU_USAGE_PER_CPU 47 (Some [(py "cpu", py "1")])]
  /\ length (filter (fun m => is_mem_usage m = true)
               (create_metrics example_platform)) = 1%nat.
Proof.
  destruct (create_metrics_points example_platform eq_refl)
    as (_ & _ & Hlist & _ & Hmem).
  split; [rewrite Hlist; vm_compute; reflexivity | exact Hmem].
Defined.

(** ** RDT *)

(** C6. In every record the detector returns, each cache-control parameter
    is present exactly when cache control is enabled, each bandwidth
    parameter exactly when bandwidth control is enabled, and with both
    enabled the class-of-service count is the smaller of the two counts
    read. *)
Theorem rdt_information_invariant (env : Env) (info : RDTInformation) :
  _collect_rdt_information env = Ok info ->
  (cbm_mask info <> None <-> rdt_cache_control_enabled info = true)
  /\ (min_cbm_bits info <> None <-> rdt_cache_control_enabled info = true)
  /\ (num_closids info <> None <-> rdt_cache_control_enabled info = true)
  /\ (mb_bandwidth_gran info <> None <-> rdt_mb_control_enabled info = true)
  /\ (mb_min_bandwidth info <> None <-> rdt_mb_control_enabled info = true)
  /\ (rdt_cache_control_enabled info = true ->
      rdt_mb_control_enabled info = true ->
      exists l3 mb,
        read_int_value env (py "info/L3/num_closids") = Ok l3
        /\ read_int_value env (py "info/MB/num_closids") = Ok mb
        /\ num_closids info = Some (Z.min l3 mb)).
Proof.
  unfold _collect_rdt_information. intros H.
  destruct (_read_value env (py "schemata")) as [schemata_body | e];
    [| discriminate H].
  cbn [bind] in H.
  destruct (PyStr.contains (py "L3") schemata_body) eqn:HL3;
    destruct (PyStr.contains (py "MB:") schemata_body) eqn:HMB;
    cbn [bind] in H;
    repeat match type of H with
      | context [bind (_read_value ?e ?p) _] =>
          destruct (_read_value e p) eqn:?; cbn [bind] in H
      | context [bind (read_int_value ?e ?p) _] =>
          destruct (read_int_value e p) eqn:?; cbn [bind] in H
      end;
    try discriminate H;
    injection H as <-; cbn;
    repeat split; intros; try congruence; eauto.
Qed.

Lemma rdt_information_invariant_witness :
  _collect_rdt_information example_host = Ok example_rdt
  /\ (num_closids example_rdt <> None
      <-> rdt_cache_control_enabled example_rdt = true)
  /\ (mb_min_bandwidth example_rdt <> None
      <-> rdt_mb_control_enabled example_rdt = true).
Proof.
  assert (H : _collect_rdt_information example_host = Ok example_rdt)
    by (vm_compute; reflexivity).
  split; [exact H |].
  pose proof (rdt_information_invariant example_host example_rdt H) as Hinv.
  split; apply Hinv.
Defined.

(** ** Memory counters *)

Section ProcMeminfo.
Import PyStr.

Lemma get_value_from_counter_line (key pad : str) (value : Z) (rest : str) :
  wf_meminfo_line (CounterLine key pad value rest) ->
  get_value_from_line (render_meminfo_line (CounterLine key pad value rest))
  = Ok value.
Proof.
  intros (Hkey & Hpad & Hnepad & _ & Hrest & _).
  unfold get_value_from_line. cbn [render_meminfo_line].
  change (key ++ py ":" ++ pad ++ of_int value ++ rest)
    with (key ++ [":"%char] ++ pad ++ of_int value ++ rest).
  rewrite (app_assoc key).
  rewrite split_ws_second; try assumption.
  - cbn [bind]. apply int_of_int.
  - apply Forall_app. split; [exact Hkey | repeat constructor].
  - destruct key; discriminate.
  - apply of_int_no_space.
  - apply of_int_chars.
Qed.

Lemma parse_meminfo_line (c : meminfo_counters) (l : meminfo_line) :
  wf_meminfo_line l ->
  parse_proc_meminfo_line c (render_meminfo_line l) = Ok (counters_after c l).
Proof.
  destruct l as [key pad value rest | text]; intros Hwf.
  - pose proof (get_value_from_counter_line key pad value rest Hwf) as Hval.
    unfold parse_proc_meminfo_line. rewrite Hval. cbn [bind].
    cbn [render_meminfo_line counters_after].
    change (key ++ py ":" ++ pad ++ of_int value ++ rest)
      with (key ++ ":"%char :: (pad ++ of_int value ++ rest)).
    rewrite !startswith_key
      by (intros H; vm_compute in H; intuition discriminate).
    destruct (startswith key (py "MemTotal")) eqn:H1.
    { rewrite (startswith_exclusive key (py "MemTotal") (py "MemFree") H1),
        (startswith_exclusive key (py "MemTotal") (py "Buffers") H1),
        (startswith_exclusive key (py "MemTotal") (py "Cached") H1);
        reflexivity. }
    destruct (startswith key (py "MemFree")) eqn:H2.
    { rewrite (startswith_exclusive key (py "MemFree") (py "Buffers") H2),
        (startswith_exclusive key (py "MemFree") (py "Cached") H2);
        reflexivity. }
    destruct (startswith key (py "Buffers")) eqn:H3.
    { rewrite (startswith_exclusive key (py "Buffers") (py "Cached") H3);
        reflexivity. }
    destruct (startswith key (py "Cached")) eqn:H4; [reflexivity |].
    destruct c; reflexivity.
  - destruct Hwf as [_ Hnames]. unfold parse_proc_meminfo_line.
    cbn [render_meminfo_line counters_after].
    apply Forall_cons in Hnames as [-> Hnames].
    apply Forall_cons in Hnames as [-> Hnames].
    apply Forall_cons in Hnames as [-> Hnames].
    apply Forall_cons in Hnames as [-> _]. reflexivity.
Qed.

Lemma parse_meminfo_lines (lines : list meminfo_line) :
  forall c : meminfo_counters,
    Forall wf_meminfo_line lines ->
    foldM parse_proc_meminfo_line (map render_meminfo_line lines) c
    = Ok {| mc_total := counter (py "MemTotal") lines (mc_total c);
            mc_free := counter (py "MemFree") lines (mc_free c);
            mc_buffers := counter (py "Buffers") lines (mc_buffers c);
            mc_cache := counter (py "Cached") lines (mc_cache c) |}.
Proof.
  induction lines as [| l lines IH]; intros c Hwf.
  - destruct c; reflexivity.
  - apply Forall_cons in Hwf as [Hl Hwf]. cbn [map foldM].
    rewrite parse_meminfo_line by exact Hl. cbn [bind].
    rewrite IH by exact Hwf. destruct l; reflexivity.
Qed.

Lemma render_meminfo_line_no_newline (l : meminfo_line) :
  wf_meminfo_line l -> no_newline (render_meminfo_line l).
Proof.
  destruct l as [key pad value rest | text]; cbn [render_meminfo_line].
  - intros (Hkey & _ & _ & Hpad & _ & Hrest) Hin.
    apply in_app_or in Hin as [Hin | Hin];
      [exact (no_space_no_newline _ Hkey Hin) |].
    apply in_app_or in Hin as [Hin | Hin];
      [vm_compute in Hin; intuition discriminate |].
    apply in_app_or in Hin as [Hin | Hin]; [exact (Hpad Hin) |].
    apply in_app_or in Hin as [Hin | Hin]; [| exact (Hrest Hin)].
    exact (no_space_no_newline _ (of_int_no_space value) Hin).
  - intros [H _]. exact H.
Qed.

Lemma parse_proc_meminfo_render (lines : list meminfo_line) :
  Forall wf_meminfo_line lines ->
  parse_proc_meminfo (render_meminfo lines)
  = Ok (Z.shiftl
          (counter (py "MemTotal") lines 0 - counter (py "MemFree") lines 0
           - counter (py "Buffers") lines 0 - counter (py "Cached") lines 0)
          10).
Proof.
  intros Hwf. unfold parse_proc_meminfo, render_meminfo.
  destruct lines as [| l lines]; [reflexivity |].
  unfold newline. rewrite split_join.
  - rewrite parse_meminfo_lines by exact Hwf. reflexivity.
  - discriminate.
  - apply Forall_fmap. eapply Forall_impl; [exact Hwf |].
    intros x Hx. apply render_meminfo_line_no_newline. exact Hx.
Qed.

End ProcMeminfo.

(** C4. For a text of memory-counter lines the parser returns
    (MemTotal - MemFree - Buffers - Cached) shifted left by 10 bits, that
    is multiplied by 1024, a counter without a line counting as zero; the
    four counters 1000, 400, 100 and 100 give 409600; a negative
    difference is returned as it is. *)
Theorem parse_proc_meminfo_used :
  (forall lines : list meminfo_line,
      Forall wf_meminfo_line lines ->
      let used :=
        counter (py "MemTotal") lines 0 - counter (py "MemFree") lines 0
        - counter (py "Buffers") lines 0 - counter (py "Cached") lines 0 in
      parse_proc_meminfo (render_meminfo lines) = Ok (Z.shiftl used 10)
      /\ Z.shiftl used 10 = used * 1024)
  /\ parse_proc_meminfo example_meminfo = Ok 409600
  /\ parse_proc_meminfo (py "MemTotal: 100 kB
MemFree: 400 kB
") = Ok (-307200).
Proof.
  split; [| split; vm_compute; reflexivity].
  intros lines Hwf used. split.
  - apply parse_proc_meminfo_render. exact Hwf.
  - rewrite Z.shiftl_mul_pow2 by lia. reflexivity.
Qed.

Lemma parse_proc_meminfo_used_witness :
  render_meminfo example_meminfo_lines = example_meminfo
  /\ parse_proc_meminfo (render_meminfo example_meminfo_lines)
     = Ok (Z.shiftl (1000 - 400 - 100 - 100) 10).
Proof.
  split; [vm_compute; reflexivity |].
  apply (proj1 parse_proc_meminfo_used example_meminfo_lines).
  repeat constructor; try discriminate;
    try (intros H; vm_compute in H; intuition discriminate).
Defined.

(** ** CPU busy time *)

Section ProcStat.
Import PyStr.

Lemma render_stat_line_no_newline (l : stat_line) :
  wf_stat_line l -> no_newline (render_stat_line l).
Proof.
  destruct l as [rest | cpu_id counters | text]; simpl.
  - intros Hrest [H | [H | [H | [H | H]]]]; try discriminate H. exact (Hrest H).
  - intros _ [H | [H | [H | H]]]; try discriminate H.
    apply in_app_or in H as [H | [H | H]].
    + revert H. apply of_int_notin; [reflexivity | discriminate].
    + discriminate H.
    + revert H. apply join_of_int_notin; [reflexivity | discriminate ..].
  - intros [H _]. exact H.
Qed.

Lemma parse_aggregate_line (d : dict Z Z) (rest : str) :
  parse_proc_stat_line d (render_stat_line (AggregateLine rest)) = Ok d.
Proof.
  unfold parse_proc_stat_line. cbn [render_stat_line].
  change (py "cpu" ++ space ++ rest)
    with ("c"%char :: "p"%char :: "u"%char :: " "%char :: rest).
  change (startswith ("c"%char :: "p"%char :: "u"%char :: " "%char :: rest)
            (py "cpu")) with true.
  cbv iota.
  change (py " ") with [" "%char].
  change ("c"%char :: "p"%char :: "u"%char :: " "%char :: rest)
    with (py "cpu" ++ " "%char :: rest).
  rewrite split_app by (intros [H | [H | [H | []]]]; discriminate H).
  reflexivity.
Qed.

Lemma parse_other_line (d : dict Z Z) (text : str) :
  startswith text (py "cpu") = false ->
  parse_proc_stat_line d (render_stat_line (OtherLine text)) = Ok d.
Proof.
  intros H. unfold parse_proc_stat_line. cbn [render_stat_line].
  rewrite H. destruct text; reflexivity.
Qed.

Lemma int_item_of_int (f0 : str) (counters : list Z) (i : nat) :
  (i < length counters)%nat ->
  int_item (f0 :: map of_int counters) (S i) = Ok (nth i counters 0).
Proof.
  intros Hi. unfold int_item, item. cbn [nth_error].
  rewrite nth_error_map.
  destruct (nth_error counters i) as [x |] eqn:Hx.
  - cbn [option_map bind]. rewrite int_of_int.
    rewrite (nth_error_nth _ _ _ Hx). reflexivity.
  - apply nth_error_None in Hx. lia.
Qed.

Lemma parse_cpu_line (d : dict Z Z) (cpu_id : Z) (counters : list Z) :
  (8 <= length counters)%nat ->
  parse_proc_stat_line d (render_stat_line (CpuLine cpu_id counters))
  = Ok (dict_set d cpu_id (busy_time counters)).
Proof.
  intros Hlen. unfold parse_proc_stat_line. cbn [render_stat_line].
  destruct (of_int_chars cpu_id) as [_ Hne].
  change (py "cpu" ++ of_int cpu_id ++ space ++ join space (map of_int counters))
    with ("c"%char :: "p"%char :: "u"%char
            :: (of_int cpu_id ++ space ++ join space (map of_int counters))).
  change (startswith
            ("c"%char :: "p"%char :: "u"%char
               :: (of_int cpu_id ++ space ++ join space (map of_int counters)))
            (py "cpu")) with true.
  cbv iota.
  change (py " ") with [" "%char]. unfold space.
  change ("c"%char :: "p"%char :: "u"%char
            :: (of_int cpu_id ++ [" "%char]
                ++ join [" "%char] (map of_int counters)))
    with ((py "cpu" ++ of_int cpu_id)
            ++ " "%char :: join [" "%char] (map of_int counters)).
  rewrite split_app.
  - assert (Hcs : counters <> [])
      by (destruct counters; [simpl in Hlen; lia | discriminate]).
    rewrite split_join_of_int by (reflexivity || discriminate || exact Hcs).
    cbn [item nth_error bind].
    change (drop 3 (py "cpu" ++ of_int cpu_id)) with (of_int cpu_id).
    destruct (of_int cpu_id) as [| c s] eqn:Hid; [congruence |].
    rewrite <- Hid, int_of_int. cbn [bind].
    rewrite !int_item_of_int by lia. reflexivity.
  - intros H. apply in_app_or in H as [[H | [H | [H | []]]] | H];
      try discriminate H.
    revert H. apply of_int_notin; [reflexivity | discriminate].
Qed.

Lemma parse_stat_lines (lines : list stat_line) :
  forall d : dict Z Z,
    Forall wf_stat_line lines ->
    foldM parse_proc_stat_line (map render_stat_line lines) d
    = Ok (dict_update d (cpu_entries lines)).
Proof.
  induction lines as [| l lines IH]; intros d Hwf; [reflexivity |].
  apply Forall_cons in Hwf as [Hl Hwf]. cbn [map foldM].
  destruct l as [rest | cpu_id counters | text].
  - rewrite parse_aggregate_line. cbn [bind cpu_entries]. apply IH, Hwf.
  - rewrite parse_cpu_line by exact Hl.
    cbn [bind cpu_entries]. rewrite IH by exact Hwf. reflexivity.
  - destruct Hl as [_ Hcpu]. rewrite parse_other_line by exact Hcpu.
    cbn [bind cpu_entries]. apply IH, Hwf.
Qed.

Lemma parse_proc_stat_render (lines : list stat_line) :
  Forall wf_stat_line lines ->
  parse_proc_stat (render_stat lines) = Ok (dict_of_pairs (cpu_entries lines)).
Proof.
  intros Hwf. unfold parse_proc_stat, render_stat.
  destruct lines as [| l lines]; [reflexivity |].
  unfold newline. rewrite split_join.
  - apply parse_stat_lines. exact Hwf.
  - discriminate.
  - apply Forall_fmap. eapply Forall_impl; [exact Hwf |].
    intros x Hx. apply render_stat_line_no_newline. exact Hx.
Qed.

End ProcStat.

(** C3. For a text with aggregate [cpu] lines and one well-formed line
    per CPU id 0..N-1 (among lines that do not begin with [cpu]), the
    parser returns a mapping with exactly N entries, whose keys are
    0..N-1 and whose values are the sums of the user, nice, system, irq,
    softirq and steal counters of the lines; idle, iowait and the guest
    counters are left out and the aggregate lines add no entry. *)
Theorem parse_proc_stat_per_cpu (lines : list stat_line) (N : nat) :
  Forall wf_stat_line lines ->
  Permutation (map fst (cpu_entries lines)) (map Z.of_nat (seq 0 N)) ->
  exists usage,
    parse_proc_stat (render_stat lines) = Ok usage
    /\ usage = cpu_entries lines
    /\ dict_len usage = Z.of_nat N
    /\ Permutation (dict_keys usage) (map Z.of_nat (seq 0 N))
    /\ forall cpu_id counters,
         In (CpuLine cpu_id counters) lines ->
         dict_get usage cpu_id
         = Some (nth 0 counters 0 + nth 1 counters 0 + nth 2 counters 0
                 + nth 5 counters 0 + nth 6 counters 0 + nth 7 counters 0).
Proof.
  intros Hwf Hperm.
  assert (Hnd : NoDup (map fst (cpu_entries lines))).
  { rewrite Hperm. apply NoDup_fmap; [intros x y Hxy; lia | apply NoDup_seq]. }
  exists (cpu_entries lines). split; [| split; [| split; [| split]]].
  - rewrite parse_proc_stat_render by exact Hwf.
    rewrite dict_of_pairs_fresh by exact Hnd. reflexivity.
  - reflexivity.
  - unfold dict_len. f_equal.
    rewrite <- (length_map fst), Hperm, length_map, length_seq. reflexivity.
  - exact Hperm.
  - intros cpu_id counters Hin. apply dict_get_In; [exact Hnd |].
    clear - Hin. induction lines as [| l lines IH]; [destruct Hin |].
    destruct Hin as [-> | Hin]; [left; reflexivity |].
    destruct l; simpl; auto.
Qed.

Lemma parse_proc_stat_per_cpu_witness :
  render_stat example_stat_lines = example_stat
  /\ exists usage,
      parse_proc_stat (render_stat example_stat_lines) = Ok usage
      /\ usage = [(0, 10 + 1 + 20 + 5 + 6 + 7); (1, 20 + 1 + 20 + 2 + 2 + 2)]
      /\ dict_len usage = 2.
Proof.
  split; [vm_compute; reflexivity |].
  destruct (parse_proc_stat_per_cpu example_stat_lines 2)
    as (usage & Hparse & Husage & Hlen & _).
  - repeat constructor; try (simpl; lia); try (vm_compute; reflexivity);
      intros H; vm_compute in H; intuition discriminate.
  - vm_compute. reflexivity.
  - exists usage. split; [exact Hparse |]. split; [exact Husage | exact Hlen].
Defined.

(** ** NUMA memory *)

(** C7, as worded, fails: the key is read from the line, not from the
    directory name.  The file of [node0] with a line for node 1 gives the
    free-memory mapping the key 1. *)
Lemma parse_node_meminfo_counterexample :
  parse_node_meminfo host_mislabelled_node = Ok ([(1, 4096)], [])
  /\ ~ keyed_by_directory host_mislabelled_node.
Proof.
  assert (H : parse_node_meminfo host_mislabelled_node = Ok ([(1, 4096)], []))
    by (vm_compute; reflexivity).
  split; [exact H |]. intros Hclaim.
  destruct (Hclaim _ _ 1 H) as (names & nodedir & Hnames & Hin & _ & Hint).
  - left. reflexivity.
  - injection Hnames as <-. destruct Hin as [<- | []].
    vm_compute in Hint. discriminate Hint.
Qed.

Lemma parse_node_meminfo_line_skip (st : dict Z Z * dict Z Z) (line : str) :
  contribution (py "MemFree:") line = None ->
  contribution (py "MemUsed:") line = None ->
  parse_node_meminfo_line st line = Ok st.
Proof.
  unfold contribution, parse_node_meminfo_line. destruct st as [f u].
  destruct (PyStr.split_ws line) as [| a [| s1 [| s2 [| s3 [| b [| c s]]]]]];
    try reflexivity.
  cbn [length Nat.eqb negb item nth_error bind]. intros Hf Hu.
  destruct (decide (s2 = py "MemFree:")); [discriminate Hf |].
  destruct (decide (s2 = py "MemUsed:")); [discriminate Hu |].
  reflexivity.
Qed.

Lemma parse_node_meminfo_line_free (f u : dict Z Z) (line : str) (c : str * str) :
  contribution (py "MemFree:") line = Some c ->
  contribution (py "MemUsed:") line = None
  /\ parse_node_meminfo_line (f, u) line
     = (e <- node_entry c ;; Ok (dict_set f (fst e) (snd e), u)).
Proof.
  unfold contribution, parse_node_meminfo_line, node_entry.
  destruct (PyStr.split_ws line) as [| a [| s1 [| s2 [| s3 [| b [| x s]]]]]];
    try discriminate.
  cbn [length Nat.eqb negb item nth_error bind].
  destruct (decide (s2 = py "MemFree:")) as [-> | _]; [| discriminate].
  intros [= <-]. cbn [fst snd].
  destruct (decide (py "MemFree:" = py "MemUsed:")) as [Heq | _];
    [vm_compute in Heq; discriminate Heq |].
  split; [reflexivity |].
  destruct (PyStr.int s3); [| reflexivity]. cbn [bind].
  destruct (PyStr.int s1); reflexivity.
Qed.

Lemma parse_node_meminfo_line_used (f u : dict Z Z) (line : str) (c : str * str) :
  contribution (py "MemUsed:") line = Some c ->
  contribution (py "MemFree:") line = None
  /\ parse_node_meminfo_line (f, u) line
     = (e <- node_entry c ;; Ok (f, dict_set u (fst e) (snd e))).
Proof.
  unfold contribution, parse_node_meminfo_line, node_entry.
  destruct (PyStr.split_ws line) as [| a [| s1 [| s2 [| s3 [| b [| x s]]]]]];
    try discriminate.
  cbn [length Nat.eqb negb item nth_error bind].
  destruct (decide (s2 = py "MemUsed:")) as [-> | _]; [| discriminate].
  intros [= <-]. cbn [fst snd].
  destruct (decide (py "MemUsed:" = py "MemFree:")) as [Heq | _];
    [vm_compute in Heq; discriminate Heq |].
  split; [reflexivity |].
  destruct (PyStr.int s3); [| reflexivity]. cbn [bind].
  destruct (PyStr.int s1); reflexivity.
Qed.

Lemma parse_node_meminfo_lines (lines : list str) :
  forall (f u : dict Z Z) (fe ue : list (Z * Z)),
    node_entries (py "MemFree:") lines = Ok fe ->
    node_entries (py "MemUsed:") lines = Ok ue ->
    foldM parse_node_meminfo_line lines (f, u)
    = Ok (dict_update f fe, dict_update u ue).
Proof.
  unfold node_entries.
  induction lines as [| line lines IH]; intros f u fe ue Hf Hu.
  - injection Hf as <-. injection Hu as <-. reflexivity.
  - cbn [foldM omap list_omap] in *.
    destruct (contribution (py "MemFree:") line) as [c |] eqn:Hcf.
    + destruct (parse_node_meminfo_line_free f u line c Hcf) as [Hcu ->].
      rewrite Hcu in Hu. cbn [mapM_r bind] in Hf.
      destruct (node_entry c) as [e |]; [| discriminate Hf]. cbn [bind] in *.
      destruct (mapM_r node_entry (omap (contribution (py "MemFree:")) lines))
        as [fe' |] eqn:Hfe'; [| discriminate Hf].
      injection Hf as <-. rewrite (IH _ _ fe' ue eq_refl Hu). reflexivity.
    + destruct (contribution (py "MemUsed:") line) as [c |] eqn:Hcu.
      * destruct (parse_node_meminfo_line_used f u line c Hcu) as [_ ->].
        cbn [mapM_r bind] in Hu.
        destruct (node_entry c) as [e |]; [| discriminate Hu]. cbn [bind] in *.
        destruct (mapM_r node_entry (omap (contribution (py "MemUsed:")) lines))
          as [ue' |] eqn:Hue'; [| discriminate Hu].
        injection Hu as <-. rewrite (IH _ _ fe ue' Hf eq_refl). reflexivity.
      * rewrite parse_node_meminfo_line_skip by assumption. cbn [bind].
        apply IH; assumption.
Qed.

Lemma parse_node_meminfo_dirs (env : Env) (names : list str) :
  forall (texts : list str) (st : dict Z Z * dict Z Z),
    mapM_r
      (fun nodedir =>
         read_file env (path_join [BASE_SYSFS_NODES_PATH; nodedir; py "meminfo"]))
      (filter is_node_dir names) = Ok texts ->
    foldM (parse_node_meminfo_dir env) names st
    = foldM parse_node_meminfo_line (concat (map PyStr.readlines texts)) st.
Proof.
  induction names as [| nodedir names IH]; intros texts st Hread.
  - injection Hread as <-. reflexivity.
  - cbn [foldM]. unfold parse_node_meminfo_dir at 1.
    destruct (PyStr.startswith nodedir (py "node")) eqn:Hnode.
    + rewrite filter_cons_True in Hread by exact Hnode.
      cbn [mapM_r] in Hread.
      destruct (read_file env _) as [text |]; [| discriminate Hread].
      cbn [bind] in *.
      destruct (mapM_r _ (filter is_node_dir names)) as [texts' |] eqn:Hrest;
        [| discriminate Hread].
      injection Hread as <-. cbn [map concat]. rewrite foldM_app.
      destruct (foldM parse_node_meminfo_line (PyStr.readlines text) st)
        as [st' |]; [| reflexivity].
      cbn [bind]. apply IH. reflexivity.
    + rewrite filter_cons_False in Hread
        by (unfold is_node_dir; rewrite Hnode; discriminate).
      cbn [bind]. apply IH. exact Hread.
Qed.

(** C7, amended. The two mappings are keyed by the integer in the 2nd
    field of each contributing line; only lines of exactly 5
    whitespace-delimited fields contribute, the 3rd field selects the
    mapping and the value is the 4th field shifted left by 10 bits. *)
Theorem parse_node_meminfo_entries
  (env : Env) (lines : list str) (free_entries used_entries : list (Z * Z)) :
  node_meminfo_lines env = Ok lines ->
  node_entries (py "MemFree:") lines = Ok free_entries ->
  node_entries (py "MemUsed:") lines = Ok used_entries ->
  parse_node_meminfo env
  = Ok (dict_of_pairs free_entries, dict_of_pairs used_entries).
Proof.
  unfold node_meminfo_lines, parse_node_meminfo. intros Hlines Hf Hu.
  destruct (listdir_nodes env) as [names |]; [| discriminate Hlines].
  cbn [bind] in *.
  destruct (mapM_r _ (filter is_node_dir names)) as [texts |] eqn:Htexts;
    [| discriminate Hlines].
  injection Hlines as <-.
  rewrite (parse_node_meminfo_dirs env names texts _ Htexts).
  apply parse_node_meminfo_lines; assumption.
Qed.

Lemma parse_node_meminfo_entries_witness :
  parse_node_meminfo example_host
  = Ok (dict_of_pairs [(0, 409600)], dict_of_pairs [(0, 614400)]).
Proof.
  apply (parse_node_meminfo_entries example_host
           (PyStr.readlines example_node_meminfo));
    vm_compute; reflexivity.
Defined.

(** ** Topology *)

Lemma int_field_id_of (name : str) (p : dict str str) :
  is_ok (int_field name p) = true -> int_field name p = Ok (id_of name p).
Proof. unfold id_of. destruct (int_field name p); [reflexivity | discriminate]. Qed.

Lemma add_core_pure (s : Z) (t : topology_t) (g : Z * list (dict str str)) :
  Forall has_ids (snd g) ->
  add_core s t g = Ok (topology_set t s (fst g) (map cpu_of (snd g))).
Proof.
  destruct g as [c qs]. intros Hqs. unfold add_core.
  rewrite (mapM_r_pure _ cpu_of); [reflexivity |].
  eapply Forall_impl; [exact Hqs |].
  intros p (_ & _ & Hp). apply int_field_id_of. exact Hp.
Qed.

Lemma add_cores_more (cg : list (Z * list (dict str str))) :
  forall (t0 : topology_t) (s : Z) (inner : dict Z (list Z)),
    ~ In s (dict_keys t0) ->
    NoDup (dict_keys inner ++ map fst cg) ->
    Forall (fun g => Forall has_ids (snd g)) cg ->
    foldM (add_core s) cg (t0 ++ [(s, inner)])
    = Ok (t0 ++ [(s, inner ++ map core_entry cg)]).
Proof.
  induction cg as [| g cg IH]; intros t0 s inner Hs Hnd Hids.
  - simpl. rewrite app_nil_r. reflexivity.
  - apply Forall_cons in Hids as [Hg Hids]. cbn [foldM].
    rewrite add_core_pure by exact Hg. cbn [bind]. unfold topology_set.
    rewrite dict_get_last by exact Hs.
    rewrite (dict_set_fresh inner).
    + rewrite dict_set_last by exact Hs. rewrite IH.
      * rewrite <- app_assoc. reflexivity.
      * exact Hs.
      * unfold dict_keys in *. rewrite map_app, <- app_assoc. exact Hnd.
      * exact Hids.
    + apply NoDup_app in Hnd as (_ & Hdisj & _). intros Hin.
      apply (Hdisj (fst g)); [apply list_elem_of_In; exact Hin | left].
Qed.

Lemma add_cores (cg : list (Z * list (dict str str))) (t0 : topology_t) (s : Z) :
  cg <> [] ->
  ~ In s (dict_keys t0) ->
  NoDup (map fst cg) ->
  Forall (fun g => Forall has_ids (snd g)) cg ->
  foldM (add_core s) cg t0 = Ok (t0 ++ [(s, map core_entry cg)]).
Proof.
  intros Hne Hs Hnd Hids. destruct cg as [| g cg]; [congruence |].
  pose proof Hids as Hids'. apply Forall_cons in Hids' as [Hg Hrest].
  cbn [foldM]. rewrite add_core_pure by exact Hg. cbn [bind].
  unfold topology_set. rewrite dict_get_fresh by exact Hs.
  cbn [dict_set]. rewrite dict_set_fresh by exact Hs.
  rewrite add_cores_more; [reflexivity | exact Hs | exact Hnd | exact Hrest].
Qed.

Lemma add_socket_pure (t : topology_t) (g : Z * list (dict str str)) :
  snd g <> [] ->
  ~ In (fst g) (dict_keys t) ->
  Forall has_ids (snd g) ->
  add_socket t g = Ok (t ++ [(fst g, inner_of (snd g))]).
Proof.
  destruct g as [s ps]. cbn [fst snd]. intros Hne Hs Hids. unfold add_socket.
  rewrite (sorted_groups_pure by_core_id core_of).
  - cbn [bind]. apply add_cores.
    + apply groupby_nonempty. exact Hne.
    + exact Hs.
    + apply sorted_groups_keys.
    + apply sorted_groups_Forall. exact Hids.
  - eapply Forall_impl; [exact Hids |].
    intros p (_ & Hp & _). apply int_field_id_of. exact Hp.
Qed.

Lemma add_sockets (sg : list (Z * list (dict str str))) :
  forall t : topology_t,
    NoDup (dict_keys t ++ map fst sg) ->
    Forall (fun g => snd g <> [] /\ Forall has_ids (snd g)) sg ->
    foldM add_socket sg t
    = Ok (t ++ map (fun g => (fst g, inner_of (snd g))) sg).
Proof.
  induction sg as [| g sg IH]; intros t Hnd Hsg.
  - simpl. rewrite app_nil_r. reflexivity.
  - apply Forall_cons in Hsg as [[Hne Hids] Hsg]. cbn [foldM].
    rewrite add_socket_pure; [| exact Hne | | exact Hids].
    + cbn [bind]. rewrite IH.
      * rewrite <- app_assoc. reflexivity.
      * unfold dict_keys in *. rewrite map_app, <- app_assoc. exact Hnd.
      * exact Hsg.
    + apply NoDup_app in Hnd as (_ & Hdisj & _). intros Hin.
      apply (Hdisj (fst g)); [apply list_elem_of_In; exact Hin | left].
Qed.

Lemma build_topology_pure (processors : list (dict str str)) :
  Forall has_ids processors ->
  build_topology processors = Ok (topology_of processors).
Proof.
  intros Hids. unfold build_topology.
  rewrite (sorted_groups_pure by_physical_id socket_of).
  - cbn [bind]. rewrite add_sockets; [reflexivity | |].
    + apply sorted_groups_keys.
    + pose proof (groupby_groups socket_of (py_sorted socket_of processors)) as Hok.
      pose proof (sorted_groups_Forall socket_of has_ids processors Hids) as Hall.
      rewrite Forall_forall in Hok, Hall. apply Forall_forall. intros g Hg.
      split; [apply Hok; exact Hg | apply Hall; exact Hg].
  - eapply Forall_impl; [exact Hids |].
    intros p (Hp & _). apply int_field_id_of. exact Hp.
Qed.

Lemma inner_of_length (ps : list (dict str str)) :
  length (inner_of ps) = size (list_to_set (map core_of ps) : gset Z).
Proof. unfold inner_of. rewrite length_map. apply sorted_groups_count. Qed.

Lemma socket_group_cores (l : list (dict str str)) (s : Z) (ps : list (dict str str)) :
  (s, ps) ∈ groupby socket_of (py_sorted socket_of l) ->
  (list_to_set (map core_of ps) : gset Z) = core_ids l s.
Proof.
  intros Hin. unfold core_ids. apply list_to_set_perm.
  rewrite (sorted_groups_members socket_of l s ps Hin). reflexivity.
Qed.

Lemma socket_keys_perm (l : list (dict str str)) :
  map fst (groupby socket_of (py_sorted socket_of l)) ≡ₚ elements (socket_ids l).
Proof.
  destruct (sorted_groups_keys socket_of l) as [Hnd Helem].
  apply NoDup_Permutation; [exact Hnd | apply NoDup_elements |].
  intros k. rewrite Helem. unfold socket_ids.
  rewrite elem_of_elements, elem_of_list_to_set. reflexivity.
Qed.

Lemma topology_of_keys (l : list (dict str str)) :
  dict_keys (topology_of l) = map fst (groupby socket_of (py_sorted socket_of l)).
Proof. unfold dict_keys, topology_of. rewrite map_map. reflexivity. Qed.

Lemma topology_of_sockets (l : list (dict str str)) :
  dict_len (topology_of l) = Z.of_nat (size (socket_ids l)).
Proof.
  unfold dict_len, topology_of, socket_ids. rewrite length_map.
  rewrite sorted_groups_count. reflexivity.
Qed.

Lemma topology_of_cores (l : list (dict str str)) :
  sum_Z (map dict_len (dict_values (topology_of l)))
  = sum_Z (map (fun s => Z.of_nat (size (core_ids l s))) (elements (socket_ids l))).
Proof.
  rewrite <- (sum_Z_perm _ _ (Permutation_map _ (socket_keys_perm l))).
  f_equal. unfold dict_values, topology_of. rewrite !map_map.
  apply map_ext_in. intros [s ps] Hin. cbn [fst snd]. unfold dict_len.
  rewrite inner_of_length. do 2 f_equal.
  apply socket_group_cores, list_elem_of_In. exact Hin.
Qed.

Lemma inner_of_cpus (ps : list (dict str str)) :
  concat (dict_values (inner_of ps)) ≡ₚ map cpu_of ps.
Proof.
  unfold dict_values, inner_of. rewrite map_map. cbn [snd].
  rewrite <- (py_sorted_perm core_of ps) at 2.
  rewrite <- (groupby_concat core_of (py_sorted core_of ps)) at 2.
  generalize (groupby core_of (py_sorted core_of ps)). intros gs.
  induction gs as [| g gs IH]; [reflexivity |].
  cbn [map concat]. rewrite map_app, IH. reflexivity.
Qed.

Lemma topology_of_cpus (l : list (dict str str)) :
  topology_cpus (topology_of l) ≡ₚ map cpu_of l.
Proof.
  unfold topology_cpus, topology_of. rewrite map_map. cbn [snd].
  rewrite <- (py_sorted_perm socket_of l) at 2.
  rewrite <- (groupby_concat socket_of (py_sorted socket_of l)) at 2.
  generalize (groupby socket_of (py_sorted socket_of l)). intros gs.
  induction gs as [| g gs IH]; [reflexivity |].
  cbn [map concat]. rewrite map_app, IH, inner_of_cpus. reflexivity.
Qed.

(** The CPU list of a socket and a core holds the records of both. *)
Lemma topology_of_lookup (l : list (dict str str)) (s c : Z)
  (inner : dict Z (list Z)) (cpus : list Z) :
  In (s, inner) (topology_of l) -> In (c, cpus) inner ->
  cpus ≡ₚ map cpu_of
           (filter (fun p => core_of p = c)
              (filter (fun p => socket_of p = s) l)).
Proof.
  unfold topology_of. intros Hs Hc.
  apply in_map_iff in Hs as ([s' ps] & [= <- <-] & Hs).
  unfold inner_of in Hc.
  apply in_map_iff in Hc as ([c' qs] & [= <- <-] & Hc).
  cbn [fst snd] in *.
  apply list_elem_of_In in Hs, Hc.
  rewrite (sorted_groups_members core_of ps c' qs Hc).
  rewrite (sorted_groups_members socket_of l s' ps Hs). reflexivity.
Qed.

Section RenderCpuinfo.
Import PyStr.

Lemma render_field_no_newline (f : field_line) :
  wf_field f -> no_newline (render_field f).
Proof.
  intros ((_ & _ & Hk) & (_ & _ & Hv) & (_ & Hp) & (_ & Hg)) Hin.
  unfold render_field in Hin.
  apply in_app_or in Hin as [Hin | Hin]; [exact (Hk Hin) |].
  apply in_app_or in Hin as [Hin | Hin]; [exact (Hp Hin) |].
  apply in_app_or in Hin as [Hin | Hin];
    [vm_compute in Hin; intuition discriminate |].
  apply in_app_or in Hin as [Hin | Hin]; [exact (Hg Hin) | exact (Hv Hin)].
Qed.

Lemma render_field_head (f : field_line) :
  wf_field f -> exists c t, render_field f = c :: t /\ c <> "010"%char.
Proof.
  intros Hf. pose proof (render_field_no_newline f Hf) as Hno.
  destruct (render_field f) as [| c t] eqn:E.
  - unfold render_field in E.
    destruct (line_key f); [| discriminate E].
    destruct (line_pad f); discriminate E.
  - exists c, t. split; [reflexivity |]. intros ->. apply Hno. left. reflexivity.
Qed.

Lemma join_head (sep x : str) (l : list str) :
  exists t, join sep (x :: l) = x ++ t.
Proof.
  destruct l as [| y l]; [exists []; simpl; rewrite app_nil_r; reflexivity |].
  exists (sep ++ join sep (y :: l)). reflexivity.
Qed.

(** A line splits at its colon into the padded key and the padded value;
    stripping gives the key and the value. *)
Lemma parse_field (f : field_line) :
  wf_field f ->
  map strip (split (py ":") (render_field f)) = [line_key f; line_value f].
Proof.
  intros ((Hks & Hkc & _) & (Hvs & Hvc & _) & (Hp & _) & (Hg & _)).
  unfold render_field. change (py ":") with [":"%char].
  rewrite (app_assoc (line_key f)). cbn [app].
  rewrite split_app.
  - rewrite split_notin.
    + cbn [map]. rewrite strip_pad_right by assumption.
      rewrite strip_pad_left by exact Hg.
      rewrite (strip_stripped _ Hvs). reflexivity.
    + intros H. apply in_app_or in H as [H | H]; [| exact (Hvc H)].
      revert H. apply all_space_notin; [reflexivity | exact Hg].
  - intros H. apply in_app_or in H as [H | H]; [exact (Hkc H) |].
    revert H. apply all_space_notin; [reflexivity | exact Hp].
Qed.

Lemma parse_fields (fields : list field_line) :
  Forall wf_field fields ->
  mapM_r
    (fun line =>
       match map strip (split (py ":") line) with
       | [k; v] => Ok (k, v)
       | _ => Raise ValueError
       end)
    (map render_field fields)
  = Ok (map field_of fields).
Proof.
  induction fields as [| f fields IH]; intros Hwf; [reflexivity |].
  apply Forall_cons in Hwf as [Hf Hwf]. cbn [map mapM_r].
  rewrite (parse_field f Hf). cbn [bind]. rewrite IH by exact Hwf.
  reflexivity.
Qed.

Lemma parse_processor_render (fields : list field_line) :
  wf_record fields ->
  parse_processor (render_record fields) = Ok (record_dict fields).
Proof.
  intros [Hne Hwf]. unfold parse_processor, render_record, newline.
  rewrite split_join.
  - rewrite parse_fields by exact Hwf. reflexivity.
  - destruct fields; [congruence | discriminate].
  - apply Forall_fmap. eapply Forall_impl; [exact Hwf |].
    intros f Hf. apply render_field_no_newline. exact Hf.
Qed.

Lemma render_record_shape (fields : list field_line) :
  wf_record fields ->
  no_blank_line (render_record fields)
  /\ exists c t, render_record fields = c :: t /\ c <> "010"%char.
Proof.
  intros [Hne Hwf]. unfold render_record, newline.
  induction fields as [| f fields IH]; [congruence |].
  apply Forall_cons in Hwf as [Hf0 Hwf].
  destruct (render_field_head f Hf0) as (c & t & Hf & Hc).
  destruct fields as [| g fields].
  - cbn [map join]. split; [| exists c, t; split; assumption].
    apply no_blank_line_word, render_field_no_newline; assumption.
  - destruct (IH ltac:(discriminate) Hwf) as (Hblank & d & u & Hrest & Hd).
    change (join ["010"%char] (map render_field (f :: g :: fields)))
      with (render_field f ++ "010"%char
              :: join ["010"%char] (map render_field (g :: fields))).
    split.
    + apply no_blank_line_app.
      * apply render_field_no_newline; assumption.
      * exact Hblank.
      * intros d' t' Heq. rewrite Hrest in Heq. injection Heq as <- _. exact Hd.
      * rewrite Hrest. discriminate.
    + rewrite Hf. exists c, (t ++ "010"%char
                               :: join ["010"%char] (map render_field (g :: fields))).
      split; [reflexivity | exact Hc].
Qed.

Lemma split_render_cpuinfo (records : list (list field_line)) :
  Forall wf_record records ->
  split (newline ++ newline) (render_cpuinfo records)
  = map render_record records ++ [[]].
Proof.
  induction records as [| r records IH]; intros Hwf; [reflexivity |].
  apply Forall_cons in Hwf as [Hr Hwf].
  unfold render_cpuinfo. cbn [map concat]. rewrite <- !app_assoc.
  rewrite split_blank_line by (apply render_record_shape; exact Hr).
  fold (render_cpuinfo records). rewrite IH by exact Hwf. reflexivity.
Qed.

(** A descriptor written from well-formed records parses into the
    dictionaries of these records, one for each record. *)
Lemma parse_processors_render (records : list (list field_line)) :
  Forall wf_record records ->
  parse_processors (render_cpuinfo records) = Ok (map record_dict records).
Proof.
  intros Hwf. unfold parse_processors.
  rewrite split_render_cpuinfo by exact Hwf.
  rewrite filter_app, filter_cons_False, filter_nil, app_nil_r
    by (intros H; discriminate H).
  induction records as [| r records IH]; [reflexivity |].
  apply Forall_cons in Hwf as [Hr Hwf]. cbn [map].
  destruct (render_record_shape r Hr) as (_ & c & t & Hshape & _).
  rewrite filter_cons_True by (rewrite Hshape; reflexivity).
  cbn [mapM_r]. rewrite (parse_processor_render r Hr). cbn [bind].
  rewrite IH by exact Hwf. reflexivity.
Qed.

End RenderCpuinfo.

Lemma topology_of_core_keys (l : list (dict str str)) (s : Z)
  (inner : dict Z (list Z)) :
  In (s, inner) (topology_of l) -> dict_keys inner ≡ₚ elements (core_ids l s).
Proof.
  unfold topology_of. intros Hs.
  apply in_map_iff in Hs as ([s' ps] & [= <- <-] & Hs). cbn [fst snd].
  apply list_elem_of_In in Hs.
  rewrite <- (socket_group_cores l s' ps Hs).
  unfold inner_of, dict_keys. rewrite map_map. cbn [fst].
  destruct (sorted_groups_keys core_of ps) as [Hnd Helem].
  apply NoDup_Permutation; [exact Hnd | apply NoDup_elements |].
  intros k. rewrite Helem, elem_of_elements, elem_of_list_to_set. reflexivity.
Qed.

Ltac wf_field_tac :=
  repeat split;
  first
    [ discriminate
    | solve [repeat constructor]
    | let c := fresh "c" in
      let t := fresh "t" in
      let E := fresh "E" in
      intros c t E; vm_compute in E;
      repeat (destruct t as [| ? t]; try discriminate E);
      injection E; intros; subst; reflexivity
    | let E := fresh "E" in
      intros E; vm_compute in E; intuition discriminate ].

Ltac wf_records_tac :=
  repeat apply List.Forall_cons; try apply List.Forall_nil;
  (split; [discriminate |]);
  repeat apply List.Forall_cons; try apply List.Forall_nil;
  wf_field_tac.

(** C5, as worded, fails in its last part: a descriptor with two records
    of the same processor number, each with the three ids, gives a
    structure that holds that number twice. *)
Lemma collect_topology_information_counterexample :
  Forall wf_record records_repeated
  /\ Forall (fun r => has_ids (record_dict r)) records_repeated
  /\ collect_topology_information host_repeated_processor
     = Ok (2, 1, 1, [(0, [(0, [0; 0])])])
  /\ ~ no_cpu_repeated host_repeated_processor.
Proof.
  split; [wf_records_tac |].
  split; [repeat constructor |].
  assert (H : collect_topology_information host_repeated_processor
              = Ok (2, 1, 1, [(0, [(0, [0; 0])])]))
    by (vm_compute; reflexivity).
  split; [exact H |]. intros Hclaim.
  specialize (Hclaim _ _ _ _ H). cbn in Hclaim.
  apply NoDup_cons in Hclaim as [Hnotin _]. apply Hnotin. left.
Qed.

(** C5, amended. For a processor-descriptor text written as records of
    lines of a key, a colon and a value, one colon in a line with any
    blanks around it, each record closed by a blank line, whose records
    all have the physical-id, core-id and processor keys with integer
    values, the collector returns the number of records of the text as the
    logical-processor count, the number of distinct socket ids as the
    socket count, the sum over the sockets of the number of distinct core
    ids within the socket as the core count, and a mapping keyed by the
    socket ids and, within a socket, by its core ids, in which the list of
    a socket and a core holds the processor ids of the records of both,
    one entry for each record: together the lists are a permutation of
    the records' processor ids, so an id is repeated in the structure
    exactly when two records have the same processor id. *)
Theorem collect_topology_information_counts
  (env : Env) (records : list (list field_line)) :
  read_file env (py "/proc/cpuinfo") = Ok (render_cpuinfo records) ->
  Forall wf_record records ->
  Forall (fun r => has_ids (record_dict r)) records ->
  let processors := map record_dict records in
  exists nr_of_cores nr_of_sockets topology,
    collect_topology_information env
    = Ok (Z.of_nat (length records), nr_of_cores, nr_of_sockets, topology)
    /\ nr_of_sockets = Z.of_nat (size (socket_ids processors))
    /\ nr_of_cores
       = sum_Z (map (fun s => Z.of_nat (size (core_ids processors s)))
                  (elements (socket_ids processors)))
    /\ dict_keys topology ≡ₚ elements (socket_ids processors)
    /\ (forall s inner,
           In (s, inner) topology ->
           dict_keys inner ≡ₚ elements (core_ids processors s))
    /\ (forall s c inner cpus,
           In (s, inner) topology -> In (c, cpus) inner ->
           cpus ≡ₚ map cpu_of
                    (filter (fun p => core_of p = c)
                       (filter (fun p => socket_of p = s) processors)))
    /\ topology_cpus topology ≡ₚ map cpu_of processors
    /\ (NoDup (topology_cpus topology) <-> NoDup (map cpu_of processors)).
Proof.
  intros Hread Hwf Hids processors.
  assert (Hall : Forall has_ids processors)
    by (unfold processors; apply Forall_fmap; exact Hids).
  exists (sum_Z (map dict_len (dict_values (topology_of processors)))),
    (dict_len (topology_of processors)), (topology_of processors).
  split; [| split; [| split; [| split; [| split; [| split; [| split]]]]]].
  - unfold collect_topology_information.
    rewrite Hread. cbn [bind].
    rewrite (parse_processors_render records Hwf). cbn [bind].
    fold processors. rewrite build_topology_pure by exact Hall.
    cbn [bind]. unfold processors at 1. rewrite length_map. reflexivity.
  - apply topology_of_sockets.
  - apply topology_of_cores.
  - rewrite topology_of_keys. apply socket_keys_perm.
  - intros s inner. apply topology_of_core_keys.
  - intros s c inner cpus. apply topology_of_lookup.
  - apply topology_of_cpus.
  - rewrite topology_of_cpus. reflexivity.
Qed.

Lemma collect_topology_information_counts_witness :
  exists nr_of_cores nr_of_sockets topology,
    collect_topology_information host_2x2x2
    = Ok (8, nr_of_cores, nr_of_sockets, topology)
    /\ nr_of_sockets = 2
    /\ nr_of_cores = 4
    /\ NoDup (topology_cpus topology).
Proof.
  destruct (collect_topology_information_counts host_2x2x2 records_2x2x2)
    as (nr_of_cores & nr_of_sockets & topology
        & Hc & Hs & Hcores & _ & _ & _ & _ & Hnd).
  - reflexivity.
  - wf_records_tac.
  - repeat constructor.
  - exists nr_of_cores, nr_of_sockets, topology.
    split; [exact Hc |]. split; [rewrite Hs; vm_compute; reflexivity |].
    split; [rewrite Hcores; vm_compute; reflexivity |].
    apply Hnd.
    apply (bool_decide_unpack
             (NoDup (map cpu_of (map record_dict records_2x2x2)))).
    vm_compute. exact I.
Defined.

(** ** Assembly *)

Lemma host_without_numa_topology :
  collect_topology_information host_without_numa = Ok (2, 1, 1, example_topology)
  /\ collect_topology_information host_without_numa_3
     = Ok (2, 1, 1, example_topology).
Proof. split; vm_compute; reflexivity. Qed.

Lemma host_without_numa_usage :
  (s <- read_proc_stat host_without_numa ;; parse_proc_stat s)
  = Ok [(0, 49); (1, 47)]
  /\ (s <- read_proc_stat host_without_numa_3 ;; parse_proc_stat s)
     = Ok [(0, 49); (1, 47); (2, 6)].
Proof. split; vm_compute; reflexivity. Qed.

Lemma host_without_numa_raises :
  collect_platform_information host_without_numa false = Raise OSError
  /\ collect_platform_information host_without_numa_3 false = Raise OSError.
Proof. split; vm_compute; reflexivity. Qed.

(** C1, as worded, fails where a later collector raises: without the NUMA
    root directory the call raises the I/O error of the directory listing,
    both when the two counts agree (2 and 2) and when they differ (2 and
    3). *)
Lemma collect_platform_information_counterexample :
  ~ assertion_decides host_without_numa false
  /\ ~ assertion_decides host_without_numa_3 false.
Proof.
  destruct host_without_numa_topology as [Ht Ht3].
  destruct host_without_numa_raises as [Hr Hr3].
  split; intros Hclaim.
  - destruct (Hclaim 2 1 1 example_topology example_stat [(0, 49); (1, 47)] Ht)
      as [_ Heq]; [reflexivity | vm_compute; reflexivity |].
    destruct Heq as [r Hok]; [reflexivity |]. rewrite Hr in Hok. discriminate Hok.
  - destruct (Hclaim 2 1 1 example_topology
                (example_stat ++ py "cpu2 1 1 1 1 1 1 1 1 1 1
") [(0, 49); (1, 47); (2, 6)] Ht3)
      as [Hne _]; [vm_compute; reflexivity | vm_compute; reflexivity |].
    rewrite Hr3 in Hne. discriminate Hne. vm_compute. discriminate.
Qed.

(** C1, amended. With the results of the topology collector and of the
    utilization parser at hand: differing counts never return a platform;
    when every other collector completes, the assertion decides:
    differing counts raise the assertion error, equal counts return the
    platform assembled from the collected parts, with its measurement
    points and tags; and when another collector raises, the call raises
    its error, whatever the counts: the error of the first to raise in
    the order RDT detection, reading the memory counters, parsing them,
    NUMA memory, NUMA CPU lists. *)
Theorem collect_platform_information_assertion
  (env : Env) (rdt_enabled : bool)
  (nr_of_cpus nr_of_cores no_of_sockets : Z) (topo : topology_t)
  (stat : str) (usage : dict Z Z) :
  collect_topology_information env
  = Ok (nr_of_cpus, nr_of_cores, no_of_sockets, topo) ->
  read_proc_stat env = Ok stat ->
  parse_proc_stat stat = Ok usage ->
  (dict_len usage <> nr_of_cpus ->
   forall r, collect_platform_information env rdt_enabled <> Ok r)
  /\ (forall (rdt : option RDTInformation) (meminfo : str) (used_memory : Z)
             (node_free node_used : dict Z Z) (ncpus : dict Z (gset Z)),
         collect_rdt_step env rdt_enabled = Ok rdt ->
         read_proc_meminfo env = Ok meminfo ->
         parse_proc_meminfo meminfo = Ok used_memory ->
         parse_node_meminfo env = Ok (node_free, node_used) ->
         parse_node_cpus env = Ok ncpus ->
         let platform :=
           {| sockets := no_of_sockets; cores := nr_of_cores; cpus := nr_of_cpus;
              topology := topo; cpu_model := get_cpu_model env;
              cpus_usage := usage; total_memory_used := used_memory;
              node_memory_free := node_free; node_memory_used := node_used;
              node_cpus := ncpus; timestamp := clock env;
              rdt_information := rdt |} in
         (dict_len usage <> nr_of_cpus ->
          collect_platform_information env rdt_enabled = Raise AssertionError)
         /\ (dict_len usage = nr_of_cpus ->
             collect_platform_information env rdt_enabled
             = Ok (platform, create_metrics platform, create_labels env platform)))
  /\ forall e : exn,
       (collect_rdt_step env rdt_enabled = Raise e ->
        collect_platform_information env rdt_enabled = Raise e)
       /\ forall rdt,
            collect_rdt_step env rdt_enabled = Ok rdt ->
            (read_proc_meminfo env = Raise e ->
             collect_platform_information env rdt_enabled = Raise e)
            /\ forall meminfo,
                 read_proc_meminfo env = Ok meminfo ->
                 (parse_proc_meminfo meminfo = Raise e ->
                  collect_platform_information env rdt_enabled = Raise e)
                 /\ forall used_memory,
                      parse_proc_meminfo meminfo = Ok used_memory ->
                      (parse_node_meminfo env = Raise e ->
                       collect_platform_information env rdt_enabled = Raise e)
                      /\ forall node_mem,
                           parse_node_meminfo env = Ok node_mem ->
                           parse_node_cpus env = Raise e ->
                           collect_platform_information env rdt_enabled
                           = Raise e.
Proof.
  intros Ht Hs Hu. split; [| split].
  - intros Hcount r Hr. unfold collect_platform_information in Hr.
    rewrite Ht in Hr. cbn [bind] in Hr.
    fold (collect_rdt_step env rdt_enabled) in Hr.
    destruct (collect_rdt_step env rdt_enabled) as [rdt |]; [| discriminate Hr].
    cbn [bind] in Hr. rewrite Hs in Hr. cbn [bind] in Hr.
    rewrite Hu in Hr. cbn [bind] in Hr.
    destruct (read_proc_meminfo env) as [meminfo |]; [| discriminate Hr].
    cbn [bind] in Hr.
    destruct (parse_proc_meminfo meminfo) as [used_memory |]; [| discriminate Hr].
    cbn [bind] in Hr.
    destruct (parse_node_meminfo env) as [[node_free node_used] |];
      [| discriminate Hr].
    cbn [bind] in Hr.
    destruct (parse_node_cpus env) as [ncpus |]; [| discriminate Hr].
    cbn [bind cpus_usage cpus] in Hr.
    destruct (decide (dict_len usage = nr_of_cpus)); [contradiction | discriminate Hr].
  - intros rdt meminfo used_memory node_free node_used ncpus
      Hrdt Hm Hmem Hn Hc platform.
    unfold collect_platform_information.
    unfold collect_rdt_step in Hrdt.
    rewrite Ht. cbn [bind]. rewrite Hrdt. cbn [bind].
    rewrite Hs. cbn [bind]. rewrite Hu. cbn [bind].
    rewrite Hm. cbn [bind]. rewrite Hmem. cbn [bind].
    rewrite Hn. cbn [bind]. rewrite Hc. cbn [bind].
    fold platform. cbn [cpus_usage cpus platform].
    split; intros Hcount; destruct (decide (dict_len usage = nr_of_cpus));
      congruence.
  - intros e. unfold collect_platform_information.
    rewrite Ht. cbn [bind]. fold (collect_rdt_step env rdt_enabled).
    split; [intros ->; reflexivity |].
    intros rdt ->. cbn [bind]. rewrite Hs. cbn [bind]. rewrite Hu. cbn [bind].
    split; [intros ->; reflexivity |].
    intros meminfo ->. cbn [bind].
    split; [intros ->; reflexivity |].
    intros used_memory ->. cbn [bind].
    split; [intros ->; reflexivity |].
    intros [node_free node_used] ->. cbn [bind]. intros ->. reflexivity.
Qed.

Lemma collect_platform_information_assertion_witness :
  collect_platform_information example_host true
  = Ok (let platform :=
          {| sockets := 1; cores := 1; cpus := 2;
             topology := example_topology;
             cpu_model := get_cpu_model example_host;
             cpus_usage := [(0, 49); (1, 47)]; total_memory_used := 409600;
             node_memory_free := [(0, 409600)];
             node_memory_used := [(0, 614400)];
             node_cpus := [(0, {[ 0; 1 ]})]; timestamp := clock example_host;
             rdt_information := Some example_rdt |} in
        (platform, create_metrics platform, create_labels example_host platform))
  /\ collect_platform_information host_without_numa true = Raise OSError.
Proof.
  split.
  - refine (proj2 (proj1 (proj2 (collect_platform_information_assertion
                                   example_host true
                                   2 1 1 example_topology example_stat
                                   [(0, 49); (1, 47)] _ _ _))
                     (Some example_rdt) example_meminfo 409600 [(0, 409600)]
                     [(0, 614400)] [(0, {[ 0; 1 ]})] _ _ _ _ _) _);
      vm_compute; reflexivity.
  - destruct (collect_platform_information_assertion host_without_numa true
                2 1 1 example_topology example_stat [(0, 49); (1, 47)])
      as (_ & _ & Herr); [vm_compute; reflexivity .. |].
    destruct (Herr OSError) as [_ Hrdt].
    destruct (Hrdt (Some example_rdt)) as [_ Hmem]; [vm_compute; reflexivity |].
    destruct (Hmem example_meminfo) as [_ Hparse]; [vm_compute; reflexivity |].
    destruct (Hparse 409600) as [Hnode _]; [vm_compute; reflexivity |].
    apply Hnode. vm_compute. reflexivity.
Defined.

(** * Further properties *)

(** ** The list-format codec *)

Section ListFormatMore.
Import PyStr.

Lemma int_of_int_pad (n : Z) (pad : str) :
  all_space pad -> int (strip (of_int n ++ pad)) = Ok n.
Proof.
  intros Hpad. rewrite strip_pad_right; [apply int_of_int | | exact Hpad].
  apply no_space_stripped, of_int_no_space.
Qed.

Lemma of_int_inj (a b : Z) : of_int a = of_int b -> a = b.
Proof.
  intros H. pose proof (int_of_int a) as Ha. rewrite H, int_of_int in Ha.
  congruence.
Qed.

Lemma of_int_nonneg_notin (c : ascii) (n : Z) :
  0 <= n -> is_digit c = false -> ~ In c (of_int n).
Proof.
  intros Hn Hc. apply all_digits_notin; [exact Hc |]. apply of_int_nonneg, Hn.
Qed.

(** One item, possibly followed by whitespace. *)
Lemma decode_range_item (cores : gset Z) (i : list_item) (pad : str) :
  item_nonneg i -> all_space pad ->
  decode_range cores (render_item i ++ pad)
  = Ok (cores ∪ list_to_set (item_numbers i)).
Proof.
  intros Hi Hpad. unfold decode_range. change (py "-") with ["-"%char].
  assert (Hdash : ~ In "-"%char pad) by (apply all_space_notin; [reflexivity | exact Hpad]).
  destruct i as [n | a b]; cbn [render_item item_numbers item_nonneg] in *.
  - rewrite split_notin.
    + rewrite int_of_int_pad by exact Hpad. cbn [bind]. f_equal. set_solver.
    + intros H. apply in_app_or in H as [H | H]; [| exact (Hdash H)].
      revert H. apply of_int_nonneg_notin; [exact Hi | reflexivity].
  - destruct Hi as [Ha Hb]. change (py "-") with ["-"%char].
    rewrite <- app_assoc. cbn [app].
    rewrite split_app by (apply of_int_nonneg_notin; [exact Ha | reflexivity]).
    rewrite split_notin.
    + rewrite <- (app_nil_r (of_int a)) at 1.
      rewrite int_of_int_pad by constructor.
      rewrite int_of_int_pad by exact Hpad. cbn [bind].
      fold (add_all cores (py_range a (b + 1))). rewrite add_all_spec.
      reflexivity.
    + intros H. apply in_app_or in H as [H | H]; [| exact (Hdash H)].
      revert H. apply of_int_nonneg_notin; [exact Hb | reflexivity].
Qed.

Lemma render_item_no_comma (i : list_item) : ~ In ","%char (render_item i).
Proof.
  destruct i as [n | a b]; cbn [render_item].
  - apply of_int_notin; [reflexivity | discriminate].
  - intros H. apply in_app_or in H as [H | H];
      [revert H; apply of_int_notin; [reflexivity | discriminate] |].
    apply in_app_or in H as [H | H]; [vm_compute in H; intuition discriminate |].
    revert H. apply of_int_notin; [reflexivity | discriminate].
Qed.

Lemma render_item_nonempty (i : list_item) : render_item i <> [].
Proof.
  destruct i as [n | a b]; cbn [render_item].
  - apply of_int_chars.
  - destruct (of_int_chars a) as [_ Hne]. destruct (of_int a); [congruence | discriminate].
Qed.

Lemma join_append_last (sep pad : str) (l : list str) :
  l <> [] -> join sep (append_last pad l) = join sep l ++ pad.
Proof.
  induction l as [| x l IH]; intros Hne; [congruence |].
  destruct l as [| y l]; [reflexivity |].
  change (append_last pad (x :: y :: l)) with (x :: append_last pad (y :: l)).
  assert (Hy : exists z l', append_last pad (y :: l) = z :: l').
  { destruct l; simpl; eauto. }
  destruct Hy as (z & l' & Hz). rewrite Hz.
  change (join sep (x :: z :: l')) with (x ++ sep ++ join sep (z :: l')).
  rewrite <- Hz, IH by discriminate.
  change (join sep (x :: y :: l)) with (x ++ sep ++ join sep (y :: l)).
  rewrite <- !app_assoc. reflexivity.
Qed.

Lemma decode_items_loop (items : list list_item) (pad : str) :
  forall cores : gset Z,
    Forall item_nonneg items -> all_space pad ->
    foldM decode_range (append_last pad (map render_item items)) cores
    = Ok (cores ∪ list_to_set (concat (map item_numbers items))).
Proof.
  induction items as [| i items IH]; intros cores Hwf Hpad.
  - simpl. f_equal. set_solver.
  - apply Forall_cons in Hwf as [Hi Hwf].
    destruct items as [| j items].
    + cbn [map append_last foldM]. rewrite decode_range_item by assumption.
      cbn [bind concat]. rewrite app_nil_r. reflexivity.
    + change (append_last pad (map render_item (i :: j :: items)))
        with (render_item i :: append_last pad (map render_item (j :: items))).
      cbn [foldM]. rewrite <- (app_nil_r (render_item i)).
      rewrite decode_range_item by (assumption || constructor).
      cbn [bind]. rewrite IH by assumption.
      f_equal. cbn [map concat]. rewrite list_to_set_app_L. set_solver.
Qed.

Lemma elem_of_item_numbers (i : list_item) (x : Z) :
  x ∈ item_numbers i <-> covers i x.
Proof.
  destruct i as [n | a b]; cbn [item_numbers covers].
  - rewrite list_elem_of_singleton. reflexivity.
  - rewrite elem_of_py_range. lia.
Qed.

End ListFormatMore.

Lemma decode_listformat_rendered (items : list list_item) (pad : str) :
  items <> [] -> Forall item_nonneg items -> all_space pad ->
  decode_listformat (render_listformat items ++ pad)
  = Ok (list_to_set (concat (map item_numbers items))).
Proof.
  intros Hne Hwf Hpad.
  unfold render_listformat, decode_listformat.
  assert (Htok : map render_item items <> []) by (destruct items; [congruence | discriminate]).
  rewrite <- (join_append_last (py ",") pad _ Htok).
  assert (Hcomma : Forall (fun s => ~ In ","%char s)
                     (append_last pad (map render_item items))).
  { clear Hne Hwf Htok. induction items as [| i items IH]; [constructor |].
    destruct items as [| j items].
    - constructor; [| constructor]. intros H.
      apply in_app_or in H as [H | H]; [exact (render_item_no_comma i H) |].
      revert H. apply all_space_notin; [reflexivity | exact Hpad].
    - constructor; [apply render_item_no_comma | exact IH]. }
  assert (Hne' : append_last pad (map render_item items) <> []).
  { destruct items as [| i [| j items]]; [congruence | discriminate ..]. }
  destruct (PyStr.join (py ",") (append_last pad (map render_item items)))
    as [| c s] eqn:Hj.
  - exfalso. destruct items as [| i [| j items]]; [congruence | |].
    + simpl in Hj. apply app_eq_nil in Hj as [Hj _].
      exact (render_item_nonempty i Hj).
    + change (append_last pad (map render_item (i :: j :: items)))
        with (render_item i :: append_last pad (map render_item (j :: items)))
        in Hj.
      destruct (append_last pad (map render_item (j :: items))) eqn:E;
        simpl in Hj.
      * exact (render_item_nonempty i Hj).
      * apply app_eq_nil in Hj as [Hj _]. exact (render_item_nonempty i Hj).
  - rewrite <- Hj. change (py ",") with [","%char].
    rewrite split_join by assumption.
    rewrite decode_items_loop by assumption. f_equal. set_solver.
Qed.

Lemma elem_of_items_numbers (items : list list_item) (x : Z) :
  x ∈ (list_to_set (concat (map item_numbers items)) : gset Z)
  <-> exists i, In i items /\ covers i x.
Proof.
  rewrite elem_of_list_to_set, list_elem_of_In, in_concat. split.
  - intros (l & Hl & Hx). apply in_map_iff in Hl as (i & <- & Hi).
    exists i. split; [exact Hi |].
    apply elem_of_item_numbers, list_elem_of_In. exact Hx.
  - intros (i & Hi & Hx). exists (item_numbers i). split.
    + apply in_map. exact Hi.
    + apply list_elem_of_In, elem_of_item_numbers. exact Hx.
Qed.

(** X1. A list-format text of non-negative numbers and ranges, possibly
    followed by whitespace such as the newline that ends a kernel file,
    decodes to the set of the numbers its items stand for; a range whose
    start exceeds its end stands for none. *)
Theorem decode_listformat_items (items : list list_item) (pad : str) :
  items <> [] -> Forall item_nonneg items -> all_space pad ->
  exists cores : gset Z,
    decode_listformat (render_listformat items ++ pad) = Ok cores
    /\ forall x, x ∈ cores <-> exists i, In i items /\ covers i x.
Proof.
  intros Hne Hwf Hpad.
  exists (list_to_set (concat (map item_numbers items))). split.
  - apply decode_listformat_rendered; assumption.
  - intros x. apply elem_of_items_numbers.
Qed.

Lemma decode_listformat_items_witness :
  exists cores : gset Z,
    decode_listformat (py "0,2-4,7-5" ++ newline) = Ok cores
    /\ forall x, x ∈ cores
         <-> exists i, In i [Single 0; Range 2 4; Range 7 5] /\ covers i x.
Proof.
  apply (decode_listformat_items [Single 0; Range 2 4; Range 7 5] newline).
  - discriminate.
  - repeat apply List.Forall_cons; try apply List.Forall_nil; cbn; lia.
  - repeat constructor.
Defined.

Section ListFormatEdges.
Import PyStr.

Lemma sorted_le_NoDup_lt (l : list Z) :
  StronglySorted Z.le l -> NoDup l -> StronglySorted Z.lt l.
Proof.
  induction 1 as [| x l Hs IH Hx]; intros Hnd; [constructor |].
  apply NoDup_cons in Hnd as [Hnotin Hnd].
  constructor; [apply IH, Hnd |].
  rewrite Forall_forall in Hx |- *. intros y Hy.
  specialize (Hx y Hy). assert (x <> y) by (intros ->; exact (Hnotin Hy)). lia.
Qed.

(** The numbers [encode_listformat] writes: the members, ascending. *)
Lemma sorted_elements (ints : gset Z) :
  StronglySorted Z.lt (py_sorted id (elements ints))
  /\ forall x, x ∈ py_sorted id (elements ints) <-> x ∈ ints.
Proof.
  split.
  - apply sorted_le_NoDup_lt.
    + exact (py_sorted_sorted id (elements ints)).
    + rewrite (py_sorted_perm id (elements ints)). apply NoDup_elements.
  - intros x. rewrite (py_sorted_perm id (elements ints)). apply elem_of_elements.
Qed.

Lemma sorted_elements_nil (ints : gset Z) :
  py_sorted id (elements ints) = [] <-> ints = ∅.
Proof.
  split; intros H.
  - apply set_eq. intros x. rewrite <- (proj2 (sorted_elements ints) x), H.
    set_solver.
  - subst ints. rewrite elements_empty. reflexivity.
Qed.

Lemma encode_listformat_tokens (ints : gset Z) :
  ints <> ∅ ->
  split (py ",") (encode_listformat ints)
  = map of_int (py_sorted id (elements ints)).
Proof.
  intros Hne. unfold encode_listformat. change (py ",") with [","%char].
  apply split_join_of_int; [reflexivity | discriminate |].
  intros H. apply Hne, sorted_elements_nil, H.
Qed.

Lemma encode_listformat_nil (ints : gset Z) :
  encode_listformat ints = [] <-> ints = ∅.
Proof.
  split; intros H.
  - apply sorted_elements_nil. unfold encode_listformat in H.
    destruct (py_sorted id (elements ints)) as [| n l]; [reflexivity |].
    exfalso. destruct (of_int_chars n) as [_ Hn].
    destruct l; simpl in H.
    + exact (Hn H).
    + apply app_eq_nil in H as [H _]. exact (Hn H).
  - subst ints. unfold encode_listformat. rewrite elements_empty. reflexivity.
Qed.

Lemma decode_range_space (cores : gset Z) (pad : str) :
  all_space pad -> decode_range cores pad = Raise ValueError.
Proof.
  intros Hpad. unfold decode_range. change (py "-") with ["-"%char].
  rewrite split_notin by (apply all_space_notin; [reflexivity | exact Hpad]).
  rewrite <- (app_nil_l pad), strip_pad_right; [reflexivity | | exact Hpad].
  split; intros c t H; destruct t; discriminate H.
Qed.

Lemma decode_range_negative (cores : gset Z) (n : Z) :
  n < 0 -> decode_range cores (of_int n) = Raise ValueError.
Proof.
  intros Hn. unfold decode_range. rewrite of_int_neg by exact Hn.
  change (py "-") with ["-"%char].
  change ("-"%char :: of_int (- n)) with ([] ++ "-"%char :: of_int (- n)).
  rewrite (split_app "-"%char [] (of_int (- n))) by (intros []).
  rewrite split_notin
    by (apply of_int_nonneg_notin; [lia | reflexivity]).
  reflexivity.
Qed.

Lemma append_last_nil (l : list str) : append_last [] l = l.
Proof.
  induction l as [| x l IH]; [reflexivity |].
  destruct l as [| y l]; [cbn [append_last]; rewrite app_nil_r; reflexivity |].
  change (append_last [] (x :: y :: l)) with (x :: append_last [] (y :: l)).
  rewrite IH. reflexivity.
Qed.

Lemma decode_listformat_space (pad : str) :
  pad <> [] -> all_space pad -> decode_listformat pad = Raise ValueError.
Proof.
  intros Hne Hpad. unfold decode_listformat.
  destruct pad as [| c pad]; [congruence |].
  change (py ",") with [","%char].
  rewrite split_notin by (apply all_space_notin; [reflexivity | exact Hpad]).
  cbn [foldM]. rewrite decode_range_space by exact Hpad. reflexivity.
Qed.

End ListFormatEdges.

(** X2. A blank item makes the decoder raise ValueError: a text that is
    not empty and has, after any number of well-formed items, an item that
    is empty or whitespace only (a single newline, a trailing comma, two
    commas in a row) is not decoded, whatever follows that item. *)
Theorem decode_listformat_blank_item
  (items : list list_item) (pad : str) (more : list str) :
  Forall item_nonneg items -> all_space pad ->
  Forall (fun t => ~ In ","%char t) more ->
  items <> [] \/ pad <> [] \/ more <> [] ->
  decode_listformat
    (PyStr.join (py ",") (map render_item items ++ pad :: more))
  = Raise ValueError.
Proof.
  intros Hitems Hpad Hmore Hne.
  assert (Hcomma : Forall (fun t => ~ In ","%char t)
                     (map render_item items ++ pad :: more)).
  { apply Forall_app. split.
    - apply Forall_fmap, Forall_forall. intros i _. apply render_item_no_comma.
    - constructor; [| exact Hmore].
      apply all_space_notin; [reflexivity | exact Hpad]. }
  assert (Htext : PyStr.join (py ",") (map render_item items ++ pad :: more)
                  <> []).
  { destruct items as [| i items].
    - destruct pad as [| c pad].
      + destruct more as [| m more]; [intuition congruence |]. discriminate.
      + destruct more; discriminate.
    - cbn [map app]. pose proof (render_item_nonempty i) as Hi.
      destruct (render_item i) as [| c r]; [congruence |].
      destruct (map render_item items ++ pad :: more); discriminate. }
  unfold decode_listformat.
  destruct (PyStr.join (py ",") (map render_item items ++ pad :: more))
    as [| c text] eqn:Hjoin; [congruence |].
  rewrite <- Hjoin. change (py ",") with [","%char].
  rewrite split_join by (exact Hcomma || (destruct items; discriminate)).
  rewrite foldM_app.
  rewrite <- (append_last_nil (map render_item items)).
  rewrite decode_items_loop by (exact Hitems || constructor).
  cbn [bind foldM]. rewrite decode_range_space by exact Hpad. reflexivity.
Qed.

Lemma decode_listformat_blank_item_witness :
  decode_listformat (py "1,2,") = Raise ValueError
  /\ decode_listformat newline = Raise ValueError.
Proof.
  split.
  - apply (decode_listformat_blank_item [Single 1; Single 2] [] []).
    + repeat apply List.Forall_cons; try apply List.Forall_nil; cbn; lia.
    + constructor.
    + constructor.
    + left. discriminate.
  - apply (decode_listformat_blank_item [] newline []).
    + constructor.
    + repeat constructor.
    + constructor.
    + right. left. discriminate.
Defined.

(** X3. The round trip stops at negative numbers: the encoding of a set
    with a negative member starts with a minus sign, which the decoder
    takes for a range with an empty start, and decoding raises
    ValueError. *)
Theorem decode_encode_negative (ints : gset Z) (n : Z) :
  n ∈ ints -> n < 0 ->
  decode_listformat (encode_listformat ints) = Raise ValueError.
Proof.
  intros Hin Hn.
  assert (Hne : ints <> ∅) by set_solver.
  unfold decode_listformat.
  destruct (encode_listformat ints) as [| c s] eqn:Henc.
  { exfalso. apply Hne, encode_listformat_nil, Henc. }
  rewrite <- Henc, encode_listformat_tokens by exact Hne.
  destruct (sorted_elements ints) as [Hsorted Hmem].
  apply Hmem in Hin.
  destruct (py_sorted id (elements ints)) as [| h l]; [inversion Hin |].
  assert (Hh : h < 0).
  { apply elem_of_cons in Hin as [<- | Hin]; [exact Hn |].
    apply StronglySorted_inv in Hsorted as [_ Hall].
    rewrite Forall_forall in Hall. specialize (Hall n Hin). lia. }
  cbn [map foldM]. rewrite decode_range_negative by exact Hh. reflexivity.
Qed.

Lemma decode_encode_negative_witness :
  decode_listformat (encode_listformat {[ 3; -1 ]}) = Raise ValueError.
Proof.
  apply (decode_encode_negative {[ 3; -1 ]} (-1)).
  - set_solver.
  - lia.
Defined.

(** X4. The encoder writes one numeral for each member of the set, in
    strictly ascending order, separated by commas; it writes every member
    and never joins consecutive numbers into a range. *)
Theorem encode_listformat_numerals (ints : gset Z) :
  ints <> ∅ ->
  exists l : list Z,
    PyStr.split (py ",") (encode_listformat ints) = map PyStr.of_int l
    /\ StronglySorted Z.lt l
    /\ forall x, x ∈ l <-> x ∈ ints.
Proof.
  intros Hne. exists (py_sorted id (elements ints)).
  split; [apply encode_listformat_tokens, Hne | apply sorted_elements].
Qed.

Lemma encode_listformat_numerals_witness :
  exists l : list Z,
    PyStr.split (py ",") (encode_listformat {[ 5; 4; -2 ]}) = map PyStr.of_int l
    /\ StronglySorted Z.lt l
    /\ forall x, x ∈ l <-> x ∈ ({[ 5; 4; -2 ]} : gset Z).
Proof.
  apply (encode_listformat_numerals {[ 5; 4; -2 ]}). set_solver.
Defined.

(** X5. Two sets with the same encoding are equal, negative members
    included. *)
Theorem encode_listformat_inj (a b : gset Z) :
  encode_listformat a = encode_listformat b -> a = b.
Proof.
  intros H.
  destruct (decide (a = ∅)) as [Ha | Ha].
  { subst a. symmetry. apply encode_listformat_nil. rewrite <- H.
    apply encode_listformat_nil. reflexivity. }
  destruct (decide (b = ∅)) as [Hb | Hb].
  { subst b. apply encode_listformat_nil. rewrite H.
    apply encode_listformat_nil. reflexivity. }
  pose proof (encode_listformat_tokens a Ha) as Hta.
  rewrite H, (encode_listformat_tokens b Hb) in Hta.
  assert (Heq : py_sorted id (elements b) = py_sorted id (elements a)).
  { revert Hta. generalize (py_sorted id (elements a)).
    induction (py_sorted id (elements b)) as [| x l IH]; intros [| y l'] Hm;
      try discriminate Hm; [reflexivity |].
    injection Hm as Hx Hl. f_equal; [apply of_int_inj, Hx | apply IH, Hl]. }
  apply set_eq. intros x.
  rewrite <- (proj2 (sorted_elements a) x), <- (proj2 (sorted_elements b) x), Heq.
  reflexivity.
Qed.

Lemma encode_listformat_inj_witness : ({[ 1; 2 ]} : gset Z) = {[ 2; 1 ]}.
Proof.
  apply (encode_listformat_inj {[ 1; 2 ]} {[ 2; 1 ]}). reflexivity.
Defined.

(** ** Dictionaries and loops, continued *)

Section DictMore.
Context {K V : Type} `{EqDecision K}.

Lemma dict_keys_set (d : dict K V) (k k' : K) (v : V) :
  In k' (dict_keys (dict_set d k v)) <-> k' = k \/ In k' (dict_keys d).
Proof.
  induction d as [| [k0 v0] d IH]; cbn [dict_set].
  - simpl. intuition congruence.
  - destruct (decide (k0 = k)) as [-> | Hne]; simpl in *.
    + intuition congruence.
    + rewrite IH. intuition congruence.
Qed.

Lemma dict_get_set (d : dict K V) (k k' : K) (v : V) :
  dict_get (dict_set d k v) k'
  = if decide (k = k') then Some v else dict_get d k'.
Proof.
  induction d as [| [k0 v0] d IH]; cbn [dict_set dict_get].
  - destruct (decide (k = k')); reflexivity.
  - destruct (decide (k0 = k)) as [-> | Hne]; cbn [dict_get].
    + destruct (decide (k = k')); reflexivity.
    + destruct (decide (k0 = k')) as [-> | Hne'].
      * destruct (decide (k = k')); [congruence | reflexivity].
      * exact IH.
Qed.

Lemma dict_keys_update (l : list (K * V)) :
  forall (d : dict K V) (k : K),
    In k (dict_keys (dict_update d l)) <-> In k (dict_keys d) \/ In k (map fst l).
Proof.
  unfold dict_update.
  induction l as [| [k0 v0] l IH]; intros d k; cbn [fold_left map fst snd].
  - simpl. intuition.
  - rewrite IH, dict_keys_set. simpl. intuition congruence.
Qed.

Lemma dict_get_update (l : list (K * V)) :
  forall (d : dict K V) (k : K) (v : V),
    dict_get (dict_update d l) k = Some v ->
    In (k, v) l \/ dict_get d k = Some v.
Proof.
  unfold dict_update.
  induction l as [| [k0 v0] l IH]; intros d k v; cbn [fold_left fst snd].
  - intros H. right. exact H.
  - intros H. apply IH in H as [H | H]; [left; right; exact H |].
    rewrite dict_get_set in H.
    destruct (decide (k0 = k)) as [-> | Hne]; [| right; exact H].
    injection H as ->. left. left. reflexivity.
Qed.

Lemma dict_get_keys (d : dict K V) (k : K) :
  In k (dict_keys d) <-> exists v, dict_get d k = Some v.
Proof.
  induction d as [| [k0 v0] d IH]; cbn [dict_keys map fst dict_get In].
  - split; [intros [] | intros [v Hv]; discriminate Hv].
  - destruct (decide (k0 = k)) as [-> | Hne].
    + split; [eauto | intros _; left; reflexivity].
    + fold (dict_keys d). rewrite IH. intuition congruence.
Qed.

End DictMore.

Lemma mapM_r_In_r {A B : Type} (f : A -> result B) (l : list A) :
  forall (ys : list B) (y : B),
    mapM_r f l = Ok ys -> In y ys -> exists x, In x l /\ f x = Ok y.
Proof.
  induction l as [| x l IH]; intros ys y Hm Hy; cbn [mapM_r] in Hm.
  - injection Hm as <-. destruct Hy.
  - destruct (f x) as [y0 |] eqn:Hx; [| discriminate Hm]. cbn [bind] in Hm.
    destruct (mapM_r f l) as [ys' |]; [| discriminate Hm].
    injection Hm as <-. destruct Hy as [<- | Hy].
    + exists x. split; [left; reflexivity | exact Hx].
    + destruct (IH ys' y eq_refl Hy) as (x' & Hin & Hx').
      exists x'. split; [right; exact Hin | exact Hx'].
Qed.

Lemma mapM_r_In_l {A B : Type} (f : A -> result B) (l : list A) :
  forall (ys : list B) (x : A),
    mapM_r f l = Ok ys -> In x l -> exists y, In y ys /\ f x = Ok y.
Proof.
  induction l as [| x0 l IH]; intros ys x Hm Hx; cbn [mapM_r] in Hm.
  - destruct Hx.
  - destruct (f x0) as [y0 |] eqn:Hx0; [| discriminate Hm]. cbn [bind] in Hm.
    destruct (mapM_r f l) as [ys' |]; [| discriminate Hm].
    injection Hm as <-. destruct Hx as [<- | Hx].
    + exists y0. split; [left; reflexivity | exact Hx0].
    + destruct (IH ys' x eq_refl Hx) as (y & Hin & Hy).
      exists y. split; [right; exact Hin | exact Hy].
Qed.

Lemma mapM_r_omap {A B C : Type} (f : A -> result C) (sel : B -> option A)
  (g : B -> option C) (l : list B) :
  Forall (fun b => match sel b with
                   | Some a => exists c, g b = Some c /\ f a = Ok c
                   | None => g b = None
                   end) l ->
  mapM_r f (omap sel l) = Ok (omap g l).
Proof.
  induction 1 as [| b l Hb _ IH]; [reflexivity |].
  cbn [omap list_omap]. destruct (sel b) as [a |].
  - destruct Hb as (c & -> & Hc). cbn [mapM_r]. rewrite Hc. cbn [bind].
    fold (omap sel l). fold (omap g l). rewrite IH. reflexivity.
  - rewrite Hb. exact IH.
Qed.

(** ** NUMA CPUs *)

(** The loop over the directory entries collects the entries of the node
    directories, in the order of the listing. *)
Lemma parse_node_cpus_dirs (env : Env) (names : list str) :
  forall node_cpus : dict Z (gset Z),
    foldM (parse_node_cpus_dir env) names node_cpus
    = (entries <- mapM_r (node_cpus_entry env) (filter is_node_dir names) ;;
       Ok (dict_update node_cpus entries)).
Proof.
  induction names as [| nodedir names IH]; intros node_cpus; [reflexivity |].
  cbn [foldM]. unfold parse_node_cpus_dir at 1.
  destruct (PyStr.startswith nodedir (py "node")) eqn:Hnode.
  - rewrite filter_cons_True by exact Hnode.
    cbn [mapM_r]. unfold node_cpus_entry at 1, cpulist_path.
    destruct (PyStr.int (drop 4 nodedir)) as [k |]; [| reflexivity].
    cbn [bind]. destruct (read_file env _) as [text |]; [| reflexivity].
    cbn [bind]. destruct (decode_listformat text) as [cpus |]; [| reflexivity].
    cbn [bind]. rewrite IH.
    destruct (mapM_r (node_cpus_entry env) (filter is_node_dir names));
      reflexivity.
  - rewrite filter_cons_False
      by (unfold is_node_dir; rewrite Hnode; discriminate).
    cbn [bind]. apply IH.
Qed.

Lemma parse_node_cpus_entries (env : Env) (node_cpus : dict Z (gset Z)) :
  parse_node_cpus env = Ok node_cpus ->
  exists names entries,
    sysfs_node_entries env = Some names
    /\ mapM_r (node_cpus_entry env) (filter is_node_dir names) = Ok entries
    /\ node_cpus = dict_of_pairs entries.
Proof.
  unfold parse_node_cpus, listdir_nodes. intros H.
  destruct (sysfs_node_entries env) as [names |]; [| discriminate H].
  cbn [bind] in H. rewrite parse_node_cpus_dirs in H.
  destruct (mapM_r (node_cpus_entry env) (filter is_node_dir names))
    as [entries |] eqn:Hm; [| discriminate H].
  injection H as <-. exists names, entries. repeat split; assumption || reflexivity.
Qed.

Lemma node_cpus_entry_inv (env : Env) (nodedir : str) (k : Z) (cpus : gset Z) :
  node_cpus_entry env nodedir = Ok (k, cpus) ->
  PyStr.int (drop 4 nodedir) = Ok k
  /\ exists text,
       read_file env (cpulist_path nodedir) = Ok text
       /\ decode_listformat text = Ok cpus.
Proof.
  unfold node_cpus_entry.
  destruct (PyStr.int (drop 4 nodedir)) as [k' |]; [| discriminate].
  cbn [bind]. destruct (read_file env _) as [text |]; [| discriminate].
  cbn [bind]. destruct (decode_listformat text) as [cpus' |] eqn:Hd;
    [| discriminate].
  cbn [bind]. intros [= -> ->]. split; [reflexivity |].
  exists text. split; [reflexivity | exact Hd].
Qed.

Lemma In_filter_node_dir (names : list str) (nodedir : str) :
  In nodedir (filter is_node_dir names) <-> In nodedir names /\ is_node_dir nodedir.
Proof.
  rewrite <- !list_elem_of_In, list_elem_of_filter. tauto.
Qed.

(** X6. On a host whose node directories are named by the word node and
    the node's number, each with a one-line CPU list of non-negative
    numbers and ranges, the NUMA CPU reader returns, in the order of the
    listing, each node's number with the set of the CPUs its list stands
    for; the other entries of the directory are ignored. *)
Theorem parse_node_cpus_kernel (env : Env) (entries : list root_entry) :
  sysfs_node_entries env = Some (map entry_name entries) ->
  Forall (wf_root_entry env) entries ->
  parse_node_cpus env = Ok (dict_of_pairs (omap entry_cpus entries)).
Proof.
  intros Hnames Hwf. unfold parse_node_cpus, listdir_nodes.
  rewrite Hnames. cbn [bind]. rewrite parse_node_cpus_dirs.
  assert (Hm : mapM_r (node_cpus_entry env)
                 (filter is_node_dir (map entry_name entries))
               = Ok (omap entry_cpus entries)).
  { clear Hnames. induction Hwf as [| e entries He _ IH]; [reflexivity |].
    cbn [map]. destruct e as [id items | name].
    - destruct He as (Hne & Hitems & Hread).
      rewrite filter_cons_True by reflexivity.
      cbn [mapM_r omap list_omap entry_cpus]. fold (omap entry_cpus entries).
      rewrite IH. unfold node_cpus_entry.
      cbn [entry_name] in *.
      change (drop 4 (py "node" ++ PyStr.of_int id)) with (PyStr.of_int id).
      rewrite int_of_int. cbn [bind]. rewrite Hread. cbn [bind].
      rewrite (decode_listformat_rendered items newline)
        by first [assumption | repeat constructor].
      reflexivity.
    - rewrite filter_cons_False by exact He.
      cbn [omap list_omap entry_cpus]. exact IH. }
  rewrite Hm. reflexivity.
Qed.

Lemma parse_node_cpus_kernel_witness :
  parse_node_cpus example_host
  = Ok (dict_of_pairs
          (omap entry_cpus
             [OtherEntry (py "has_cpu"); NodeDir 0 [Range 0 1];
              OtherEntry (py "online")])).
Proof.
  apply (parse_node_cpus_kernel example_host
           [OtherEntry (py "has_cpu"); NodeDir 0 [Range 0 1];
            OtherEntry (py "online")]).
  - reflexivity.
  - repeat apply List.Forall_cons; try apply List.Forall_nil.
    + unfold wf_root_entry, is_node_dir. vm_compute. discriminate.
    + split; [discriminate |]. split; [| vm_compute; reflexivity].
      repeat apply List.Forall_cons; try apply List.Forall_nil. cbn. lia.
    + unfold wf_root_entry, is_node_dir. vm_compute. discriminate.
Defined.

(** X7. When the NUMA CPU reader returns, the keys of its mapping are
    exactly the integers that follow the word node in the names of the
    listed node directories: unlike the memory mappings, this one is keyed
    by the directory name. *)
Theorem parse_node_cpus_keys
  (env : Env) (names : list str) (node_cpus : dict Z (gset Z)) (k : Z) :
  sysfs_node_entries env = Some names ->
  parse_node_cpus env = Ok node_cpus ->
  In k (dict_keys node_cpus)
  <-> exists nodedir,
        In nodedir names /\ is_node_dir nodedir
        /\ PyStr.int (drop 4 nodedir) = Ok k.
Proof.
  intros Hnames Hok.
  destruct (parse_node_cpus_entries env node_cpus Hok)
    as (names' & entries & Hnames' & Hm & ->).
  rewrite Hnames in Hnames'. injection Hnames' as <-.
  unfold dict_of_pairs. rewrite dict_keys_update. split.
  - intros [[] | Hin]. apply in_map_iff in Hin as ([k' cpus] & <- & Hin).
    destruct (mapM_r_In_r _ _ _ _ Hm Hin) as (nodedir & Hdir & Hentry).
    apply In_filter_node_dir in Hdir as [Hdir Hnode].
    apply node_cpus_entry_inv in Hentry as [Hint _].
    exists nodedir. auto.
  - intros (nodedir & Hdir & Hnode & Hint). right.
    destruct (mapM_r_In_l _ _ _ nodedir Hm) as ([k' cpus] & Hin & Hentry).
    { apply In_filter_node_dir. auto. }
    apply node_cpus_entry_inv in Hentry as [Hint' _].
    rewrite Hint in Hint'. injection Hint' as <-.
    apply in_map_iff. exists (k, cpus). auto.
Qed.

Lemma parse_node_cpus_keys_witness :
  In 0 (dict_keys [(0, ({[ 0; 1 ]} : gset Z))])
  <-> exists nodedir,
        In nodedir [py "has_cpu"; py "node0"; py "online"]
        /\ is_node_dir nodedir /\ PyStr.int (drop 4 nodedir) = Ok 0.
Proof.
  apply (parse_node_cpus_keys example_host).
  - reflexivity.
  - vm_compute. reflexivity.
Defined.

(** X8. When the NUMA CPU reader returns, the set it gives for a node is
    the decoding of the whole text of the CPU list file of a listed node
    directory whose name ends in that node's number. *)
Theorem parse_node_cpus_values
  (env : Env) (names : list str) (node_cpus : dict Z (gset Z))
  (k : Z) (cpus : gset Z) :
  sysfs_node_entries env = Some names ->
  parse_node_cpus env = Ok node_cpus ->
  dict_get node_cpus k = Some cpus ->
  exists nodedir text,
    In nodedir names /\ is_node_dir nodedir
    /\ PyStr.int (drop 4 nodedir) = Ok k
    /\ read_file env (cpulist_path nodedir) = Ok text
    /\ decode_listformat text = Ok cpus.
Proof.
  intros Hnames Hok Hget.
  destruct (parse_node_cpus_entries env node_cpus Hok)
    as (names' & entries & Hnames' & Hm & ->).
  rewrite Hnames in Hnames'. injection Hnames' as <-.
  apply dict_get_update in Hget as [Hin | Hget]; [| discriminate Hget].
  destruct (mapM_r_In_r _ _ _ _ Hm Hin) as (nodedir & Hdir & Hentry).
  apply In_filter_node_dir in Hdir as [Hdir Hnode].
  apply node_cpus_entry_inv in Hentry as (Hint & text & Hread & Hdec).
  exists nodedir, text. auto.
Qed.

Lemma parse_node_cpus_values_witness :
  exists nodedir text,
    In nodedir [py "has_cpu"; py "node0"; py "online"]
    /\ is_node_dir nodedir
    /\ PyStr.int (drop 4 nodedir) = Ok 0
    /\ read_file example_host (cpulist_path nodedir) = Ok text
    /\ decode_listformat text = Ok {[ 0; 1 ]}.
Proof.
  apply (parse_node_cpus_values example_host _ [(0, {[ 0; 1 ]})]).
  - reflexivity.
  - vm_compute. reflexivity.
  - reflexivity.
Defined.

(** X9. A node directory whose CPU list is blank, as that of a node with
    memory and no CPU, is not given the empty set: the NUMA CPU reader
    raises. *)
Theorem parse_node_cpus_blank
  (env : Env) (names : list str) (nodedir pad : str) :
  sysfs_node_entries env = Some names ->
  In nodedir names -> is_node_dir nodedir ->
  read_file env (cpulist_path nodedir) = Ok pad ->
  pad <> [] -> all_space pad ->
  exists e, parse_node_cpus env = Raise e.
Proof.
  intros Hnames Hdir Hnode Hread Hne Hpad.
  destruct (parse_node_cpus env) as [node_cpus |] eqn:Hok; [| eauto].
  exfalso.
  destruct (parse_node_cpus_entries env node_cpus Hok)
    as (names' & entries & Hnames' & Hm & _).
  rewrite Hnames in Hnames'. injection Hnames' as <-.
  destruct (mapM_r_In_l _ _ _ nodedir Hm) as ([k cpus] & _ & Hentry).
  { apply In_filter_node_dir. auto. }
  apply node_cpus_entry_inv in Hentry as (_ & text & Hread' & Hdec).
  rewrite Hread in Hread'. injection Hread' as <-.
  rewrite decode_listformat_space in Hdec by assumption. discriminate Hdec.
Qed.

Lemma parse_node_cpus_blank_witness :
  exists e, parse_node_cpus host_memory_only_node = Raise e.
Proof.
  apply (parse_node_cpus_blank host_memory_only_node
           [py "node0"; py "node1"] (py "node1") newline).
  - reflexivity.
  - right. left. reflexivity.
  - reflexivity.
  - reflexivity.
  - discriminate.
  - repeat constructor.
Defined.

(** ** CPU busy time, continued *)

Lemma dict_get_update_last {K V : Type} `{EqDecision K}
  (l1 l2 : list (K * V)) (d : dict K V) (k : K) (v : V) :
  ~ In k (map fst l2) ->
  dict_get (dict_update d (l1 ++ (k, v) :: l2)) k = Some v.
Proof.
  intros Hk. unfold dict_update. rewrite fold_left_app. cbn [fold_left fst snd].
  set (d1 := dict_set _ k v).
  assert (H1 : dict_get d1 k = Some v).
  { unfold d1. rewrite dict_get_set. destruct (decide (k = k)); congruence. }
  clearbody d1. revert d1 H1.
  induction l2 as [| [k0 v0] l2 IH]; intros d1 H1; [exact H1 |].
  cbn [fold_left fst snd]. apply IH.
  - intros Hin. apply Hk. right. exact Hin.
  - rewrite dict_get_set. destruct (decide (k0 = k)) as [-> | _]; [| exact H1].
    exfalso. apply Hk. left. reflexivity.
Qed.

Lemma cpu_entries_app (l1 l2 : list stat_line) :
  cpu_entries (l1 ++ l2) = cpu_entries l1 ++ cpu_entries l2.
Proof.
  induction l1 as [| [rest | cpu_id counters | text] l1 IH]; cbn [app cpu_entries];
    rewrite ?IH; reflexivity.
Qed.

Section ProcStatMore.
Import PyStr.

(** A per-CPU line that ends before the steal counter. *)
Lemma parse_cpu_line_short (d : dict Z Z) (cpu_id : Z) (counters : list Z) :
  (1 <= length counters < 8)%nat ->
  parse_proc_stat_line d (render_stat_line (CpuLine cpu_id counters))
  = Raise IndexError.
Proof.
  intros Hlen. unfold parse_proc_stat_line. cbn [render_stat_line].
  destruct (of_int_chars cpu_id) as [_ Hne].
  change (py "cpu" ++ of_int cpu_id ++ space ++ join space (map of_int counters))
    with ("c"%char :: "p"%char :: "u"%char
            :: (of_int cpu_id ++ space ++ join space (map of_int counters))).
  change (startswith
            ("c"%char :: "p"%char :: "u"%char
               :: (of_int cpu_id ++ space ++ join space (map of_int counters)))
            (py "cpu")) with true.
  cbv iota.
  change (py " ") with [" "%char]. unfold space.
  change ("c"%char :: "p"%char :: "u"%char
            :: (of_int cpu_id ++ [" "%char]
                ++ join [" "%char] (map of_int counters)))
    with ((py "cpu" ++ of_int cpu_id)
            ++ " "%char :: join [" "%char] (map of_int counters)).
  rewrite split_app.
  - assert (Hcs : counters <> [])
      by (destruct counters; [simpl in Hlen; lia | discriminate]).
    rewrite split_join_of_int by (reflexivity || discriminate || exact Hcs).
    cbn [item nth_error bind].
    change (drop 3 (py "cpu" ++ of_int cpu_id)) with (of_int cpu_id).
    destruct (of_int cpu_id) as [| c s] eqn:Hid; [congruence |].
    rewrite <- Hid, int_of_int. cbn [bind].
    destruct counters as [| c1 [| c2 [| c3 [| c4 [| c5 [| c6 [| c7 [| c8 cs]]]]]]]];
      cbn [length] in Hlen; try lia;
      unfold int_item, item; cbn [map nth_error bind];
      repeat (rewrite int_of_int; cbn [bind]); reflexivity.
  - intros H. apply in_app_or in H as [[H | [H | [H | []]]] | H];
      try discriminate H.
    revert H. apply of_int_notin; [reflexivity | discriminate].
Qed.

Lemma render_cpu_line_no_newline (cpu_id : Z) (counters : list Z) :
  no_newline (render_stat_line (CpuLine cpu_id counters)).
Proof.
  simpl. intros [H | [H | [H | H]]]; try discriminate H.
  apply in_app_or in H as [H | [H | H]].
  - revert H. apply of_int_notin; [reflexivity | discriminate].
  - discriminate H.
  - revert H. apply join_of_int_notin; [reflexivity | discriminate ..].
Qed.

Lemma split_render_stat (lines : list stat_line) :
  lines <> [] ->
  Forall (fun l => no_newline (render_stat_line l)) lines ->
  split newline (render_stat lines) = map render_stat_line lines.
Proof.
  intros Hne Hnl. unfold render_stat, newline. apply split_join.
  - destruct lines; [congruence | discriminate].
  - apply Forall_fmap. exact Hnl.
Qed.

Lemma wf_stat_no_newline (lines : list stat_line) :
  Forall wf_stat_line lines ->
  Forall (fun l => no_newline (render_stat_line l)) lines.
Proof.
  intros H. eapply Forall_impl; [exact H |].
  intros l Hl. apply render_stat_line_no_newline, Hl.
Qed.

End ProcStatMore.

(** X10. The CPU ids of the statistics need not be contiguous nor
    distinct: for any text of well-formed lines the parser returns, and a
    CPU that has several lines is given the busy time of its last line. *)
Theorem parse_proc_stat_last_line
  (before after : list stat_line) (cpu_id : Z) (counters : list Z) :
  Forall wf_stat_line (before ++ CpuLine cpu_id counters :: after) ->
  ~ In cpu_id (map fst (cpu_entries after)) ->
  exists usage,
    parse_proc_stat (render_stat (before ++ CpuLine cpu_id counters :: after))
    = Ok usage
    /\ dict_get usage cpu_id = Some (busy_time counters).
Proof.
  intros Hwf Hlast. eexists. split.
  - apply parse_proc_stat_render. exact Hwf.
  - rewrite cpu_entries_app. cbn [cpu_entries]. unfold dict_of_pairs.
    apply dict_get_update_last. exact Hlast.
Qed.

Lemma parse_proc_stat_last_line_witness :
  exists usage,
    parse_proc_stat
      (render_stat
         ([CpuLine 4 [1; 1; 1; 1; 1; 1; 1; 1]]
            ++ CpuLine 4 [1; 2; 3; 4; 5; 6; 7; 8] :: [OtherLine (py "ctxt 1")]))
    = Ok usage
    /\ dict_get usage 4 = Some (busy_time [1; 2; 3; 4; 5; 6; 7; 8]).
Proof.
  apply (parse_proc_stat_last_line
           [CpuLine 4 [1; 1; 1; 1; 1; 1; 1; 1]] [OtherLine (py "ctxt 1")]
           4 [1; 2; 3; 4; 5; 6; 7; 8]).
  - repeat apply List.Forall_cons; try apply List.Forall_nil; cbn; try lia.
    split; [| reflexivity].
    intros H. vm_compute in H. intuition discriminate.
  - intros H. exact H.
Defined.

(** X11. A per-CPU line with at least one counter and fewer than the
    eight up to steal, after well-formed lines, makes the parser raise
    IndexError: a missing counter is not taken as zero. *)
Theorem parse_proc_stat_short_line
  (before after : list stat_line) (cpu_id : Z) (counters : list Z) :
  Forall wf_stat_line before ->
  Forall wf_stat_line after ->
  (1 <= length counters < 8)%nat ->
  parse_proc_stat (render_stat (before ++ CpuLine cpu_id counters :: after))
  = Raise IndexError.
Proof.
  intros Hb Ha Hlen. unfold parse_proc_stat.
  rewrite split_render_stat.
  - rewrite map_app, foldM_app, parse_stat_lines by exact Hb.
    cbn [bind map foldM]. rewrite parse_cpu_line_short by exact Hlen.
    reflexivity.
  - destruct before; discriminate.
  - apply Forall_app. split; [apply wf_stat_no_newline, Hb |].
    constructor; [| apply wf_stat_no_newline, Ha].
    apply render_cpu_line_no_newline.
Qed.

Lemma parse_proc_stat_short_line_witness :
  parse_proc_stat
    (render_stat
       ([AggregateLine (py " 1 2 3 4 5 6 7")]
          ++ CpuLine 0 [1; 2; 3; 4; 5; 6; 7] :: []))
  = Raise IndexError.
Proof.
  apply (parse_proc_stat_short_line [AggregateLine (py " 1 2 3 4 5 6 7")] []
           0 [1; 2; 3; 4; 5; 6; 7]).
  - repeat apply List.Forall_cons; try apply List.Forall_nil.
    intros H. vm_compute in H. intuition discriminate.
  - apply List.Forall_nil.
  - cbn. lia.
Defined.

(** ** Memory counters, continued *)

Section ProcMeminfoMore.
Import PyStr.

Lemma split_ws_one (tok : str) : no_space tok -> tok <> [] -> split_ws tok = [tok].
Proof.
  intros Htok Hne. unfold split_ws.
  rewrite <- (app_nil_r tok) at 1. rewrite split_ws_token by exact Htok.
  rewrite app_nil_r. cbn [split_ws_from].
  destruct (rev tok) as [| c r] eqn:Hr.
  - exfalso. apply Hne. rewrite <- (rev_involutive tok), Hr. reflexivity.
  - rewrite <- Hr, rev_involutive. reflexivity.
Qed.

(** A line that is a counter name and no second field. *)
Lemma parse_meminfo_line_no_value (c : meminfo_counters) (name tail : str) :
  In name counter_names -> no_space tail ->
  parse_proc_meminfo_line c (name ++ tail) = Raise IndexError.
Proof.
  intros Hname Htail.
  assert (Hval : get_value_from_line (name ++ tail) = Raise IndexError).
  { unfold get_value_from_line. rewrite split_ws_one; [reflexivity | |].
    - apply Forall_app. split; [| exact Htail].
      destruct Hname as [<- | [<- | [<- | [<- | []]]]]; repeat constructor.
    - destruct Hname as [<- | [<- | [<- | [<- | []]]]]; discriminate. }
  unfold parse_proc_meminfo_line. rewrite Hval.
  destruct Hname as [<- | [<- | [<- | [<- | []]]]]; reflexivity.
Qed.

End ProcMeminfoMore.

(** X12. A line that begins with one of the four counter names and has no
    second field, after well-formed lines, makes the memory parser raise
    IndexError: the counter is not left at zero. *)
Theorem parse_proc_meminfo_no_value
  (before after : list meminfo_line) (name tail : str) :
  Forall wf_meminfo_line before ->
  Forall wf_meminfo_line after ->
  In name counter_names -> no_space tail ->
  parse_proc_meminfo
    (render_meminfo (before ++ PlainLine (name ++ tail) :: after))
  = Raise IndexError.
Proof.
  intros Hb Ha Hname Htail. unfold parse_proc_meminfo, render_meminfo, newline.
  rewrite split_join.
  - rewrite map_app, foldM_app, parse_meminfo_lines by exact Hb.
    cbn [bind map foldM render_meminfo_line].
    rewrite parse_meminfo_line_no_value by assumption. reflexivity.
  - destruct before; discriminate.
  - apply Forall_fmap, Forall_app. split.
    + eapply Forall_impl; [exact Hb |].
      intros l Hl. apply render_meminfo_line_no_newline, Hl.
    + constructor.
      * cbn [render_meminfo_line]. apply no_space_no_newline, Forall_app.
        split; [| exact Htail].
        destruct Hname as [<- | [<- | [<- | [<- | []]]]]; repeat constructor.
      * eapply Forall_impl; [exact Ha |].
        intros l Hl. apply render_meminfo_line_no_newline, Hl.
Qed.

Lemma parse_proc_meminfo_no_value_witness :
  parse_proc_meminfo
    (render_meminfo
       ([CounterLine (py "MemTotal") space 1000 (py " kB")]
          ++ PlainLine (py "MemFree" ++ py ":") :: []))
  = Raise IndexError.
Proof.
  apply (parse_proc_meminfo_no_value
           [CounterLine (py "MemTotal") space 1000 (py " kB")] []
           (py "MemFree") (py ":")).
  - apply List.Forall_cons; [| apply List.Forall_nil].
    repeat split; try (repeat constructor); try discriminate;
      intros H; vm_compute in H; intuition discriminate.
  - apply List.Forall_nil.
  - right. left. reflexivity.
  - repeat constructor.
Defined.

(** ** The CPU model *)

Section CpuModel.
Import PyStr.

Lemma readlines_line (b : str) :
  forall cur rest : str,
    no_newline b ->
    readlines_from cur (b ++ newline ++ rest)
    = (rev cur ++ b ++ newline) :: readlines_from [] rest.
Proof.
  induction b as [| c b IH]; intros cur rest Hb.
  - cbn [app readlines_from newline].
    destruct (decide ("010"%char = "010"%char)); [| congruence].
    cbn [rev app]. reflexivity.
  - cbn [app readlines_from].
    destruct (decide (c = "010"%char)) as [-> | Hc];
      [exfalso; apply Hb; left; reflexivity |].
    rewrite IH by (intros H; apply Hb; right; exact H).
    cbn [rev]. rewrite <- !app_assoc. reflexivity.
Qed.

Lemma readlines_lines (bodies : list str) (rest : str) :
  Forall no_newline bodies ->
  readlines (text_of_lines bodies ++ rest)
  = map (fun b => b ++ newline) bodies ++ readlines rest.
Proof.
  unfold readlines, text_of_lines.
  induction 1 as [| b bodies Hb _ IH]; [reflexivity |].
  cbn [map concat]. rewrite <- !app_assoc.
  rewrite readlines_line by exact Hb. cbn [rev app]. rewrite IH. reflexivity.
Qed.

Lemma text_of_lines_app (l1 l2 : list str) (b : str) :
  text_of_lines (l1 ++ b :: l2)
  = text_of_lines l1 ++ b ++ newline ++ text_of_lines l2.
Proof.
  unfold text_of_lines. rewrite map_app, concat_app. cbn [map concat].
  rewrite <- app_assoc. reflexivity.
Qed.

Lemma startswith_line (b p rest : str) :
  no_newline p -> startswith b p = false ->
  startswith (b ++ newline ++ rest) p = false.
Proof.
  revert b. induction p as [| a p IH]; intros b Hp Hb; [discriminate Hb |].
  destruct b as [| c b]; cbn [app newline startswith] in *.
  - destruct (decide (a = "010"%char)) as [-> | _]; [| reflexivity].
    exfalso. apply Hp. left. reflexivity.
  - destruct (decide (a = c)); [| reflexivity].
    apply IH; [intros H; apply Hp; right; exact H | exact Hb].
Qed.

Lemma startswith_app (p s : str) : startswith (p ++ s) p = true.
Proof.
  induction p as [| a p IH]; [reflexivity |].
  cbn [app startswith]. destruct (decide (a = a)); [exact IH | congruence].
Qed.

Lemma startswith_more (b p rest : str) :
  startswith b p = true -> startswith (b ++ rest) p = true.
Proof.
  revert b. induction p as [| a p IH]; intros b Hb; [reflexivity |].
  destruct b as [| c b]; [discriminate Hb |]. cbn [app startswith] in *.
  destruct (decide (a = c)); [apply IH, Hb | discriminate Hb].
Qed.

Lemma first_model_name_skip (before : list str) (lines : list str) :
  Forall other_line before ->
  first_model_name (map (fun b => b ++ newline) before ++ lines)
  = first_model_name lines.
Proof.
  induction 1 as [| b before [Hnl Hb] _ IH]; [reflexivity |].
  cbn [map app first_model_name].
  rewrite <- (app_nil_r (b ++ newline)), <- app_assoc.
  rewrite startswith_line;
    [exact IH | intros H; vm_compute in H; intuition discriminate | exact Hb].
Qed.

Lemma until_newline_line (value rest : str) :
  no_newline value -> until_newline (value ++ newline ++ rest) = value.
Proof.
  induction value as [| c value IH]; intros Hv; [reflexivity |].
  cbn [app until_newline].
  destruct (decide (c = "010"%char)) as [-> | _];
    [exfalso; apply Hv; left; reflexivity |].
  rewrite IH by (intros H; apply Hv; right; exact H). reflexivity.
Qed.

Lemma match_model_name_line (pad1 pad2 value : str) :
  all_space pad1 -> all_space pad2 -> no_newline value -> lstrip value = value ->
  match_model_name (model_name_line pad1 pad2 value ++ newline) = Some value.
Proof.
  intros H1 H2 Hnl Hv. unfold match_model_name, model_name_line.
  rewrite <- !app_assoc. rewrite startswith_app.
  change (drop 10 (py "model name" ++ pad1 ++ py ":" ++ pad2 ++ value ++ newline))
    with (pad1 ++ py ":" ++ pad2 ++ value ++ newline).
  rewrite lstrip_pad by exact H1.
  change (lstrip (py ":" ++ pad2 ++ value ++ newline))
    with (":"%char :: (pad2 ++ value ++ newline)).
  destruct (decide (":"%char = ":"%char)); [| congruence].
  rewrite lstrip_pad by exact H2. f_equal.
  destruct value as [| c value]; [reflexivity |].
  assert (Hc : is_space c = false).
  { unfold lstrip in Hv. cbn [lstrip_with] in Hv.
    destruct (is_space c) eqn:E; [| reflexivity].
    exfalso. clear - Hv. 
    assert (Hlen : forall s, (length (lstrip_with is_space s) <= length s)%nat).
    { induction s as [| a s IHs]; simpl; [lia |].
      destruct (is_space a); simpl; lia. }
    specialize (Hlen value). rewrite Hv in Hlen. simpl in Hlen. lia. }
  unfold lstrip. cbn [app lstrip_with]. rewrite Hc.
  change (c :: value ++ newline) with ((c :: value) ++ newline ++ []).
  apply until_newline_line. exact Hnl.
Qed.

Lemma In_lstrip (c : ascii) (s rest : str) : lstrip s = c :: rest -> In c s.
Proof.
  unfold lstrip. induction s as [| a s IH]; cbn [lstrip_with]; [discriminate |].
  destruct (is_space a).
  - intros H. right. apply IH, H.
  - intros [= -> _]. left. reflexivity.
Qed.

Lemma match_model_name_colon (s g : str) :
  match_model_name s = Some g -> In ":"%char s.
Proof.
  unfold match_model_name.
  destruct (startswith s (py "model name")); [| discriminate].
  destruct (lstrip (drop 10 s)) as [| c rest] eqn:Hl; [discriminate |].
  destruct (decide (c = ":"%char)) as [-> | _]; [| discriminate].
  intros _. apply In_lstrip in Hl.
  rewrite <- (take_drop 10 s). apply in_or_app. right. exact Hl.
Qed.

Lemma search_model_name_colon (s g : str) :
  search_model_name s = Some g -> In ":"%char s.
Proof.
  induction s as [| c s IH]; cbn [search_model_name].
  - destruct (match_model_name []) eqn:E; [| discriminate].
    intros _. exact (match_model_name_colon _ _ E).
  - destruct (match_model_name (c :: s)) eqn:E.
    + intros _. exact (match_model_name_colon _ _ E).
    + intros H. right. apply IH, H.
Qed.

End CpuModel.

(** X13. The CPU model is the value of the first line of the processor
    descriptor that begins with the words model name: the text after the
    colon and the whitespace that follows it, up to the end of the line,
    trailing whitespace included; the lines after it are not read. *)
Theorem get_cpu_model_first_line
  (env : Env) (before after : list str) (pad1 pad2 value : str) :
  dict_get (files env) (py "/proc/cpuinfo")
  = Some (text_of_lines (before ++ model_name_line pad1 pad2 value :: after)) ->
  Forall other_line before ->
  all_space pad1 -> no_newline pad1 ->
  all_space pad2 -> no_newline pad2 ->
  no_newline value -> PyStr.lstrip value = value ->
  get_cpu_model env = value.
Proof.
  intros Hfile Hbefore H1 Hn1 H2 Hn2 Hnl Hv. unfold get_cpu_model.
  rewrite Hfile, text_of_lines_app.
  rewrite readlines_lines
    by (eapply Forall_impl; [exact Hbefore | intros b [Hb _]; exact Hb]).
  rewrite first_model_name_skip by exact Hbefore.
  assert (Hline : no_newline (model_name_line pad1 pad2 value)).
  { unfold model_name_line. intros H.
    apply in_app_or in H as [H | H]; [vm_compute in H; intuition discriminate |].
    apply in_app_or in H as [H | H]; [exact (Hn1 H) |].
    apply in_app_or in H as [H | H]; [vm_compute in H; intuition discriminate |].
    apply in_app_or in H as [H | H]; [exact (Hn2 H) | exact (Hnl H)]. }
  unfold PyStr.readlines. rewrite readlines_line by exact Hline.
  cbn [rev app first_model_name].
  assert (Hstart : PyStr.startswith (model_name_line pad1 pad2 value ++ newline)
                     (py "model name") = true).
  { unfold model_name_line. rewrite <- app_assoc. apply startswith_app. }
  rewrite Hstart.
  destruct (model_name_line pad1 pad2 value ++ newline) as [| c s] eqn:Hs.
  { discriminate Hstart. }
  cbn [search_model_name]. rewrite <- Hs.
  rewrite match_model_name_line by assumption. reflexivity.
Qed.

Lemma get_cpu_model_first_line_witness :
  get_cpu_model host_2x2x2 = py "Example CPU @ 2.30GHz".
Proof.
  apply (get_cpu_model_first_line host_2x2x2
           [py "processor" ++ ["009"%char] ++ py ": 0"]
           (skipn 2 (PyStr.split newline (removelast cpuinfo_2x2x2)))
           ["009"%char] space (py "Example CPU @ 2.30GHz")).
  - vm_compute. reflexivity.
  - apply List.Forall_cons; [| apply List.Forall_nil]. split; [| reflexivity].
    intros H. vm_compute in H. intuition discriminate.
  - repeat constructor.
  - intros H. vm_compute in H. intuition discriminate.
  - repeat constructor.
  - intros H. vm_compute in H. intuition discriminate.
  - intros H. vm_compute in H. intuition discriminate.
  - reflexivity.
Defined.

(** X14. The first line that begins with the words model name decides:
    when it has no colon the CPU model is unknown_cpu_model, whatever the
    lines after it say. *)
Theorem get_cpu_model_no_colon
  (env : Env) (before after : list str) (body : str) :
  dict_get (files env) (py "/proc/cpuinfo")
  = Some (text_of_lines (before ++ body :: after)) ->
  Forall other_line before ->
  PyStr.startswith body (py "model name") = true ->
  no_newline body -> ~ In ":"%char body ->
  get_cpu_model env = py "unknown_cpu_model".
Proof.
  intros Hfile Hbefore Hstart Hnl Hcolon. unfold get_cpu_model.
  rewrite Hfile, text_of_lines_app.
  rewrite readlines_lines
    by (eapply Forall_impl; [exact Hbefore | intros b [Hb _]; exact Hb]).
  rewrite first_model_name_skip by exact Hbefore.
  unfold PyStr.readlines. rewrite readlines_line by exact Hnl.
  cbn [rev app first_model_name].
  rewrite startswith_more by exact Hstart.
  destruct (search_model_name (body ++ newline)) as [g |] eqn:Hsearch;
    [| reflexivity].
  exfalso. apply search_model_name_colon in Hsearch.
  apply in_app_or in Hsearch as [H | H]; [exact (Hcolon H) |].
  vm_compute in H. intuition discriminate.
Qed.

Lemma get_cpu_model_no_colon_witness :
  get_cpu_model
    {| files := [(py "/proc/cpuinfo",
                  text_of_lines [py "processor : 0"; py "model name";
                                 py "model name : Example CPU"])];
       sysfs_node_entries := None;
       hostname := py "host0";
       wca_distribution := None;
       clock := 0 |}
  = py "unknown_cpu_model".
Proof.
  apply (get_cpu_model_no_colon _ [py "processor : 0"]
           [py "model name : Example CPU"] (py "model name")).
  - reflexivity.
  - apply List.Forall_cons; [| apply List.Forall_nil]. split; [| reflexivity].
    intros H. vm_compute in H. intuition discriminate.
  - reflexivity.
  - intros H. vm_compute in H. intuition discriminate.
  - intros H. vm_compute in H. intuition discriminate.
Defined.

(** X15. Without a processor descriptor, or with one in which no line
    begins with the words model name, the CPU model is
    unknown_cpu_model; nothing is raised. *)
Theorem get_cpu_model_unknown (env : Env) :
  (forall text,
      dict_get (files env) (py "/proc/cpuinfo") = Some text ->
      Forall (fun line => PyStr.startswith line (py "model name") = false)
        (PyStr.readlines text)) ->
  get_cpu_model env = py "unknown_cpu_model".
Proof.
  intros H. unfold get_cpu_model.
  destruct (dict_get (files env) (py "/proc/cpuinfo")) as [text |];
    [| reflexivity].
  specialize (H text eq_refl).
  induction H as [| line lines Hline _ IH]; [reflexivity |].
  cbn [first_model_name]. rewrite Hline. exact IH.
Qed.

Lemma get_cpu_model_unknown_witness :
  get_cpu_model host_without_ids = py "unknown_cpu_model".
Proof.
  apply (get_cpu_model_unknown host_without_ids).
  intros text H. injection H as <-. vm_compute. repeat constructor.
Defined.

(** ** Tags and measurement points, continued *)

(** X16. The tags are six, in the order sockets, cores, cpus, host,
    wca_version, cpu_model.  The three counts are written as decimal
    numerals that read back as the counts of the platform; the other three
    come from the host alone, the CPU model being read again from the
    processor descriptor and not taken from the platform. *)
Theorem create_labels_tags (env : Env) (platform : Platform) :
  let labels := create_labels env platform in
  dict_keys labels
  = [py "sockets"; py "cores"; py "cpus"; py "host"; py "wca_version";
     py "cpu_model"]
  /\ int_label labels (py "sockets") = Ok (sockets platform)
  /\ int_label labels (py "cores") = Ok (cores platform)
  /\ int_label labels (py "cpus") = Ok (cpus platform)
  /\ dict_get labels (py "host") = Some (hostname env)
  /\ dict_get labels (py "wca_version") = Some (get_wca_version env)
  /\ dict_get labels (py "cpu_model") = Some (get_cpu_model env).
Proof.
  cbv zeta. unfold int_label, dict_item.
  assert (Hl : create_labels env platform
               = [(py "sockets", PyStr.of_int (sockets platform));
                  (py "cores", PyStr.of_int (cores platform));
                  (py "cpus", PyStr.of_int (cpus platform));
                  (py "host", hostname env);
                  (py "wca_version", get_wca_version env);
                  (py "cpu_model", get_cpu_model env)]) by reflexivity.
  rewrite Hl. repeat split; try reflexivity.
  - change (dict_get _ (py "sockets")) with (Some (PyStr.of_int (sockets platform))).
    cbn [bind]. apply int_of_int.
  - change (dict_get _ (py "cores")) with (Some (PyStr.of_int (cores platform))).
    cbn [bind]. apply int_of_int.
  - change (dict_get _ (py "cpus")) with (Some (PyStr.of_int (cpus platform))).
    cbn [bind]. apply int_of_int.
Qed.

Lemma create_metrics_length (p : Platform) :
  length (create_metrics p) = S (length (cpus_usage p)).
Proof.
  rewrite create_metrics_unfold. cbn [length]. rewrite length_map. reflexivity.
Qed.

(** X17. The labels of the measurement points, in order: the memory
    point has none and each busy-time point has the one label cpu with
    the numeral of its own CPU id; so for a platform whose busy-time
    mapping has distinct keys, as every mapping has, the points carry
    pairwise distinct labels. *)
Theorem create_metrics_labels_distinct (p : Platform) :
  NoDup (dict_keys (cpus_usage p)) ->
  map metric_labels (create_metrics p)
  = None :: map (fun entry => Some [(py "cpu", PyStr.of_int (fst entry))])
              (dict_items (cpus_usage p))
  /\ NoDup (map metric_labels (create_metrics p)).
Proof.
  intros Hnd.
  assert (Hlabels : map metric_labels (create_metrics p)
                    = None :: map (fun entry =>
                                     Some [(py "cpu", PyStr.of_int (fst entry))])
                                (dict_items (cpus_usage p))).
  { rewrite create_metrics_unfold. cbn [map]. rewrite map_map. reflexivity. }
  split; [exact Hlabels |]. rewrite Hlabels. clear Hlabels.
  apply NoDup_cons. split.
  - intros Hin. apply list_elem_of_In, in_map_iff in Hin as (e & He & _).
    discriminate He.
  - unfold dict_items, dict_keys in *.
    induction (cpus_usage p) as [| e l IH]; [constructor |].
    cbn [map] in *. apply NoDup_cons in Hnd as [Hnotin Hnd].
    apply NoDup_cons. split; [| apply IH, Hnd].
    intros Hin. apply Hnotin.
    apply list_elem_of_In, in_map_iff in Hin as (e' & He' & Hin).
    injection He' as He'. apply of_int_inj in He'.
    apply list_elem_of_In, in_map_iff. exists e'. auto.
Qed.

Lemma create_metrics_labels_distinct_witness :
  map metric_labels (create_metrics example_platform)
  = [None; Some [(py "cpu", py "0")]; Some [(py "cpu", py "1")]]
  /\ NoDup (map metric_labels (create_metrics example_platform)).
Proof.
  apply (create_metrics_labels_distinct example_platform).
  apply (bool_decide_unpack (NoDup (dict_keys (cpus_usage example_platform)))).
  vm_compute. exact I.
Defined.

(** ** Assembly, continued *)

(** X18. Whatever the assembly returns is consistent: the platform has as
    many busy-time entries as logical processors, its parts are the
    results of the collectors on the host, the RDT record is absent when
    RDT is disabled and the detector's record when it is enabled, and the
    points and the tags are those derived from the returned platform, one
    point more than logical processors. *)
Theorem collect_platform_information_returns
  (env : Env) (rdt_enabled : bool)
  (platform : Platform) (metrics : list Metric) (labels : dict str str) :
  collect_platform_information env rdt_enabled = Ok (platform, metrics, labels) ->
  dict_len (cpus_usage platform) = cpus platform
  /\ collect_topology_information env
     = Ok (cpus platform, cores platform, sockets platform, topology platform)
  /\ (exists stat, read_proc_stat env = Ok stat
                   /\ parse_proc_stat stat = Ok (cpus_usage platform))
  /\ (exists meminfo, read_proc_meminfo env = Ok meminfo
                      /\ parse_proc_meminfo meminfo
                         = Ok (total_memory_used platform))
  /\ parse_node_meminfo env
     = Ok (node_memory_free platform, node_memory_used platform)
  /\ parse_node_cpus env = Ok (node_cpus platform)
  /\ cpu_model platform = get_cpu_model env
  /\ timestamp platform = clock env
  /\ (if rdt_enabled
      then exists info, rdt_information platform = Some info
                        /\ _collect_rdt_information env = Ok info
      else rdt_information platform = None)
  /\ metrics = create_metrics platform
  /\ labels = create_labels env platform
  /\ Z.of_nat (length metrics) = cpus platform + 1.
Proof.
  unfold collect_platform_information. intros H.
  destruct (collect_topology_information env)
    as [[[[nr_of_cpus nr_of_cores] no_of_sockets] topo] |]; [| discriminate H].
  cbn [bind] in H.
  fold (collect_rdt_step env rdt_enabled) in H.
  destruct (collect_rdt_step env rdt_enabled) as [rdt |] eqn:Hstep;
    [| discriminate H].
  cbn [bind] in H.
  assert (Hrdt : if rdt_enabled
                 then exists info, rdt = Some info
                                   /\ _collect_rdt_information env = Ok info
                 else rdt = None).
  { unfold collect_rdt_step in Hstep. destruct rdt_enabled.
    - destruct (_collect_rdt_information env) as [info |]; [| discriminate Hstep].
      injection Hstep as <-. exists info. auto.
    - injection Hstep as <-. reflexivity. }
  clear Hstep.
  destruct (read_proc_stat env) as [stat |]; [| discriminate H].
  cbn [bind] in H.
  destruct (parse_proc_stat stat) as [usage |] eqn:Husage; [| discriminate H].
  cbn [bind] in H.
  destruct (read_proc_meminfo env) as [meminfo |]; [| discriminate H].
  cbn [bind] in H.
  destruct (parse_proc_meminfo meminfo) as [used |] eqn:Hused; [| discriminate H].
  cbn [bind] in H.
  destruct (parse_node_meminfo env) as [[node_free node_used] |];
    [| discriminate H].
  cbn [bind] in H.
  destruct (parse_node_cpus env) as [ncpus |]; [| discriminate H].
  cbn [bind cpus_usage cpus] in H.
  destruct (decide (dict_len usage = nr_of_cpus)) as [Hlen |]; [| discriminate H].
  injection H as <- <- <-. cbn [cpus_usage cpus cores sockets topology
    total_memory_used node_memory_free node_memory_used node_cpus cpu_model
    timestamp rdt_information].
  repeat split; try reflexivity; try assumption; eauto.
  rewrite create_metrics_length. cbn [cpus_usage cpus].
  rewrite <- Hlen. unfold dict_len. lia.
Qed.

Lemma collect_platform_information_returns_witness :
  dict_len (cpus_usage example_platform) = cpus example_platform
  /\ Z.of_nat (length (create_metrics example_platform))
     = cpus example_platform + 1.
Proof.
  destruct (collect_platform_information_returns example_host true
              example_platform (create_metrics example_platform)
              (create_labels example_host example_platform))
    as (H1 & _ & _ & _ & _ & _ & _ & _ & _ & _ & _ & H2).
  - vm_compute. reflexivity.
  - split; [exact H1 | exact H2].
Defined.

(** X19. The RDT record is the only thing the flag changes: when the
    assembly returns with RDT enabled, it returns with RDT disabled the
    same platform without the RDT record, and the same points and
    tags. *)
Theorem collect_platform_information_rdt_disabled
  (env : Env) (platform : Platform) (metrics : list Metric)
  (labels : dict str str) :
  collect_platform_information env true = Ok (platform, metrics, labels) ->
  collect_platform_information env false
  = Ok (without_rdt platform, metrics, labels).
Proof.
  unfold collect_platform_information. intros H.
  destruct (collect_topology_information env)
    as [[[[nr_of_cpus nr_of_cores] no_of_sockets] topo] |]; [| discriminate H].
  cbn [bind] in *.
  destruct (_collect_rdt_information env) as [info |]; [| discriminate H].
  cbn [bind] in H.
  destruct (read_proc_stat env) as [stat |]; [| discriminate H].
  cbn [bind] in *.
  destruct (parse_proc_stat stat) as [usage |]; [| discriminate H].
  cbn [bind] in *.
  destruct (read_proc_meminfo env) as [meminfo |]; [| discriminate H].
  cbn [bind] in *.
  destruct (parse_proc_meminfo meminfo) as [used |]; [| discriminate H].
  cbn [bind] in *.
  destruct (parse_node_meminfo env) as [[node_free node_used] |];
    [| discriminate H].
  cbn [bind] in *.
  destruct (parse_node_cpus env) as [ncpus |]; [| discriminate H].
  cbn [bind cpus_usage cpus] in *.
  destruct (decide (dict_len usage = nr_of_cpus)) as [Hlen |]; [| discriminate H].
  injection H as <- <- <-. reflexivity.
Qed.

Lemma collect_platform_information_rdt_disabled_witness :
  collect_platform_information example_host false
  = Ok (without_rdt example_platform, create_metrics example_platform,
        create_labels example_host example_platform).
Proof.
  apply (collect_platform_information_rdt_disabled example_host).
  vm_compute. reflexivity.
Defined.

(** ** Topology, continued *)

Lemma mapM_r_Ok_Forall {A B : Type} (f : A -> result B) (l : list A) (ys : list B) :
  mapM_r f l = Ok ys -> Forall (fun x => is_ok (f x) = true) l.
Proof.
  revert ys. induction l as [| x l IH]; intros ys H; [constructor |].
  cbn [mapM_r] in H. destruct (f x) as [y |] eqn:Hx; [| discriminate H].
  cbn [bind] in H. destruct (mapM_r f l) as [ys' |]; [| discriminate H].
  constructor; [rewrite Hx; reflexivity | apply (IH ys'); reflexivity].
Qed.

Lemma foldM_Ok_In {A S : Type} (f : S -> A -> result S) (l : list A) :
  forall (s s' : S) (x : A),
    foldM f l s = Ok s' -> In x l -> exists s1 s2, f s1 x = Ok s2.
Proof.
  induction l as [| y l IH]; intros s s' x H Hin; [destruct Hin |].
  cbn [foldM] in H. destruct (f s y) as [s1 |] eqn:Hy; [| discriminate H].
  cbn [bind] in H. destruct Hin as [<- | Hin]; [eauto |].
  exact (IH s1 s' x H Hin).
Qed.

Lemma sorted_groups_Ok {A : Type} (key : A -> result Z) (l : list A)
  (gs : list (Z * list A)) :
  sorted_groups key l = Ok gs -> Forall (fun x => is_ok (key x) = true) l.
Proof.
  unfold sorted_groups. destruct (mapM_r key l) as [keys |] eqn:Hk;
    [| discriminate].
  intros _. exact (mapM_r_Ok_Forall key l keys Hk).
Qed.

Lemma In_sorted_groups {A : Type} (f : A -> Z) (l : list A) (x : A) :
  In x l -> exists g, In g (groupby f (py_sorted f l)) /\ In x (snd g).
Proof.
  intros Hin.
  assert (Hx : In x (concat (map snd (groupby f (py_sorted f l))))).
  { rewrite groupby_concat. apply list_elem_of_In.
    rewrite (py_sorted_perm f l). apply list_elem_of_In. exact Hin. }
  apply in_concat in Hx as (ps & Hps & Hx).
  apply in_map_iff in Hps as (g & <- & Hg). eauto.
Qed.

(** When the grouping returns, every record has the three ids. *)
Lemma build_topology_has_ids (processors : list (dict str str)) (t : topology_t) :
  build_topology processors = Ok t -> Forall has_ids processors.
Proof.
  unfold build_topology. intros H.
  destruct (sorted_groups by_physical_id processors) as [gs |] eqn:Hgs;
    [| discriminate H].
  cbn [bind] in H.
  pose proof (sorted_groups_Ok _ _ _ Hgs) as Hsock.
  rewrite (sorted_groups_pure by_physical_id socket_of) in Hgs
    by (eapply Forall_impl; [exact Hsock | intros p; apply int_field_id_of]).
  injection Hgs as <-.
  apply Forall_forall. intros p Hp. apply list_elem_of_In in Hp.
  destruct (In_sorted_groups socket_of processors p Hp) as ([s ps] & Hg & Hps).
  destruct (foldM_Ok_In _ _ _ _ _ H Hg) as (t1 & t2 & Hadd).
  unfold add_socket in Hadd. cbn [snd] in Hps.
  destruct (sorted_groups by_core_id ps) as [cgs |] eqn:Hcgs;
    [| discriminate Hadd].
  cbn [bind] in Hadd.
  pose proof (sorted_groups_Ok _ _ _ Hcgs) as Hcore.
  rewrite (sorted_groups_pure by_core_id core_of) in Hcgs
    by (eapply Forall_impl; [exact Hcore | intros q; apply int_field_id_of]).
  injection Hcgs as <-.
  destruct (In_sorted_groups core_of ps p Hps) as ([c qs] & Hcg & Hqs).
  destruct (foldM_Ok_In _ _ _ _ _ Hadd Hcg) as (t3 & t4 & Hac).
  unfold add_core in Hac. cbn [snd] in Hqs.
  destruct (mapM_r (int_field (py "processor")) qs) as [cpus |] eqn:Hcpus;
    [| discriminate Hac].
  pose proof (mapM_r_Ok_Forall _ _ _ Hcpus) as Hcpu.
  rewrite Forall_forall in Hsock, Hcore, Hcpu.
  split; [| split].
  - apply Hsock, list_elem_of_In, Hp.
  - apply Hcore, list_elem_of_In, Hps.
  - apply Hcpu, list_elem_of_In, Hqs.
Qed.

Lemma collect_topology_information_pure
  (env : Env) (procinfo : str) (processors : list (dict str str)) :
  read_file env (py "/proc/cpuinfo") = Ok procinfo ->
  parse_processors procinfo = Ok processors ->
  Forall has_ids processors ->
  collect_topology_information env
  = Ok (Z.of_nat (length processors),
        sum_Z (map dict_len (dict_values (topology_of processors))),
        dict_len (topology_of processors), topology_of processors).
Proof.
  intros Hread Hparse Hids. unfold collect_topology_information.
  rewrite Hread. cbn [bind]. rewrite Hparse. cbn [bind].
  rewrite build_topology_pure by exact Hids. reflexivity.
Qed.

Section StableSort.
Context {A : Type} (key : A -> Z).

Lemma insert_by_filter (k : Z) (x : A) (l : list A) :
  filter (fun y => key y = k) (insert_by key x l)
  = filter (fun y => key y = k) (x :: l).
Proof.
  induction l as [| y l IH]; [reflexivity |].
  cbn [insert_by]. destruct (Z.leb_spec (key x) (key y)) as [Hle | Hgt];
    [reflexivity |].
  destruct (decide (key x = k)) as [Hx | Hx].
  - rewrite (filter_cons_False _ y) by lia.
    rewrite IH, !filter_cons_True by exact Hx.
    rewrite (filter_cons_False _ y) by lia. reflexivity.
  - rewrite (filter_cons_False _ x (y :: l)) by exact Hx.
    destruct (decide (key y = k)) as [Hy | Hy].
    + rewrite !filter_cons_True by exact Hy.
      rewrite IH, filter_cons_False by exact Hx. reflexivity.
    + rewrite !(filter_cons_False _ y) by exact Hy.
      rewrite IH, filter_cons_False by exact Hx. reflexivity.
Qed.

(** [sorted] is stable: the elements of one key keep their order. *)
Lemma py_sorted_filter (k : Z) (l : list A) :
  filter (fun y => key y = k) (py_sorted key l) = filter (fun y => key y = k) l.
Proof.
  induction l as [| x l IH]; [reflexivity |].
  change (py_sorted key (x :: l)) with (insert_by key x (py_sorted key l)).
  rewrite insert_by_filter.
  destruct (decide (key x = k)) as [Hx | Hx].
  - rewrite !filter_cons_True by exact Hx. rewrite IH. reflexivity.
  - rewrite !filter_cons_False by exact Hx. exact IH.
Qed.

Lemma sorted_groups_members_eq (l : list A) (k : Z) (g : list A) :
  (k, g) ∈ groupby key (py_sorted key l) ->
  g = filter (fun x => key x = k) l.
Proof.
  intros Hin. destruct (sorted_groups_keys key l) as [Hnd _].
  rewrite <- (groups_filter key _ Hnd (groupby_groups key _) k g Hin).
  rewrite groupby_concat. apply py_sorted_filter.
Qed.

End StableSort.

Lemma topology_of_lookup_eq (l : list (dict str str)) (s c : Z)
  (inner : dict Z (list Z)) (cpus : list Z) :
  In (s, inner) (topology_of l) -> In (c, cpus) inner ->
  cpus = map cpu_of
           (filter (fun p => core_of p = c)
              (filter (fun p => socket_of p = s) l)).
Proof.
  unfold topology_of. intros Hs Hc.
  apply in_map_iff in Hs as ([s' ps] & [= <- <-] & Hs).
  unfold inner_of in Hc.
  apply in_map_iff in Hc as ([c' qs] & [= <- <-] & Hc).
  cbn [fst snd] in *.
  apply list_elem_of_In in Hs, Hc.
  rewrite (sorted_groups_members_eq core_of ps c' qs Hc).
  rewrite (sorted_groups_members_eq socket_of l s' ps Hs). reflexivity.
Qed.

Lemma topology_of_sorted (l : list (dict str str)) :
  StronglySorted Z.lt (dict_keys (topology_of l))
  /\ forall s inner, In (s, inner) (topology_of l) ->
                     StronglySorted Z.lt (dict_keys inner).
Proof.
  split.
  - rewrite topology_of_keys. apply groupby_keys_sorted, py_sorted_sorted.
  - intros s inner Hs. unfold topology_of in Hs.
    apply in_map_iff in Hs as ([s' ps] & [= <- <-] & _).
    unfold inner_of, dict_keys. rewrite map_map. cbn [fst snd].
    apply (groupby_keys_sorted core_of), py_sorted_sorted.
Qed.

(** X20. The structure the topology collector returns is ordered: the
    socket ids are its keys in strictly ascending order, and so are the
    core ids within every socket, whatever the order of the records in
    the processor descriptor. *)
Theorem collect_topology_information_order
  (env : Env) (procinfo : str) (processors : list (dict str str)) :
  read_file env (py "/proc/cpuinfo") = Ok procinfo ->
  parse_processors procinfo = Ok processors ->
  Forall has_ids processors ->
  exists nr_of_cores nr_of_sockets topology,
    collect_topology_information env
    = Ok (Z.of_nat (length processors), nr_of_cores, nr_of_sockets, topology)
    /\ StronglySorted Z.lt (dict_keys topology)
    /\ forall s inner, In (s, inner) topology ->
                       StronglySorted Z.lt (dict_keys inner).
Proof.
  intros Hread Hparse Hids. do 3 eexists. split.
  - apply (collect_topology_information_pure env procinfo); assumption.
  - apply topology_of_sorted.
Qed.

Lemma collect_topology_information_order_witness :
  exists nr_of_cores nr_of_sockets topology,
    collect_topology_information host_2x2x2
    = Ok (Z.of_nat (length processors_2x2x2), nr_of_cores, nr_of_sockets,
          topology)
    /\ StronglySorted Z.lt (dict_keys topology)
    /\ forall s inner, In (s, inner) topology ->
                       StronglySorted Z.lt (dict_keys inner).
Proof.
  apply (collect_topology_information_order host_2x2x2 cpuinfo_2x2x2
           processors_2x2x2).
  - reflexivity.
  - vm_compute. reflexivity.
  - repeat constructor.
Defined.

(** X21. The CPU list of a socket and a core holds the processor ids of
    the records of that socket and core in the order of the processor
    descriptor: sorting by socket and then by core keeps the records of
    equal keys in their order. *)
Theorem collect_topology_information_stable
  (env : Env) (procinfo : str) (processors : list (dict str str)) :
  read_file env (py "/proc/cpuinfo") = Ok procinfo ->
  parse_processors procinfo = Ok processors ->
  Forall has_ids processors ->
  exists nr_of_cores nr_of_sockets topology,
    collect_topology_information env
    = Ok (Z.of_nat (length processors), nr_of_cores, nr_of_sockets, topology)
    /\ forall s c inner cpus,
         In (s, inner) topology -> In (c, cpus) inner ->
         cpus = map cpu_of
                  (filter (fun p => core_of p = c)
                     (filter (fun p => socket_of p = s) processors)).
Proof.
  intros Hread Hparse Hids. do 3 eexists. split.
  - apply (collect_topology_information_pure env procinfo); assumption.
  - intros s c inner cpus. apply topology_of_lookup_eq.
Qed.

Lemma collect_topology_information_stable_witness :
  exists nr_of_cores nr_of_sockets topology,
    collect_topology_information host_2x2x2
    = Ok (Z.of_nat (length processors_2x2x2), nr_of_cores, nr_of_sockets,
          topology)
    /\ forall s c inner cpus,
         In (s, inner) topology -> In (c, cpus) inner ->
         cpus = map cpu_of
                  (filter (fun p => core_of p = c)
                     (filter (fun p => socket_of p = s) processors_2x2x2)).
Proof.
  apply (collect_topology_information_stable host_2x2x2 cpuinfo_2x2x2
           processors_2x2x2).
  - reflexivity.
  - vm_compute. reflexivity.
  - repeat constructor.
Defined.

(** X22. A record of the processor descriptor that lacks an integer
    physical id, core id or processor number makes the topology collector
    raise: no record is skipped and no id is defaulted. *)
Theorem collect_topology_information_missing_id
  (env : Env) (procinfo : str) (processors : list (dict str str))
  (p : dict str str) :
  read_file env (py "/proc/cpuinfo") = Ok procinfo ->
  parse_processors procinfo = Ok processors ->
  In p processors -> ~ has_ids p ->
  exists e, collect_topology_information env = Raise e.
Proof.
  intros Hread Hparse Hp Hids. unfold collect_topology_information.
  rewrite Hread. cbn [bind]. rewrite Hparse. cbn [bind].
  destruct (build_topology processors) as [t |] eqn:Ht; [| cbn [bind]; eauto].
  exfalso. apply Hids.
  pose proof (build_topology_has_ids processors t Ht) as Hall.
  rewrite Forall_forall in Hall. apply Hall, list_elem_of_In, Hp.
Qed.

Lemma collect_topology_information_missing_id_witness :
  exists e, collect_topology_information host_without_ids = Raise e.
Proof.
  apply (collect_topology_information_missing_id host_without_ids
           (render_cpuinfo records_without_ids)
           (map record_dict records_without_ids)
           [(py "processor", py "0"); (py "BogoMIPS", py "50.00")]).
  - reflexivity.
  - vm_compute. reflexivity.
  - left. reflexivity.
  - intros (H & _). vm_compute in H. discriminate H.
Defined.

(** X23. From the text, the exact result: a processor descriptor written
    as the kernel writes it, every record a run of lines of a key, blanks,
    a colon, blanks and a value, closed by a blank line, with integer
    physical id, core id and processor fields in every record, makes the
    topology collector return the number of records as the number of
    logical processors and the grouping of the records by socket and
    core. *)
Theorem collect_topology_information_rendered
  (env : Env) (records : list (list field_line)) :
  read_file env (py "/proc/cpuinfo") = Ok (render_cpuinfo records) ->
  Forall wf_record records ->
  Forall (fun r => has_ids (record_dict r)) records ->
  let processors := map record_dict records in
  collect_topology_information env
  = Ok (Z.of_nat (length records),
        sum_Z (map dict_len (dict_values (topology_of processors))),
        dict_len (topology_of processors), topology_of processors).
Proof.
  intros Hread Hwf Hids processors.
  rewrite (collect_topology_information_pure env (render_cpuinfo records)
             processors).
  - unfold processors. rewrite length_map. reflexivity.
  - exact Hread.
  - apply parse_processors_render. exact Hwf.
  - unfold processors. apply Forall_fmap. exact Hids.
Qed.

Lemma collect_topology_information_rendered_witness :
  collect_topology_information host_2x2x2
  = Ok (8, 4, 2,
        [(0, [(0, [0; 4]); (1, [1; 5])]); (1, [(0, [2; 6]); (1, [3; 7])])]).
Proof.
  apply (collect_topology_information_rendered host_2x2x2 records_2x2x2).
  - reflexivity.
  - wf_records_tac.
  - repeat apply List.Forall_cons; try apply List.Forall_nil;
      repeat split; reflexivity.
Defined.

Lemma groupby_length {A : Type} (key : A -> Z) (l : list A) :
  (length (groupby key l) <= length l)%nat.
Proof.
  induction l as [| x l IH]; [reflexivity |]. cbn [groupby length].
  destruct (groupby key l) as [| [k g] rest]; [simpl; lia |].
  destruct (decide (key x = k)); cbn [length] in *; lia.
Qed.

Lemma py_sorted_length {A : Type} (key : A -> Z) (l : list A) :
  length (py_sorted key l) = length l.
Proof. apply Permutation_length, py_sorted_perm. Qed.

Lemma inner_of_bounds (ps : list (dict str str)) :
  ps <> [] -> 1 <= dict_len (inner_of ps) <= Z.of_nat (length ps).
Proof.
  intros Hne. unfold dict_len, inner_of. rewrite length_map.
  pose proof (groupby_length core_of (py_sorted core_of ps)) as Hle.
  rewrite py_sorted_length in Hle.
  pose proof (groupby_nonempty core_of ps Hne) as Hgs.
  destruct (groupby core_of (py_sorted core_of ps)); [congruence |].
  cbn [length] in *. lia.
Qed.

Lemma groups_bounds (gs : list (Z * list (dict str str))) :
  Forall (group_ok socket_of) gs ->
  Z.of_nat (length gs)
  <= foldr Z.add 0 (map (fun g => dict_len (inner_of (snd g))) gs)
  /\ foldr Z.add 0 (map (fun g => dict_len (inner_of (snd g))) gs)
     <= Z.of_nat (length (concat (map snd gs))).
Proof.
  induction 1 as [| [s ps] gs [Hne _] _ IH]; [simpl; lia |].
  cbn [map foldr concat length fst snd] in *. rewrite length_app.
  pose proof (inner_of_bounds ps Hne). lia.
Qed.

Lemma topology_of_bounds (l : list (dict str str)) :
  dict_len (topology_of l) <= sum_Z (map dict_len (dict_values (topology_of l)))
  /\ sum_Z (map dict_len (dict_values (topology_of l))) <= Z.of_nat (length l).
Proof.
  pose proof (groups_bounds _ (groupby_groups socket_of (py_sorted socket_of l)))
    as Hb.
  rewrite groupby_concat, py_sorted_length in Hb.
  unfold topology_of, dict_values, dict_len at 1.
  rewrite length_map, !map_map, sum_Z_foldr. cbn [snd]. exact Hb.
Qed.

(** X24. The three counts the topology collector returns are ordered:
    there are at most as many sockets as cores and at most as many cores
    as logical processors, every socket having a core and every core a
    logical processor. *)
Theorem collect_topology_information_bounds
  (env : Env) (nr_of_cpus nr_of_cores nr_of_sockets : Z) (t : topology_t) :
  collect_topology_information env
  = Ok (nr_of_cpus, nr_of_cores, nr_of_sockets, t) ->
  0 <= nr_of_sockets <= nr_of_cores /\ nr_of_cores <= nr_of_cpus.
Proof.
  unfold collect_topology_information. intros H.
  destruct (read_file env (py "/proc/cpuinfo")) as [procinfo |];
    [| discriminate H].
  cbn [bind] in H.
  destruct (parse_processors procinfo) as [processors |]; [| discriminate H].
  cbn [bind] in H.
  destruct (build_topology processors) as [t' |] eqn:Ht; [| discriminate H].
  cbn [bind] in H. injection H as <- <- <- <-.
  pose proof (build_topology_has_ids processors t' Ht) as Hids.
  rewrite (build_topology_pure processors Hids) in Ht. injection Ht as <-.
  pose proof (topology_of_bounds processors) as [H1 H2].
  unfold dict_len at 1. lia.
Qed.

Lemma collect_topology_information_bounds_witness :
  0 <= 2 <= 4 /\ 4 <= 8.
Proof.
  apply (collect_topology_information_bounds host_2x2x2 8 4 2
           [(0, [(0, [0; 4]); (1, [1; 5])]); (1, [(0, [2; 6]); (1, [3; 7])])]).
  vm_compute. reflexivity.
Defined.

(** ** NUMA memory, continued *)

Section NodeMeminfoMore.
Import PyStr.

Lemma split_ws_word (w p rest : str) :
  no_space w -> w <> [] -> all_space p -> p <> [] ->
  split_ws (w ++ p ++ rest) = w :: split_ws rest.
Proof.
  intros Hw Hne Hp Hpne. unfold split_ws.
  rewrite split_ws_token by exact Hw. rewrite app_nil_r.
  destruct p as [| c p]; [congruence |].
  apply Forall_cons in Hp as [Hc Hp]. cbn [app].
  rewrite split_ws_close.
  - rewrite rev_involutive. f_equal. apply split_ws_pad. exact Hp.
  - exact Hc.
  - intros H. apply Hne. rewrite <- (rev_involutive w), H. reflexivity.
Qed.

Lemma split_ws_trailing (s pad : str) :
  all_space pad -> forall cur, split_ws_from cur (s ++ pad) = split_ws_from cur s.
Proof.
  intros Hpad. induction s as [| c s IH]; intros cur.
  - cbn [app]. revert cur. induction Hpad as [| c pad Hc _ IH]; intros cur;
      [reflexivity |].
    cbn [split_ws_from]. rewrite Hc. destruct cur; [apply IH |].
    rewrite IH. reflexivity.
  - cbn [app split_ws_from]. destruct (is_space c).
    + destruct cur; rewrite IH; reflexivity.
    + apply IH.
Qed.

Lemma split_ws_node_counter (id : Z) (name pad : str) (value : Z) :
  wf_node_line (NodeCounter name pad value) ->
  split_ws (render_node_line id (NodeCounter name pad value) ++ newline)
  = [py "Node"; of_int id; name ++ py ":"; of_int value; py "kB"].
Proof.
  intros (Hname & Hpad & Hne & _). cbn [render_node_line].
  change (py "Node " ++ of_int id ++ space ++ name ++ py ":" ++ pad
          ++ of_int value ++ py " kB")
    with (py "Node" ++ space ++ of_int id ++ space ++ name ++ py ":" ++ pad
          ++ of_int value ++ space ++ py "kB").
  rewrite <- !app_assoc.
  rewrite split_ws_word by first [discriminate | repeat constructor].
  rewrite split_ws_word
    by first [apply of_int_no_space | apply of_int_chars | discriminate
             | repeat constructor].
  rewrite (app_assoc name (py ":")).
  rewrite split_ws_word.
  - rewrite split_ws_word
      by first [apply of_int_no_space | apply of_int_chars | discriminate
               | repeat constructor].
    rewrite <- (app_nil_r newline).
    rewrite split_ws_word by first [discriminate | repeat constructor].
    reflexivity.
  - apply Forall_app. split; [exact Hname | repeat constructor].
  - destruct name; discriminate.
  - exact Hpad.
  - exact Hne.
Qed.

Lemma contribution_node_line (label : str) (id : Z) (l : node_line) :
  wf_node_line l ->
  contribution (label ++ py ":") (render_node_line id l ++ newline)
  = match l with
    | NodeCounter n _ value =>
        if decide (n = label) then Some (of_int id, of_int value) else None
    | NodeOther _ => None
    end.
Proof.
  intros Hwf. unfold contribution. destruct l as [name pad value | text].
  - rewrite split_ws_node_counter by exact Hwf. cbv beta iota.
    match goal with
    | |- context [@decide (name ++ _ = _) ?i] =>
        destruct (@decide _ i) as [Heq | Hne]
    end;
      destruct (decide (name = label)) as [Hn | Hn]; try reflexivity.
    + exfalso. apply Hn. apply app_inv_tail in Heq. exact Heq.
    + exfalso. apply Hne. rewrite Hn. reflexivity.
  - destruct Hwf as [_ Hlen]. cbn [render_node_line].
    unfold split_ws in *.
    rewrite split_ws_trailing by repeat constructor.
    destruct (split_ws_from [] text) as [| a [| b [| c [| d [| e [| f s]]]]]];
      try reflexivity.
    exfalso. apply Hlen. reflexivity.
Qed.

Lemma node_entries_lines (label : str) (id : Z) (lines : list node_line) :
  Forall wf_node_line lines ->
  mapM_r node_entry
    (omap (contribution (label ++ py ":"))
       (map (fun l => render_node_line id l ++ newline) lines))
  = Ok (map (fun v => (id, Z.shiftl v 10)) (node_values label lines)).
Proof.
  induction 1 as [| l lines Hl _ IH]; [reflexivity |].
  cbn [map omap list_omap node_values].
  rewrite contribution_node_line by exact Hl.
  destruct l as [name pad value | text].
  - destruct (decide (name = label)).
    + cbn [mapM_r]. unfold node_entry at 1. cbn [fst snd].
      rewrite !int_of_int. cbn [bind].
      fold (omap (contribution (label ++ py ":"))
              (map (fun l => render_node_line id l ++ newline) lines)).
      rewrite IH. reflexivity.
    + exact IH.
  - exact IH.
Qed.

Lemma mapM_r_app {A B : Type} (f : A -> result B) (l1 l2 : list A)
  (ys1 ys2 : list B) :
  mapM_r f l1 = Ok ys1 -> mapM_r f l2 = Ok ys2 ->
  mapM_r f (l1 ++ l2) = Ok (ys1 ++ ys2).
Proof.
  revert ys1. induction l1 as [| x l1 IH]; intros ys1 H1 H2.
  - injection H1 as <-. exact H2.
  - cbn [app mapM_r] in *. destruct (f x) as [y |]; [| discriminate H1].
    cbn [bind] in *. destruct (mapM_r f l1) as [ys |]; [| discriminate H1].
    injection H1 as <-. rewrite (IH ys eq_refl H2). reflexivity.
Qed.

Lemma node_entries_mem_lines (label : str) (entries : list mem_entry) :
  Forall (fun e => match e with
                   | MemDir _ lines => Forall wf_node_line lines
                   | MemOther _ => True
                   end) entries ->
  node_entries (label ++ py ":") (mem_lines entries)
  = Ok (mem_entries label entries).
Proof.
  unfold node_entries, mem_lines, mem_entries.
  induction 1 as [| e entries He _ IH]; [reflexivity |].
  cbn [map concat]. rewrite omap_app.
  apply mapM_r_app; [| exact IH].
  destruct e as [id lines | name]; [| reflexivity].
  apply node_entries_lines. exact He.
Qed.

Lemma render_node_line_no_newline (id : Z) (l : node_line) :
  wf_node_line l -> no_newline (render_node_line id l).
Proof.
  destruct l as [name pad value | text]; cbn [render_node_line wf_node_line].
  - intros (Hname & _ & _ & Hpad) H.
    apply in_app_or in H as [H | H]; [vm_compute in H; intuition discriminate |].
    apply in_app_or in H as [H | H];
      [exact (no_space_no_newline _ (of_int_no_space id) H) |].
    apply in_app_or in H as [H | H]; [vm_compute in H; intuition discriminate |].
    apply in_app_or in H as [H | H]; [exact (no_space_no_newline _ Hname H) |].
    apply in_app_or in H as [H | H]; [vm_compute in H; intuition discriminate |].
    apply in_app_or in H as [H | H]; [exact (Hpad H) |].
    apply in_app_or in H as [H | H];
      [exact (no_space_no_newline _ (of_int_no_space value) H) |].
    vm_compute in H. intuition discriminate.
  - intros [H _]. exact H.
Qed.

Lemma node_meminfo_lines_mem (env : Env) (entries : list mem_entry) :
  sysfs_node_entries env = Some (map mem_entry_name entries) ->
  Forall (wf_mem_entry env) entries ->
  node_meminfo_lines env = Ok (mem_lines entries).
Proof.
  intros Hnames Hwf. unfold node_meminfo_lines, listdir_nodes.
  rewrite Hnames. cbn [bind].
  assert (Hm : exists texts,
             mapM_r (fun nodedir => read_file env (meminfo_path nodedir))
               (filter is_node_dir (map mem_entry_name entries)) = Ok texts
             /\ concat (map readlines texts) = mem_lines entries).
  { clear Hnames. unfold mem_lines.
    induction Hwf as [| e entries He _ (texts & IH & Hlines)].
    - exists []. split; reflexivity.
    - cbn [map]. destruct e as [id lines | name].
      + destruct He as [Hlines' Hread].
        rewrite filter_cons_True by reflexivity. cbn [mapM_r].
        rewrite Hread. cbn [bind]. rewrite IH. cbn [bind].
        eexists. split; [reflexivity |].
        cbn [map concat]. rewrite Hlines. f_equal.
        rewrite <- (app_nil_r (text_of_lines _)).
        rewrite readlines_lines.
        * rewrite map_map, app_nil_r. reflexivity.
        * apply Forall_fmap. eapply Forall_impl; [exact Hlines' |].
          intros l Hl. apply render_node_line_no_newline, Hl.
      + rewrite filter_cons_False by exact He.
        exists texts. split; [exact IH | exact Hlines]. }
  destruct Hm as (texts & Hm & Hlines).
  unfold meminfo_path in Hm. rewrite Hm. cbn [bind]. rewrite Hlines.
  reflexivity.
Qed.

End NodeMeminfoMore.

(** X25. On a host whose node directories are named by the word node and
    the node's number, each with a memory file whose counter lines name
    that node, the NUMA memory reader returns the free and the used
    memory keyed by the numbers of the directories, each value the
    kilobytes of the MemFree or MemUsed line multiplied by 1024; the other
    counters, the lines that have not five fields and the other entries of
    the directory add nothing. *)
Theorem parse_node_meminfo_kernel (env : Env) (entries : list mem_entry) :
  sysfs_node_entries env = Some (map mem_entry_name entries) ->
  Forall (wf_mem_entry env) entries ->
  parse_node_meminfo env
  = Ok (dict_of_pairs (mem_entries (py "MemFree") entries),
        dict_of_pairs (mem_entries (py "MemUsed") entries))
  /\ forall name id value,
       In (id, value) (mem_entries name entries) ->
       exists lines kilobytes,
         In (MemDir id lines) entries
         /\ In kilobytes (node_values name lines)
         /\ value = kilobytes * 1024.
Proof.
  intros Hnames Hwf. split.
  - pose proof (node_meminfo_lines_mem env entries Hnames Hwf) as Hlines.
    assert (Hwf' : Forall (fun e => match e with
                                    | MemDir _ lines => Forall wf_node_line lines
                                    | MemOther _ => True
                                    end) entries).
    { eapply Forall_impl; [exact Hwf |].
      intros [id lines | name]; [intros [H _]; exact H | intros _; exact I]. }
    unfold node_meminfo_lines, parse_node_meminfo in *.
    destruct (listdir_nodes env) as [names |]; [| discriminate Hlines].
    cbn [bind] in *.
    destruct (mapM_r _ (filter is_node_dir names)) as [texts |] eqn:Htexts;
      [| discriminate Hlines].
    injection Hlines as Hlines.
    rewrite (parse_node_meminfo_dirs env names texts _ Htexts), Hlines.
    apply parse_node_meminfo_lines.
    + exact (node_entries_mem_lines (py "MemFree") entries Hwf').
    + exact (node_entries_mem_lines (py "MemUsed") entries Hwf').
  - intros name id value Hin. unfold mem_entries in Hin.
    apply in_concat in Hin as (l & Hl & Hin).
    apply in_map_iff in Hl as ([id' lines | other] & <- & He); [| destruct Hin].
    apply in_map_iff in Hin as (v & [= <- <-] & Hv).
    exists lines, v. repeat split; [exact He | exact Hv |].
    rewrite Z.shiftl_mul_pow2 by lia. reflexivity.
Qed.

Lemma parse_node_meminfo_kernel_witness :
  parse_node_meminfo example_host = Ok ([(0, 409600)], [(0, 614400)]).
Proof.
  apply (parse_node_meminfo_kernel example_host
           [MemOther (py "has_cpu");
            MemDir 0 [NodeCounter (py "MemTotal") (py "       ") 1000;
                      NodeCounter (py "MemFree") (py "         ") 400;
                      NodeCounter (py "MemUsed") (py "         ") 600;
                      NodeOther (py "Node 0 HugePages_Total:     0")];
            MemOther (py "online")]).
  - reflexivity.
  - repeat apply List.Forall_cons; try apply List.Forall_nil.
    + unfold wf_mem_entry, is_node_dir. vm_compute. discriminate.
    + split; [| vm_compute; reflexivity].
      repeat apply List.Forall_cons; try apply List.Forall_nil;
        repeat split; try (repeat constructor); try discriminate;
        try (intros H; vm_compute in H; intuition discriminate).
    + unfold wf_mem_entry, is_node_dir. vm_compute. discriminate.
Defined.

(** ** RDT, continued *)

Section RdtMore.
Import PyStr.

Lemma lstrip_head (s : str) (c : ascii) (t : str) :
  lstrip s = c :: t -> is_space c = false.
Proof.
  unfold lstrip. induction s as [| a s IH]; cbn [lstrip_with]; [discriminate |].
  destruct (is_space a) eqn:Ha; [exact IH |].
  intros [= <- _]. exact Ha.
Qed.

Lemma lstrip_suffix (s : str) : exists p, s = p ++ lstrip s.
Proof.
  unfold lstrip. induction s as [| a s [p IH]]; [exists []; reflexivity |].
  cbn [lstrip_with]. destruct (is_space a).
  - exists (a :: p). cbn [app]. f_equal. exact IH.
  - exists []. reflexivity.
Qed.

(** What [strip] returns has whitespace at neither end. *)
Lemma strip_is_stripped (s : str) : stripped (strip s).
Proof.
  unfold strip, strip_with. change (lstrip_with is_space) with lstrip.
  set (a := lstrip s). set (b := lstrip (rev a)).
  split; intros c t H.
  - assert (Hb : b = rev t ++ [c]).
    { rewrite <- (rev_involutive b), H. reflexivity. }
    destruct (lstrip_suffix (rev a)) as [p Hp]. fold b in Hp.
    assert (Ha : a = c :: rev (p ++ rev t)).
    { rewrite <- (rev_involutive a), Hp, Hb, app_assoc, rev_app_distr.
      reflexivity. }
    exact (lstrip_head s c _ Ha).
  - assert (Hb : b = c :: rev t).
    { rewrite <- (rev_involutive b), H, rev_app_distr. reflexivity. }
    exact (lstrip_head (rev a) c _ Hb).
Qed.

Lemma _read_value_inv (env : Env) (subpath v : str) :
  _read_value env subpath = Ok v ->
  stripped v
  /\ exists text, read_file env (resctrl_path subpath) = Ok text
                  /\ v = strip text.
Proof.
  unfold _read_value, resctrl_path.
  destruct (read_file env _) as [text |]; [| discriminate].
  cbn [bind]. intros [= <-]. split; [apply strip_is_stripped |].
  exists text. split; reflexivity.
Qed.

End RdtMore.

Ltac rdt_cases H :=
  unfold _collect_rdt_information in H;
  let body := fresh "schemata_body" in
  match type of H with
  | context [bind (_read_value ?e ?p) _] =>
      destruct (_read_value e p) as [body |]; [| discriminate H]
  end;
  cbn [bind] in H;
  destruct (PyStr.contains (py "L3") body);
  destruct (PyStr.contains (py "MB:") body);
  cbn [bind] in H;
  repeat match type of H with
    | context [bind (_read_value ?e ?p) _] =>
        destruct (_read_value e p) eqn:?; cbn [bind] in H
    | context [bind (read_int_value ?e ?p) _] =>
        destruct (read_int_value e p) eqn:?; cbn [bind] in H
    end;
  try discriminate H;
  injection H as <-.

(** X26. The two text parameters of the record the detector returns, the
    capacity bit mask and the minimal number of its bits, are the texts
    of their files without the whitespace at either end, such as the
    newline that ends the file. *)
Theorem rdt_information_text_parameters (env : Env) (info : RDTInformation) :
  _collect_rdt_information env = Ok info ->
  (forall m, cbm_mask info = Some m ->
             stripped m
             /\ exists text,
                  read_file env (resctrl_path (py "info/L3/cbm_mask")) = Ok text
                  /\ m = PyStr.strip text)
  /\ (forall m, min_cbm_bits info = Some m ->
                stripped m
                /\ exists text,
                     read_file env (resctrl_path (py "info/L3/min_cbm_bits"))
                     = Ok text
                     /\ m = PyStr.strip text).
Proof.
  intros H. rdt_cases H; cbn [cbm_mask min_cbm_bits];
    split; intros m [= <-]; apply _read_value_inv; assumption.
Qed.

Lemma rdt_information_text_parameters_witness :
  stripped (py "fffff")
  /\ exists text,
       read_file example_host (resctrl_path (py "info/L3/cbm_mask")) = Ok text
       /\ py "fffff" = PyStr.strip text.
Proof.
  destruct (rdt_information_text_parameters example_host example_rdt) as [H _].
  - vm_compute. reflexivity.
  - apply (H (py "fffff")). reflexivity.
Defined.

(** X27. For a record the detector returns, control is reported disabled
    exactly when none of the five control parameters is present. *)
Theorem rdt_information_control_disabled (env : Env) (info : RDTInformation) :
  _collect_rdt_information env = Ok info ->
  is_control_enabled info = false
  <-> cbm_mask info = None /\ min_cbm_bits info = None
      /\ num_closids info = None /\ mb_bandwidth_gran info = None
      /\ mb_min_bandwidth info = None.
Proof.
  intros H. rdt_cases H; unfold is_control_enabled; cbn;
    split; intros; repeat split; intuition congruence.
Qed.

Lemma rdt_information_control_disabled_witness :
  is_control_enabled example_rdt = false
  <-> cbm_mask example_rdt = None /\ min_cbm_bits example_rdt = None
      /\ num_closids example_rdt = None /\ mb_bandwidth_gran example_rdt = None
      /\ mb_min_bandwidth example_rdt = None.
Proof.
  apply (rdt_information_control_disabled example_host example_rdt).
  vm_compute. reflexivity.
Defined.
